(** * Polyvuvu: paper-trading ledger, scan orchestrator, market parsing, analyzer

    A shallow embedding of the control logic of the Polyvuvu alert bot:
    - [portfolio.py]: [_load_portfolio], [_save_portfolio], [add_trade],
      [get_performance_summary];
    - [main.py]: [analyze_and_alert], [run_scan], the [--once] branch of
      [main];
    - [polymarket/fetcher.py]: the parsing of [get_active_markets],
      [get_market], [get_market_details], [get_markets_by_tag];
    - [analysis/gemini_analyzer.py]: [analyze_market] of both analyzers,
      [_get_analyzer];
    - [config.py]: [Config.validate], [Config.is_valid];
    - [heartbeat.py].

    Python values that arrive from JSON are kept dynamically typed ([json]);
    Python floats are IEEE binary64 numbers ([float]); Python exceptions are
    values of [exn] carried by [Raise]; mutable state (the ledger file, the
    sequence of collaborator calls, the local counter [alerts_sent]) is
    threaded explicitly by the monad [M].  Console output is modelled where
    building its text can raise (the slices of [market.question]) and left
    out elsewhere. *)

From Stdlib Require Import List String Ascii ZArith Bool Floats Lia.
Import ListNotations.
Local Open Scope string_scope.
Local Open Scope list_scope.
Set Warnings "-register-all".

(** ** Exceptions and results *)

(** The classes derived from [Exception] that the code names or that its
    operations raise.  [JSONDecodeError] and [UnicodeDecodeError] are
    subclasses of [ValueError], [RecursionError] of [RuntimeError],
    [RequestException] of [OSError] (which [IOError] names as well);
    [OtherError] stands for any further class (for instance one raised by a
    client library).  Signals outside [Exception] (keyboard interrupt) are
    not part of the model. *)
Inductive exn : Type :=
| AttributeError
| ValueError
| JSONDecodeError
| UnicodeDecodeError
| KeyError
| IndexError
| TypeError
| OverflowError
| OSError
| RequestException
| RuntimeError
| RecursionError
| OtherError (name : string).

Inductive result (A : Type) : Type :=
| Ok (a : A)
| Raise (e : exn).
Arguments Ok {A} a.
Arguments Raise {A} e.

(** ** State and exception monad

    A computation reads and updates a state and either returns a value or
    raises; the state reached when an exception is raised is kept, as in
    Python, where effects performed before a [raise] are not rolled back. *)
Definition M (S A : Type) : Type := S -> result A * S.

Definition ret {S A : Type} (a : A) : M S A := fun s => (Ok a, s).

Definition bind {S A B : Type} (m : M S A) (k : A -> M S B) : M S B :=
  fun s =>
    match m s with
    | (Ok a, s') => k a s'
    | (Raise e, s') => (Raise e, s')
    end.

Definition raise {S A : Type} (e : exn) : M S A := fun s => (Raise e, s).

Definition lift {S A : Type} (r : result A) : M S A := fun s => (r, s).

Definition get {S : Type} : M S S := fun s => (Ok s, s).

Definition put {S : Type} (s : S) : M S unit := fun _ => (Ok tt, s).

(** [try m] is the body of a [try:] block whose handler is chosen by the
    caller from the returned [result]. *)
Definition try {S A : Type} (m : M S A) : M S (result A) :=
  fun s => let (r, s') := m s in (Ok r, s').

Declare Scope monad_scope.
Delimit Scope monad_scope with monad.
Notation "x <- m ;; k" := (bind m (fun x => k))
  (at level 61, m at next level, right associativity) : monad_scope.
Notation "m ;; k" := (bind m (fun _ => k))
  (at level 61, right associativity) : monad_scope.
Local Open Scope monad_scope.

(** ** Values decoded from JSON *)

Inductive json : Type :=
| JNull
| JBool (b : bool)
| JInt (z : Z)
| JFloat (f : float)
| JStr (s : string)
| JList (l : list json)
| JDict (d : list (string * json)).

(** A Python [dict] with string keys, in insertion order. *)
Definition dict (V : Type) : Type := list (string * V).

Fixpoint dict_get {V : Type} (d : dict V) (k : string) : option V :=
  match d with
  | [] => None
  | (k', v) :: d' => if k' =? k then Some v else dict_get d' k
  end.

Definition keys {V : Type} (d : dict V) : list string := map fst d.

(** ** Markets ([polymarket/fetcher.py], class [Market])

    The dataclass declares [outcome_prices: list[float]], and every
    constructor call in [fetcher.py] passes a list; [add_trade] reads the
    same field with the mapping method [.get].  Both shapes are kept:
    [PricesList] is what the fetcher builds, [PricesDict] is the mapping
    ([{"Yes": 0.35, "No": 0.65}] in the comment of [add_trade]).  [outcomes],
    [question], [slug], [end_date] and [description] are whatever values the
    listing carried: the dataclass declares types and checks none, and the
    fetcher copies the values as they arrive ([null] stands for an absent
    [end_date] or [description]).  The [id] is text, as the API delivers it;
    equality of ids is the only operation made on it. *)
Inductive prices : Type :=
| PricesList (l : list float)
| PricesDict (d : dict float).

Module Market.
Record t : Type := mk {
  id : string;
  question : json;
  slug : json;
  outcome_prices : prices;
  outcomes : json;
  volume : float;
  liquidity : float;
  end_date : json;
  description : json
}.
End Market.

(** [v[:k]], of which only the success matters (the slice feeds console
    output): strings and lists have slices; [None], bools and numbers are
    not subscriptable; a dict takes the slice for a key and fails on it
    ([TypeError], unhashable, up to Python 3.11; the class is [KeyError]
    from 3.12 on, which no handler of the repository tells apart). *)
Definition py_slice (v : json) : result unit :=
  match v with
  | JStr _ | JList _ => Ok tt
  | JNull | JBool _ | JInt _ | JFloat _ | JDict _ => Raise TypeError
  end.

(** ** Ledger ([portfolio.py]) *)

Module Trade.
Record t : Type := mk {
  id : string;
  question : json;
  position : json;
  entry_price : float;
  confidence : Z;
  entry_date : string;
  status : string;
  exit_price : option float;
  pnl : option float;
  resolved_date : option string
}.
End Trade.

(** The content of [PORTFOLIO_FILE]: [None] when the file is missing or does
    not hold JSON, otherwise the list of trades it holds. *)
Definition portfolio_file : Type := option (list Trade.t).

Definition _load_portfolio : M portfolio_file (list Trade.t) :=
  f <- get ;;
  match f with
  | None => ret []
  | Some trades => ret trades
  end.

Definition _save_portfolio (trades : list Trade.t) : M portfolio_file unit :=
  put (Some trades).

(** [market.outcome_prices.get(position, default)]: a list has no attribute
    [get]; a dict hashes its key first, which fails for lists and dicts. *)
Definition prices_get (p : prices) (key : json) (default : float)
  : result float :=
  match p with
  | PricesList _ => Raise AttributeError
  | PricesDict d =>
      match key with
      | JStr s =>
          Ok (match dict_get d s with Some v => v | None => default end)
      | JList _ | JDict _ => Raise TypeError
      | JNull | JBool _ | JInt _ | JFloat _ => Ok default
      end
  end.

Definition is_open (t : Trade.t) : bool := Trade.status t =? "open".

(** [any(t["id"] == market.id for t in trades if t["status"] == "open")] *)
Definition already_trading (mid : string) (trades : list Trade.t) : bool :=
  existsb (fun t => Trade.id t =? mid) (filter is_open trades).

(** [add_trade(market, position, confidence)]; [now] is the text that
    [datetime.now().isoformat()] returns during the call.  The last
    statement prints [market.question[:30]], after the ledger is saved. *)
Definition add_trade (market : Market.t) (position : json) (confidence : Z)
    (now : string) : M portfolio_file unit :=
  trades <- _load_portfolio ;;
  if already_trading (Market.id market) trades then ret tt
  else
    entry_price <- lift (prices_get (Market.outcome_prices market)
                                    position 0.5%float) ;;
    let trade :=
      {| Trade.id := Market.id market;
         Trade.question := Market.question market;
         Trade.position := position;
         Trade.entry_price := entry_price;
         Trade.confidence := confidence;
         Trade.entry_date := now;
         Trade.status := "open";
         Trade.exit_price := None;
         Trade.pnl := None;
         Trade.resolved_date := None |} in
    _save_portfolio (trades ++ [trade]) ;;
    lift (py_slice (Market.question market)).

(** The trades a ledger file holds, as [_load_portfolio] reads them. *)
Definition ledger (f : portfolio_file) : list Trade.t :=
  match f with None => [] | Some trades => trades end.

(** Number of open trades with a given market id. *)
Definition count_open (mid : string) (trades : list Trade.t) : nat :=
  List.length (filter (fun t => is_open t && (Trade.id t =? mid)) trades).

(** *** Performance summary *)

(** [len(l)] as a float; exact below 2^53, far above any list length. *)
Definition float_of_len (n : nat) : float :=
  PrimFloat.of_uint63 (Uint63.of_Z (Z.of_nat n)).

(** [sum(xs)] over floats: starts from the int [0] and adds left to right,
    so the sum of no element is the int [0]. *)
Definition py_sum (xs : list float) : json :=
  match xs with
  | [] => JInt 0
  | _ => JFloat (fold_left PrimFloat.add xs 0%float)
  end.

(** The float a number denotes in a true division by a float. *)
Definition as_float (v : json) : float :=
  match v with
  | JFloat f => f
  | JInt z => PrimFloat.of_uint63 (Uint63.of_Z z)
  | _ => 0%float
  end.

Definition pnls (trades : list Trade.t) : list float :=
  flat_map (fun t => match Trade.pnl t with Some p => [p] | None => [] end)
           trades.

Definition get_performance_summary : M portfolio_file (dict json) :=
  trades <- _load_portfolio ;;
  let closed := filter (fun t => negb (is_open t)) trades in
  let open_trades := filter is_open trades in
  match closed with
  | [] =>
      ret [ ("total_trades", JInt (Z.of_nat (List.length trades)));
            ("open_trades", JInt (Z.of_nat (List.length open_trades)));
            ("closed_trades", JInt 0);
            ("win_rate", JFloat 0%float);
            ("total_pnl", JFloat 0%float);
            ("roi", JFloat 0%float) ]
  | _ =>
      let wins := filter (fun t => Trade.status t =? "won") closed in
      let total_pnl := py_sum (pnls closed) in
      let invested := fold_left PrimFloat.add
                        (map (fun _ => 1%float) closed) 0%float in
      ret [ ("total_trades", JInt (Z.of_nat (List.length trades)));
            ("open_trades", JInt (Z.of_nat (List.length open_trades)));
            ("closed_trades", JInt (Z.of_nat (List.length closed)));
            ("wins", JInt (Z.of_nat (List.length wins)));
            ("win_rate",
             JFloat (PrimFloat.mul
                       (PrimFloat.div (float_of_len (List.length wins))
                                      (float_of_len (List.length closed)))
                       100%float));
            ("total_pnl", total_pnl);
            ("roi",
             if PrimFloat.ltb 0%float invested
             then JFloat (PrimFloat.mul
                            (PrimFloat.div (as_float total_pnl) invested)
                            100%float)
             else JInt 0) ]
  end.

(** ** Edge analyses ([analysis/gemini_analyzer.py], class [EdgeAnalysis]) *)

Module EdgeAnalysis.
Record t : Type := mk {
  market_question : json;
  confidence_score : Z;
  has_edge : bool;
  reasoning : string;
  recommended_position : json;
  current_odds : dict float
}.
End EdgeAnalysis.

(** Python truth value of a decoded value. *)
Definition truthy (v : json) : bool :=
  match v with
  | JNull => false
  | JBool b => b
  | JInt z => negb (z =? 0)%Z
  | JFloat f => negb (PrimFloat.eqb f 0%float)
  | JStr s => negb (s =? "")
  | JList l => match l with [] => false | _ => true end
  | JDict d => match d with [] => false | _ => true end
  end.

(** The text of an alert is the analysis it renders. *)
Inductive message : Type :=
| AlertText (a : EdgeAnalysis.t).

(** [to_alert_message]: the only step that can fail is the concatenation of
    the recommendation label with [recommended_position], evaluated when
    that value is truthy, and a [TypeError] unless it is a string. *)
Definition to_alert_message (a : EdgeAnalysis.t) : result message :=
  match EdgeAnalysis.recommended_position a with
  | JStr _ => Ok (AlertText a)
  | v => if truthy v then Raise TypeError else Ok (AlertText a)
  end.

(** ** Configuration ([config.py]) *)

Module Config.
Record t : Type := mk {
  MIN_CONFIDENCE_THRESHOLD : Z
}.
(** [int(os.getenv("MIN_CONFIDENCE_THRESHOLD", "7"))] with the variable
    unset. *)
Definition default : t := mk 7.
End Config.

(** ** Scan orchestrator ([main.py], [analyze_and_alert]) *)

(** Calls the orchestrator makes to its collaborators, tagged with the
    position of the market in the batch; [Sleep] is [time.sleep]. *)
Inductive call : Type :=
| Analyze (i : nat)
| AddTrade (i : nat)
| SendDM (i : nat)
| SendAlert (i : nat)
| PostMoltbook (i : nat)
| Sleep (seconds : Z).

(** What the collaborators answer while one market is processed.
    [send_dm] and [post_edge_alert] catch every exception themselves and
    return a bool, which only feeds console output; [send_alert] may raise
    (its bot is built on first use and refuses a missing token). *)
Record replies : Type := mk_replies {
  analysis : result EdgeAnalysis.t;   (* analyze_market(...) *)
  now : string;                       (* datetime.now().isoformat() *)
  dm_sent : bool;                     (* moltbook_dm(ask_peer, msg) *)
  alert_sent : result bool;           (* send_alert(message) *)
  posted : bool                       (* moltbook_post(...) *)
}.

Record scan_state : Type := mk_state {
  portfolio : portfolio_file;
  calls : list call;
  alerts_sent : Z
}.

Definition emit (c : call) : M scan_state unit :=
  fun s => (Ok tt, mk_state (portfolio s) (calls s ++ [c]) (alerts_sent s)).

Definition on_portfolio {A : Type} (m : M portfolio_file A)
  : M scan_state A :=
  fun s =>
    let (r, f) := m (portfolio s) in
    (r, mk_state f (calls s) (alerts_sent s)).

Definition set_alerts_sent (n : Z) : M scan_state unit :=
  fun s => (Ok tt, mk_state (portfolio s) (calls s) n).

Definition when {S : Type} (b : bool) (m : M S unit) : M S unit :=
  if b then m else ret tt.

Definition str_truthy (o : option string) : bool :=
  match o with
  | Some s => negb (s =? "")
  | None => false
  end.

(** Whether [moltbook_post] and [moltbook_dm] are bound after the lazy
    import: both are set together, when either option is given and the
    import succeeds. *)
Definition moltbook_bound (post_to_moltbook : bool) (ask_peer : option string)
    (import_ok : bool) : bool :=
  (post_to_moltbook || str_truthy ask_peer) && import_ok.

Definition alert_worthy (cfg : Config.t) (a : EdgeAnalysis.t) : bool :=
  EdgeAnalysis.has_edge a
  && (Config.MIN_CONFIDENCE_THRESHOLD cfg <=? EdgeAnalysis.confidence_score a)%Z.

(** The progress line [print(f"... {market.question[:50]}...")] that
    [verbose] turns on: the only console output of the loop whose text can
    fail to build. *)
Definition announce (verbose : bool) (market : Market.t) : result unit :=
  if verbose then py_slice (Market.question market) else Ok tt.

Section Orchestrator.
Variable cfg : Config.t.
Variable ask_peer : option string.
Variable moltbook : bool.   (* moltbook_post / moltbook_dm are bound *)
Variable verbose : bool.

(** The body of the [try:] block for the market at position [i]. *)
Definition scan_market (i : nat) (market : Market.t) (r : replies)
  : M scan_state unit :=
  emit (Analyze i) ;;
  a <- lift (analysis r) ;;
  if alert_worthy cfg a then
    emit (AddTrade i) ;;
    on_portfolio (add_trade market (EdgeAnalysis.recommended_position a)
                            (EdgeAnalysis.confidence_score a) (now r)) ;;
    when (str_truthy ask_peer && moltbook) (emit (SendDM i)) ;;
    _ <- lift (to_alert_message a) ;;
    emit (SendAlert i) ;;
    sent <- lift (alert_sent r) ;;
    when sent (s <- get ;; set_alerts_sent (alerts_sent s + 1)) ;;
    when moltbook (emit (PostMoltbook i))
  else ret tt.

(** The [for i, market in enumerate(markets)] loop from position [i] on;
    [n] is [len(markets)].  Each iteration starts, before its [try]
    statement, with the progress line of [verbose].  The handler of
    [except Exception] ends in [continue]; the rate-limiting sleep follows
    the [try] statement. *)
Fixpoint scan_loop (n i : nat) (items : list (Market.t * replies))
  : M scan_state unit :=
  match items with
  | [] => ret tt
  | (market, r) :: rest =>
      lift (announce verbose market) ;;
      outcome <- try (scan_market i market r) ;;
      match outcome with
      | Raise _ => scan_loop n (S i) rest
      | Ok _ =>
          when (Z.of_nat i <? Z.of_nat n - 1)%Z (emit (Sleep 6)) ;;
          scan_loop n (S i) rest
      end
  end.
End Orchestrator.

(** [analyze_and_alert(markets, verbose, post_to_moltbook, ask_peer)]; each
    market comes with the collaborators' replies for it, and [import_ok]
    says whether [moltbook.client] can be imported. *)
Definition analyze_and_alert (cfg : Config.t)
    (markets : list (Market.t * replies)) (verbose : bool)
    (post_to_moltbook : bool) (ask_peer : option string) (import_ok : bool)
  : M scan_state Z :=
  let moltbook := moltbook_bound post_to_moltbook ask_peer import_ok in
  set_alerts_sent 0 ;;
  scan_loop cfg ask_peer moltbook verbose (List.length markets) 0 markets ;;
  s <- get ;;
  ret (alerts_sent s).

(** ** Built-ins of the Python runtime

    Functions of the language and its standard library that the code calls
    and whose results are not computed here: the model is stated for every
    runtime.  [None] stands for the one exception the built-in raises;
    [json.loads] has two: [JSONDecodeError] for a text that is no JSON, and
    [RecursionError] for one nested deeper than the interpreter allows. *)
Inductive loaded : Type :=
| Loaded (v : json)
| Malformed
| TooDeep.

Record Builtins : Type := mk_builtins {
  json_loads : string -> loaded;          (* json.loads *)
  float_of_str : string -> option float;  (* float(text); ValueError *)
  float_of_int : Z -> option float;       (* float(n); OverflowError *)
  round1 : float -> float;                (* round(x, 1) *)
  repr : json -> string;                  (* str(v) for v not a string *)
  exn_str : exn -> string                 (* str(e) *)
}.

(** [json.loads(text)] *)
Definition loads (py : Builtins) (text : string) : result json :=
  match json_loads py text with
  | Loaded v => Ok v
  | Malformed => Raise JSONDecodeError
  | TooDeep => Raise RecursionError
  end.

(** Sequencing of pure steps that may raise. *)
Definition and_then {A B : Type} (r : result A) (k : A -> result B)
  : result B :=
  match r with
  | Ok a => k a
  | Raise e => Raise e
  end.

Notation "'do' x <- r ; k" := (and_then r (fun x => k))
  (at level 10, x name, r at level 100, k at level 200).

Definition or_raise {A : Type} (o : option A) (e : exn) : result A :=
  match o with
  | Some a => Ok a
  | None => Raise e
  end.

Fixpoint mapM {A B : Type} (f : A -> result B) (l : list A)
  : result (list B) :=
  match l with
  | [] => Ok []
  | x :: l' => do y <- f x; do ys <- mapM f l'; Ok (y :: ys)
  end.

(** Iteration over a value: the elements of a list, the characters of a
    string (its bytes here), the keys of a dict; anything else is not
    iterable. *)
Definition py_iter (v : json) : result (list json) :=
  match v with
  | JList l => Ok l
  | JStr s =>
      Ok (map (fun c => JStr (String c EmptyString)) (list_ascii_of_string s))
  | JDict d => Ok (map (fun kv => JStr (fst kv)) d)
  | JNull | JBool _ | JInt _ | JFloat _ => Raise TypeError
  end.

(** [len(v)], where it is defined. *)
Definition py_len (v : json) : option nat :=
  match v with
  | JList l => Some (List.length l)
  | JStr s => Some (String.length s)
  | JDict d => Some (List.length d)
  | JNull | JBool _ | JInt _ | JFloat _ => None
  end.

Section Fetcher.
Variable py : Builtins.

(** [float(v)] *)
Definition py_float (v : json) : result float :=
  match v with
  | JFloat f => Ok f
  | JInt z => or_raise (float_of_int py z) OverflowError
  | JBool b => Ok (if b then 1%float else 0%float)
  | JStr s => or_raise (float_of_str py s) ValueError
  | JNull | JList _ | JDict _ => Raise TypeError
  end.

(** The two branches on [isinstance(outcome_prices_str, str)]. *)
Definition parse_outcome_prices (v : json) : result (list float) :=
  match v with
  | JStr s =>
      do decoded <- loads py s;
      do ps <- py_iter decoded;
      mapM py_float ps
  | _ =>
      do ps <- py_iter v;
      mapM py_float ps
  end.

(** The two branches on [isinstance(outcomes_str, str)]. *)
Definition parse_outcomes (v : json) : result json :=
  match v with
  | JStr s => loads py s
  | _ => Ok v
  end.
End Fetcher.

(** One element of the [/markets] response that is a JSON object, as
    [item.get] reads it: [None] is an absent key.  The values are arbitrary,
    those the parser converts and those it copies; the [id] alone is text
    (see [Market]). *)
Module Listing.
Record t : Type := mk {
  id : option string;
  question : option json;
  slug : option json;
  outcomePrices : option json;
  outcomes : option json;
  volume : option json;
  liquidity : option json;
  endDate : option json;
  description : option json
}.
End Listing.

Definition get_or {A : Type} (o : option A) (default : A) : A :=
  match o with
  | Some a => a
  | None => default
  end.

(** [except (ValueError, KeyError, TypeError)] *)
Definition fetcher_catches (e : exn) : bool :=
  match e with
  | ValueError | JSONDecodeError | UnicodeDecodeError | KeyError
  | TypeError => true
  | _ => false
  end.

Section GetActiveMarkets.
Variable py : Builtins.

(** The body of the [try:] block for one listing. *)
Definition parse_listing (item : Listing.t) : result Market.t :=
  do outcome_prices <-
    parse_outcome_prices py (get_or (Listing.outcomePrices item) (JStr "[]"));
  do outcomes <-
    parse_outcomes py (get_or (Listing.outcomes item) (JStr "[]"));
  do volume <- py_float py (get_or (Listing.volume item) (JInt 0));
  do liquidity <- py_float py (get_or (Listing.liquidity item) (JInt 0));
  Ok {| Market.id := get_or (Listing.id item) "";
        Market.question := get_or (Listing.question item) (JStr "Unknown");
        Market.slug := get_or (Listing.slug item) (JStr "");
        Market.outcome_prices := PricesList outcome_prices;
        Market.outcomes := outcomes;
        Market.volume := volume;
        Market.liquidity := liquidity;
        Market.end_date := get_or (Listing.endDate item) JNull;
        Market.description := get_or (Listing.description item) JNull |}.

(** The [for item in data] loop: a listing whose parsing raises one of the
    caught classes is skipped; any other exception leaves the function. *)
Fixpoint parse_listings (data : list Listing.t) : result (list Market.t) :=
  match data with
  | [] => Ok []
  | item :: rest =>
      match parse_listing item with
      | Ok market => do markets <- parse_listings rest; Ok (market :: markets)
      | Raise e =>
          if fetcher_catches e then parse_listings rest else Raise e
      end
  end.

(** [get_active_markets]; [response] is what [self._get("/markets", ...)]
    returns or raises. *)
Definition get_active_markets (response : result (list Listing.t))
  : result (list Market.t) :=
  do data <- response;
  parse_listings data.
End GetActiveMarkets.

(** [len(outcome_prices)] of a market. *)
Definition prices_len (p : prices) : nat :=
  match p with
  | PricesList l => List.length l
  | PricesDict d => List.length d
  end.

(** ** Analyzers ([analysis/gemini_analyzer.py]) *)

(** *** Text operations

    Strings are byte strings; the separators and white space the code
    handles are ASCII, so searching and splitting act on bytes as they do on
    characters.  White space outside ASCII is not stripped. *)

Definition is_space (c : ascii) : bool :=
  let n := nat_of_ascii c in
  ((9 <=? n) && (n <=? 13) || (28 <=? n) && (n <=? 32))%nat.

Fixpoint lstrip (s : string) : string :=
  match s with
  | EmptyString => EmptyString
  | String c s' => if is_space c then lstrip s' else s
  end.

Fixpoint rev_string (s acc : string) : string :=
  match s with
  | EmptyString => acc
  | String c s' => rev_string s' (String c acc)
  end.

(** [s.strip()] *)
Definition strip (s : string) : string :=
  rev_string (lstrip (rev_string (lstrip s) EmptyString)) EmptyString.

(** [sub in s] *)
Fixpoint contains (sub s : string) : bool :=
  String.prefix sub s
  || match s with
     | EmptyString => false
     | String _ s' => contains sub s'
     end.

(** [s.split(sep)] for a non-empty [sep]: [skip] counts the bytes of a
    separator still to be passed over, [cur] is the piece being read. *)
Fixpoint split_go (sep : string) (skip : nat) (cur s : string)
  : list string :=
  match s with
  | EmptyString => [cur]
  | String c s' =>
      match skip with
      | S k => split_go sep k cur s'
      | O =>
          if String.prefix sep s
          then cur :: split_go sep (String.length sep - 1) EmptyString s'
          else split_go sep O (cur ++ String c EmptyString) s'
      end
  end.

Definition split (sep s : string) : list string :=
  split_go sep O EmptyString s.

(** [pieces[k]] *)
Definition piece (pieces : list string) (k : nat) : result string :=
  or_raise (nth_error pieces k) IndexError.

(** The extraction of the JSON text from a reply that may wrap it in a
    fenced block. *)
Definition fence : string := "```".
Definition json_fence : string := "```json".

Definition extract_json (result_text : string) : result string :=
  if contains json_fence result_text then
    do inner <- piece (split json_fence result_text) 1;
    piece (split fence inner) 0
  else if contains fence result_text then
    do inner <- piece (split fence result_text) 1;
    piece (split fence inner) 0
  else Ok result_text.

(** *** Operations on decoded values *)

(** [v[key]] for a string key. *)
Definition getitem (v : json) (key : string) : result json :=
  match v with
  | JDict d => or_raise (dict_get d key) KeyError
  | JNull | JBool _ | JInt _ | JFloat _ | JStr _ | JList _ => Raise TypeError
  end.

(** [v[0]] *)
Definition getitem0 (v : json) : result json :=
  match v with
  | JList l => or_raise (nth_error l 0) IndexError
  | JStr s =>
      match s with
      | EmptyString => Raise IndexError
      | String c _ => Ok (JStr (String c EmptyString))
      end
  | JDict _ => Raise KeyError
  | JNull | JBool _ | JInt _ | JFloat _ => Raise TypeError
  end.

(** [v.strip()]: only strings have the method. *)
Definition strip_method (v : json) : result string :=
  match v with
  | JStr s => Ok (strip s)
  | _ => Raise AttributeError
  end.

(** [v.get(key, default)]: only dicts have the method. *)
Definition get_method (v : json) (key : string) (default : json)
  : result json :=
  match v with
  | JDict d => Ok (get_or (dict_get d key) default)
  | _ => Raise AttributeError
  end.

(** [int(text)]: optional sign, then decimal digits that single underscores
    may group, white space around ignored.  Digits outside ASCII are not
    recognised. *)
Definition digit_of (c : ascii) : option Z :=
  let n := nat_of_ascii c in
  if ((48 <=? n) && (n <=? 57))%nat then Some (Z.of_nat n - 48)%Z else None.

Fixpoint digits (s : string) (acc : Z) (after_digit : bool) : option Z :=
  match s with
  | EmptyString => if after_digit then Some acc else None
  | String c s' =>
      match digit_of c with
      | Some d => digits s' (acc * 10 + d)%Z true
      | None =>
          if Ascii.eqb c "_"%char && after_digit then digits s' acc false
          else None
      end
  end.

Definition int_of_str (text : string) : option Z :=
  match strip text with
  | String "-"%char s => option_map Z.opp (digits s 0%Z false)
  | String "+"%char s => digits s 0%Z false
  | s => digits s 0%Z false
  end.

(** [int(x)] for a float: truncation towards zero. *)
Definition int_of_float (f : float) : result Z :=
  match Prim2SF f with
  | S754_zero _ => Ok 0%Z
  | S754_infinity _ => Raise OverflowError
  | S754_nan => Raise ValueError
  | S754_finite neg m e =>
      let magnitude :=
        if (0 <=? e)%Z then (Z.pos m * 2 ^ e)%Z
        else (Z.pos m / 2 ^ (- e))%Z in
      Ok (if neg then (- magnitude)%Z else magnitude)
  end.

(** [int(v)] *)
Definition py_int (v : json) : result Z :=
  match v with
  | JInt z => Ok z
  | JBool b => Ok (if b then 1%Z else 0%Z)
  | JFloat f => int_of_float f
  | JStr s => or_raise (int_of_str s) ValueError
  | JNull | JList _ | JDict _ => Raise TypeError
  end.

(** Assignment [d[k] = v] in a dict: a present key keeps its place. *)
Fixpoint dict_set {V : Type} (d : dict V) (k : string) (v : V) : dict V :=
  match d with
  | [] => [(k, v)]
  | (k', v') :: d' =>
      if k' =? k then (k', v) :: d' else (k', v') :: dict_set d' k v
  end.

Section Analyzer.
Variable py : Builtins.

(** [str(v)] *)
Definition py_str (v : json) : string :=
  match v with
  | JStr s => s
  | _ => repr py v
  end.

(** [{outcome: round(price * 100, 1)
      for outcome, price in zip(outcomes, outcome_prices)}] *)
Definition odds (outcomes : list string) (outcome_prices : list float)
  : dict float :=
  fold_left
    (fun d op => dict_set d (fst op)
                          (round1 py (PrimFloat.mul (snd op) 100%float)))
    (combine outcomes outcome_prices) [].

(** The [EdgeAnalysis(...)] built from the decoded reply. *)
Definition analysis_of (question : json) (outcomes : list string)
    (outcome_prices : list float) (decoded : json)
  : result EdgeAnalysis.t :=
  let current_odds := odds outcomes outcome_prices in
  do score_v <- get_method decoded "confidence_score" (JInt 5);
  do score <- py_int score_v;
  do edge_v <- get_method decoded "has_edge" (JBool false);
  do reasoning_v <- get_method decoded "reasoning" (JStr "Analysis failed");
  do recommended <- get_method decoded "recommended_position" JNull;
  Ok {| EdgeAnalysis.market_question := question;
        EdgeAnalysis.confidence_score := Z.min 10 (Z.max 1 score);
        EdgeAnalysis.has_edge := truthy edge_v;
        EdgeAnalysis.reasoning := py_str reasoning_v;
        EdgeAnalysis.recommended_position := recommended;
        EdgeAnalysis.current_odds := current_odds |}.

(** The [EdgeAnalysis] both handlers return. *)
Definition failed_analysis (question : json) (outcomes : list string)
    (outcome_prices : list float) (e : exn) : EdgeAnalysis.t :=
  {| EdgeAnalysis.market_question := question;
     EdgeAnalysis.confidence_score := 1;
     EdgeAnalysis.has_edge := false;
     EdgeAnalysis.reasoning := "Analysis failed: " ++ exn_str py e;
     EdgeAnalysis.recommended_position := JNull;
     EdgeAnalysis.current_odds := odds outcomes outcome_prices |}.

(** [except (json.JSONDecodeError, KeyError, TypeError,
             requests.RequestException)] *)
Definition openrouter_catches (e : exn) : bool :=
  match e with
  | JSONDecodeError | KeyError | TypeError | RequestException => true
  | _ => false
  end.

(** [except (json.JSONDecodeError, KeyError, TypeError)] *)
Definition gemini_catches (e : exn) : bool :=
  match e with
  | JSONDecodeError | KeyError | TypeError => true
  | _ => false
  end.

Definition handle (catches : exn -> bool) (question : json)
    (outcomes : list string) (outcome_prices : list float)
    (attempt : result EdgeAnalysis.t) : result EdgeAnalysis.t :=
  match attempt with
  | Ok a => Ok a
  | Raise e =>
      if catches e
      then Ok (failed_analysis question outcomes outcome_prices e)
      else Raise e
  end.

(** [OpenRouterAnalyzer.analyze_market]; [response] is the body that
    [requests.post(...)], [raise_for_status()] and [response.json()]
    deliver, or the exception one of them raises. *)
Definition openrouter_analyze_market (question : json)
    (outcomes : list string) (outcome_prices : list float)
    (response : result json) : result EdgeAnalysis.t :=
  handle openrouter_catches question outcomes outcome_prices
    (do body <- response;
     do choices <- getitem body "choices";
     do choice <- getitem0 choices;
     do msg <- getitem choice "message";
     do content <- getitem msg "content";
     do stripped <- strip_method content;
     do result_text <- extract_json stripped;
     do decoded <- loads py result_text;
     analysis_of question outcomes outcome_prices decoded).

(** [GeminiAnalyzer.analyze_market]; [response] is the text that
    [self.model.generate_content(prompt)] and [response.text] deliver, or
    the exception one of them raises. *)
Definition gemini_analyze_market (question : json)
    (outcomes : list string) (outcome_prices : list float)
    (response : result string) : result EdgeAnalysis.t :=
  handle gemini_catches question outcomes outcome_prices
    (do text <- response;
     do result_text <- extract_json (strip text);
     do decoded <- loads py result_text;
     analysis_of question outcomes outcome_prices decoded).
End Analyzer.

(** * Vocabulary of the properties, and sample data *)

(** A market as [get_active_markets] builds it: prices in a list. *)
Definition listed_market (id : string) : Market.t :=
  {| Market.id := id;
     Market.question := JStr "Will it rain tomorrow?";
     Market.slug := JStr "rain-tomorrow";
     Market.outcome_prices := PricesList [0.25%float; 0.75%float];
     Market.outcomes := JList [JStr "Yes"; JStr "No"];
     Market.volume := 1000%float;
     Market.liquidity := 500%float;
     Market.end_date := JNull;
     Market.description := JNull |}.

(** The same market with the odds held as the mapping [add_trade] reads. *)
Definition mapped_market (id : string) : Market.t :=
  {| Market.id := id;
     Market.question := JStr "Will it rain tomorrow?";
     Market.slug := JStr "rain-tomorrow";
     Market.outcome_prices :=
       PricesDict [("Yes", 0.25%float); ("No", 0.75%float)];
     Market.outcomes := JList [JStr "Yes"; JStr "No"];
     Market.volume := 1000%float;
     Market.liquidity := 500%float;
     Market.end_date := JNull;
     Market.description := JNull |}.

(** A timestamp. *)
Definition noon : string := "2026-01-01T12:00:00".

(** An analysis that reports an edge on [Yes] with the given confidence. *)
Definition edge (score : Z) : EdgeAnalysis.t :=
  {| EdgeAnalysis.market_question := JStr "Will it rain tomorrow?";
     EdgeAnalysis.confidence_score := score;
     EdgeAnalysis.has_edge := true;
     EdgeAnalysis.reasoning := "The forecast moved after the odds were set.";
     EdgeAnalysis.recommended_position := JStr "Yes";
     EdgeAnalysis.current_odds := [("Yes", 25%float); ("No", 75%float)] |}.

(** Collaborators that deliver every message they are given. *)
Definition answering (a : result EdgeAnalysis.t) : replies :=
  mk_replies a noon true (Ok true) true.

(** A first run: no ledger file, no call made yet. *)
Definition fresh : scan_state := mk_state None [] 0.

(** Three markets; the first and the third show an edge with confidence 8,
    the second with confidence 5. *)
Definition scenario_A (market : string -> Market.t)
  : list (Market.t * replies) :=
  [ (market "m1", answering (Ok (edge 8)));
    (market "m2", answering (Ok (edge 5)));
    (market "m3", answering (Ok (edge 8))) ].

(** Three markets; the analyzer raises for the second. *)
Definition scenario_B (market : string -> Market.t)
  : list (Market.t * replies) :=
  [ (market "m1", answering (Ok (edge 8)));
    (market "m2", answering (Raise ValueError));
    (market "m3", answering (Ok (edge 8))) ].

(** The trade [add_trade] builds. *)
Definition new_trade (market : Market.t) (position : json) (confidence : Z)
    (now : string) (entry_price : float) : Trade.t :=
  {| Trade.id := Market.id market;
     Trade.question := Market.question market;
     Trade.position := position;
     Trade.entry_price := entry_price;
     Trade.confidence := confidence;
     Trade.entry_date := now;
     Trade.status := "open";
     Trade.exit_price := None;
     Trade.pnl := None;
     Trade.resolved_date := None |}.

(** The peer-review call, made when a peer is named and the client is
    bound. *)
Definition dm_calls (ask_peer : option string) (moltbook : bool) (i : nat)
  : list call :=
  if str_truthy ask_peer && moltbook then [SendDM i] else [].

(** The Moltbook post, made when the client is bound. *)
Definition post_calls (moltbook : bool) (i : nat) : list call :=
  if moltbook then [PostMoltbook i] else [].

(** What processing one market does: the result of the [try:] body, the
    ledger it leaves, the calls it makes and the increment of [alerts_sent],
    as a function of the replies and of the ledger found. *)
Definition market_run (cfg : Config.t) (ask_peer : option string)
    (moltbook : bool) (i : nat) (market : Market.t) (r : replies)
    (f : portfolio_file) : result unit * portfolio_file * list call * Z :=
  match analysis r with
  | Raise e => (Raise e, f, [Analyze i], 0%Z)
  | Ok a =>
      if alert_worthy cfg a then
        match add_trade market (EdgeAnalysis.recommended_position a)
                        (EdgeAnalysis.confidence_score a) (now r) f with
        | (Raise e, f') => (Raise e, f', [Analyze i; AddTrade i], 0%Z)
        | (Ok _, f') =>
            let dm := dm_calls ask_peer moltbook i in
            match to_alert_message a with
            | Raise e => (Raise e, f', Analyze i :: AddTrade i :: dm, 0%Z)
            | Ok _ =>
                match alert_sent r with
                | Raise e =>
                    (Raise e, f',
                     Analyze i :: AddTrade i :: dm ++ [SendAlert i], 0%Z)
                | Ok sent =>
                    (Ok tt, f',
                     Analyze i :: AddTrade i :: dm ++ SendAlert i
                       :: post_calls moltbook i,
                     if sent then 1%Z else 0%Z)
                end
            end
        end
      else (Ok tt, f, [Analyze i], 0%Z)
  end.

(** The state after a market: its calls and the pause are appended, the
    ledger replaced, the counter advanced. *)
Definition after_market (st : scan_state)
    (run : result unit * portfolio_file * list call * Z) (pause : list call)
  : scan_state :=
  let '(_, f, made, sent) := run in
  mk_state f (calls st ++ made ++ pause) (alerts_sent st + sent).

(** The pause after the market at position [i] of [n]: none after a caught
    exception, none after the last market. *)
Definition pause_after (n i : nat) (outcome : result unit) : list call :=
  match outcome with
  | Raise _ => []
  | Ok _ => if (Z.of_nat i <? Z.of_nat n - 1)%Z then [Sleep 6] else []
  end.

(** Positions of the markets analysed, in the order of the calls. *)
Definition analysed (cs : list call) : list nat :=
  flat_map (fun c => match c with Analyze i => [i] | _ => [] end) cs.

(** The ledger and notification calls made for the market at position [k]. *)
Definition concerns (k : nat) (c : call) : bool :=
  match c with
  | AddTrade j | SendDM j | SendAlert j | PostMoltbook j => Nat.eqb j k
  | Analyze _ | Sleep _ => false
  end.

Definition effects_for (k : nat) (cs : list call) : list call :=
  filter (concerns k) cs.

(** The pauses, in order. *)
Definition sleeps (cs : list call) : list Z :=
  flat_map (fun c => match c with Sleep s => [s] | _ => [] end) cs.

(** Every Telegram send comes after the ledger call for the same market. *)
Definition recorded_first (cs : list call) : Prop :=
  forall pre post j, cs = pre ++ SendAlert j :: post -> In (AddTrade j) pre.

(** The four components of [market_run]. *)
Definition run_outcome (x : result unit * portfolio_file * list call * Z)
  : result unit := fst (fst (fst x)).
Definition run_file (x : result unit * portfolio_file * list call * Z)
  : portfolio_file := snd (fst (fst x)).
Definition run_calls (x : result unit * portfolio_file * list call * Z)
  : list call := snd (fst x).
Definition run_sent (x : result unit * portfolio_file * list call * Z)
  : Z := snd x.

(** The ledger and the counter: what a scan leaves behind besides calls. *)
Definition core (st : scan_state) : portfolio_file * Z :=
  (portfolio st, alerts_sent st).

(** The state in which [analyze_and_alert] enters its loop. *)
Definition entry (st : scan_state) : scan_state :=
  mk_state (portfolio st) (calls st) 0%Z.

(** Every progress line of the batch can be printed: [verbose] is off, or
    every question has a slice. *)
Definition announced (verbose : bool) (markets : list (Market.t * replies))
  : Prop :=
  Forall (fun mr => announce verbose (fst mr) = Ok tt) markets.

(** The markets the loop reaches: those before the first whose progress
    line cannot be printed. *)
Fixpoint heard (verbose : bool) (items : list (Market.t * replies))
  : list (Market.t * replies) :=
  match items with
  | [] => []
  | (market, r) :: rest =>
      match announce verbose market with
      | Ok _ => (market, r) :: heard verbose rest
      | Raise _ => []
      end
  end.

(** How the loop ends: with the exception of the first progress line that
    cannot be printed, if there is one. *)
Fixpoint refusal (verbose : bool) (items : list (Market.t * replies))
  : result unit :=
  match items with
  | [] => Ok tt
  | (market, _) :: rest =>
      match announce verbose market with
      | Ok _ => refusal verbose rest
      | Raise e => Raise e
      end
  end.

(** A runtime for the examples.  It decodes the text of the empty array,
    which is the default the parser substitutes for an absent key, and no
    other text; it converts integers below 2^53, which floats hold exactly,
    and no text; it renders nothing. *)
Definition small_runtime : Builtins :=
  {| json_loads := fun s =>
       if s =? "[]" then Loaded (JList []) else Malformed;
     float_of_str := fun _ => None;
     float_of_int := fun z =>
       if ((0 <=? z) && (z <? 2 ^ 53))%Z
       then Some (PrimFloat.of_uint63 (Uint63.of_Z z))
       else if ((- 2 ^ 53 <? z) && (z <? 0))%Z
       then Some (PrimFloat.opp (PrimFloat.of_uint63 (Uint63.of_Z (- z))))
       else None;
     round1 := fun x => x;
     repr := fun _ => "";
     exn_str := fun _ => "" |}.

(** A listing with two outcomes and one price, all fields already decoded. *)
Definition mismatched_listing : Listing.t :=
  {| Listing.id := Some "m9";
     Listing.question := Some (JStr "Who wins the final?");
     Listing.slug := Some (JStr "final-winner");
     Listing.outcomePrices := Some (JList [JFloat 0.5%float]);
     Listing.outcomes := Some (JList [JStr "Yes"; JStr "No"]);
     Listing.volume := Some (JFloat 1000%float);
     Listing.liquidity := Some (JFloat 500%float);
     Listing.endDate := None;
     Listing.description := None |}.

(** The market built from a listing whose fields convert. *)
Definition market_of (item : Listing.t) (outcome_prices : list float)
    (outcomes : json) (volume liquidity : float) : Market.t :=
  {| Market.id := get_or (Listing.id item) "";
     Market.question := get_or (Listing.question item) (JStr "Unknown");
     Market.slug := get_or (Listing.slug item) (JStr "");
     Market.outcome_prices := PricesList outcome_prices;
     Market.outcomes := outcomes;
     Market.volume := volume;
     Market.liquidity := liquidity;
     Market.end_date := get_or (Listing.endDate item) JNull;
     Market.description := get_or (Listing.description item) JNull |}.

(** A reply of the chat endpoint without any choice. *)
Definition no_choice_body : json := JDict [("choices", JList [])].

(** A reply of the chat endpoint whose message has no text. *)
Definition null_content_body : json :=
  JDict [("choices",
          JList [JDict [("message", JDict [("content", JNull)])]])].

(** A reply of the chat endpoint whose message is [text]. *)
Definition chat_body (text : string) : json :=
  JDict [("choices",
          JList [JDict [("message", JDict [("content", JStr text)])]])].

(** A decoded answer whose confidence is a word. *)
Definition wordy_answer : json :=
  JDict [("confidence_score", JStr "high"); ("has_edge", JBool true)].

(** * Further code of the repository *)

(** ** Confidence indicator

    [EdgeAnalysis.to_alert_message], [TelegramAlertBot.send_edge_alert] and
    [post_edge_alert] draw the same bar: a filled mark repeated
    [confidence // 2] times followed by a blank mark repeated
    [5 - confidence // 2] times. *)
Inductive segment : Type :=
| Filled
| Blank.

(** [text * n]: no copy when [n] is not positive. *)
Definition times {A : Type} (x : A) (n : Z) : list A :=
  repeat x (Z.to_nat n).

Definition confidence_bar (confidence : Z) : list segment :=
  times Filled (confidence / 2) ++ times Blank (5 - confidence / 2).

(** ** Credentials ([config.py], class [Config]) *)

(** The attributes of [Config] that hold keys and tokens. *)
Module Credentials.
Record t : Type := mk {
  TELEGRAM_BOT_TOKEN : string;
  TELEGRAM_CHANNEL_ID : string;
  OPENROUTER_API_KEY : string;
  GEMINI_API_KEY : string;
  MOLTBOOK_API_KEY : string
}.
End Credentials.

(** Truth value of a string. *)
Definition nonempty (s : string) : bool := negb (s =? "").

(** [Config.validate] *)
Definition validate (c : Credentials.t) : list string :=
  (if nonempty (Credentials.TELEGRAM_BOT_TOKEN c) then []
   else ["TELEGRAM_BOT_TOKEN"])
  ++ (if nonempty (Credentials.TELEGRAM_CHANNEL_ID c) then []
      else ["TELEGRAM_CHANNEL_ID"])
  ++ (if negb (nonempty (Credentials.OPENROUTER_API_KEY c))
         && negb (nonempty (Credentials.GEMINI_API_KEY c))
      then ["OPENROUTER_API_KEY or GEMINI_API_KEY"]
      else []).

(** [Config.is_valid] *)
Definition is_valid (c : Credentials.t) : bool :=
  Nat.eqb (List.length (validate c)) 0.

(** ** Choice of the analyzer ([_get_analyzer]) *)

Inductive provider : Type :=
| OpenRouter
| Gemini.

(** The state is the module variable [_analyzer]; [gemini_init] is what
    building a [GeminiAnalyzer] does besides checking the key (it imports
    and configures the client library, which may raise).  Building an
    [OpenRouterAnalyzer] only checks the key. *)
Definition _get_analyzer (c : Credentials.t) (gemini_init : result unit)
  : M (option provider) provider :=
  cached <- get ;;
  match cached with
  | Some p => ret p
  | None =>
      if nonempty (Credentials.OPENROUTER_API_KEY c) then
        put (Some OpenRouter) ;; ret OpenRouter
      else if nonempty (Credentials.GEMINI_API_KEY c) then
        lift gemini_init ;; put (Some Gemini) ;; ret Gemini
      else raise ValueError
  end.

(** ** Single-market lookups and tag filter ([polymarket/fetcher.py]) *)

(** [get_market] and [get_market_details]: the same conversions as in the
    batch parser, inside a [try] whose handler names
    [requests.RequestException] only; [response] is what [self._get(...)]
    returns or raises. *)
Definition get_market (py : Builtins) (response : result Listing.t)
  : result (option Market.t) :=
  match (do data <- response; parse_listing py data) with
  | Ok market => Ok (Some market)
  | Raise RequestException => Ok None
  | Raise e => Raise e
  end.

(** [get_markets_by_tag]: the loop of [get_active_markets] over the
    response for the tag. *)
Definition get_markets_by_tag (py : Builtins)
    (response : result (list Listing.t)) : result (list Market.t) :=
  do data <- response;
  parse_listings py data.

(** ** A single scan ([main.py], [run_scan]) *)

(** The markets of a batch with the collaborators' replies, by position. *)
Definition with_replies (markets : list Market.t) (answers : nat -> replies)
  : list (Market.t * replies) :=
  combine markets (map answers (seq 0 (List.length markets))).

(** [run_scan(verbose, moltbook, ask_peer)]; [response] is what the request
    for the active markets returns or raises, [answers] what the
    collaborators reply for the market at each position.  The handler of
    [except Exception] covers the fetch only: what [analyze_and_alert]
    raises leaves [run_scan]. *)
Definition run_scan (keys : Credentials.t) (cfg : Config.t) (py : Builtins)
    (response : result (list Listing.t)) (answers : nat -> replies)
    (verbose moltbook : bool) (ask_peer : option string) (import_ok : bool)
  : M scan_state unit :=
  match validate keys with
  | _ :: _ => ret tt
  | [] =>
      match get_active_markets py response with
      | Raise _ => ret tt
      | Ok [] => ret tt
      | Ok markets =>
          analyze_and_alert cfg (with_replies markets answers)
                            verbose moltbook ask_peer import_ok ;;
          ret tt
      end
  end.

(** ** Heartbeat ([heartbeat.py]) *)

(** [HEARTBEAT_FILE] as [_load_heartbeat] meets it: absent; present, with
    [read_text] or [json.loads] raising [e]; or holding the JSON text of a
    value, which need not be an object. *)
Inductive heartbeat_file : Type :=
| NoFile
| Unreadable (e : exn)
| Holds (v : json).

(** [except (json.JSONDecodeError, IOError)] *)
Definition heartbeat_catches (e : exn) : bool :=
  match e with
  | JSONDecodeError | OSError | RequestException => true
  | _ => false
  end.

Definition _load_heartbeat : M heartbeat_file json :=
  f <- get ;;
  match f with
  | NoFile => ret (JDict [])
  | Unreadable e => if heartbeat_catches e then ret (JDict []) else raise e
  | Holds v => ret v
  end.

(** Creating the folder and writing the file are taken to succeed, and the
    text written to decode to the value written. *)
Definition _save_heartbeat (data : json) : M heartbeat_file unit :=
  put (Holds data).

(** [data[key] = value] for a string key: only a dict takes it. *)
Definition setitem (data : json) (key : string) (value : json)
  : result json :=
  match data with
  | JDict d => Ok (JDict (dict_set d key value))
  | JNull | JBool _ | JInt _ | JFloat _ | JStr _ | JList _ => Raise TypeError
  end.

(** [update_heartbeat(task)]; [stamp] is the text that
    [datetime.now().isoformat()] returns during the call. *)
Definition update_heartbeat (task stamp : string) : M heartbeat_file unit :=
  data <- _load_heartbeat ;;
  data' <- lift (setitem data task (JStr stamp)) ;;
  _save_heartbeat data'.

(** Points in time are counted in microseconds.  [fromisoformat] is the
    built-in [datetime.fromisoformat] followed by the subtraction from a
    naive [datetime.now()]: [None] when the text is no timestamp
    ([ValueError]) or carries a UTC offset ([TypeError] in the
    subtraction); the code handles both alike.  [round2] is
    [round(x, 2)]. *)
Record Clock : Type := mk_clock {
  fromisoformat : string -> option Z;
  round2 : float -> float
}.

(** The float nearest to an integer; exact below 2^53. *)
Definition float_of_Z (z : Z) : float :=
  if (z <? 0)%Z then PrimFloat.opp (PrimFloat.of_uint63 (Uint63.of_Z (- z)))
  else PrimFloat.of_uint63 (Uint63.of_Z z).

(** [(now - last).total_seconds() / 3600] for points [last] and [now]:
    [total_seconds] divides the microseconds by [10**6].  The conversion
    is the one Python makes for spans below 2^53 microseconds (285
    years). *)
Definition hours_between (last now : Z) : float :=
  PrimFloat.div
    (PrimFloat.div (float_of_Z (now - last)) (float_of_Z 1000000))
    (float_of_Z 3600).

(** The two handled failures of reading a stored timestamp: the value is
    not a string ([TypeError]), or the text is no naive timestamp. *)
Definition stored_time (clock : Clock) (v : json) : option Z :=
  match v with
  | JStr text => fromisoformat clock text
  | _ => None
  end.

(** [key in data] for a string key: a key of a dict, an element of a list,
    a part of a string; nothing else can be searched. *)
Definition py_in (key : string) (data : json) : result bool :=
  match data with
  | JDict d => Ok (match dict_get d key with Some _ => true | None => false end)
  | JList l =>
      Ok (existsb (fun v => match v with JStr s => s =? key | _ => false end)
                  l)
  | JStr s => Ok (contains key s)
  | JNull | JBool _ | JInt _ | JFloat _ => Raise TypeError
  end.

(** [except (ValueError, TypeError)] *)
Definition time_catches (e : exn) : bool :=
  match e with
  | ValueError | JSONDecodeError | UnicodeDecodeError | TypeError => true
  | _ => false
  end.

(** [time_since_last(task)]; [now] is [datetime.now()].  The membership
    test comes before the [try] statement, the subscription inside it. *)
Definition time_since_last (clock : Clock) (task : string) (now : Z)
  : M heartbeat_file float :=
  data <- _load_heartbeat ;;
  present <- lift (py_in task data) ;;
  if negb present then ret PrimFloat.infinity
  else
    match getitem data task with
    | Ok v =>
        match stored_time clock v with
        | Some last => ret (hours_between last now)
        | None => ret PrimFloat.infinity
        end
    | Raise e => if time_catches e then ret PrimFloat.infinity else raise e
    end.

(** Requests of the heartbeat to the Moltbook API. *)
Inductive request : Type :=
| StatusRequest
| DMCheckRequest
| FeedRequest.

Record heartbeat_state : Type := mk_heartbeat {
  heartbeat : heartbeat_file;
  requests : list request
}.

Definition on_heartbeat {A : Type} (m : M heartbeat_file A)
  : M heartbeat_state A :=
  fun s =>
    let (r, f) := m (heartbeat s) in
    (r, mk_heartbeat f (requests s)).

Definition send (q : request) : M heartbeat_state unit :=
  fun s => (Ok tt, mk_heartbeat (heartbeat s) (requests s ++ [q])).

(** [check_moltbook_status], [check_dm_activity] and [get_moltbook_feed], as
    [run_moltbook_heartbeat] uses them: each returns at once without a key,
    otherwise makes its request and catches whatever goes wrong; the value
    returned is dropped by the caller. *)
Definition check (api_key : string) (q : request) : M heartbeat_state unit :=
  when (nonempty api_key) (send q).

(** [run_moltbook_heartbeat]; [now] is [datetime.now()] in
    [time_since_last], [stamp] the text of [datetime.now().isoformat()] in
    [update_heartbeat]. *)
Definition run_moltbook_heartbeat (clock : Clock) (api_key : string)
    (now : Z) (stamp : string) : M heartbeat_state unit :=
  hours <- on_heartbeat (time_since_last clock "moltbook_check" now) ;;
  if PrimFloat.ltb hours 4%float then ret tt
  else
    check api_key StatusRequest ;;
    check api_key DMCheckRequest ;;
    check api_key FeedRequest ;;
    on_heartbeat (update_heartbeat "moltbook_check" stamp).

(** One entry of the summary. *)
Definition summary_entry (clock : Clock) (now : Z) (timestamp : json)
  : dict json :=
  match stored_time clock timestamp with
  | Some last =>
      [ ("last_run", timestamp);
        ("hours_ago", JFloat (round2 clock (hours_between last now))) ]
  | None => [ ("last_run", timestamp); ("hours_ago", JNull) ]
  end.

(** [data.items()]: only a dict has the method. *)
Definition py_items (data : json) : result (dict json) :=
  match data with
  | JDict d => Ok d
  | JNull | JBool _ | JInt _ | JFloat _ | JStr _ | JList _ =>
      Raise AttributeError
  end.

(** [get_heartbeat_summary]; [now i] is [datetime.now()] as read for the
    task at position [i] of the file. *)
Definition get_heartbeat_summary (clock : Clock) (now : nat -> Z)
  : M heartbeat_file (dict (dict json)) :=
  data <- _load_heartbeat ;;
  items <- lift (py_items data) ;;
  ret (fold_left
         (fun summary ikv =>
            dict_set summary (fst (snd ikv))
                     (summary_entry clock (now (fst ikv)) (snd (snd ikv))))
         (combine (seq 0 (List.length items)) items) []).

(** The [--once] branch of [main]: one scan, called with
    [verbose=args.verbose or True], which is [True] whatever the flag, then
    the heartbeat of the scan. *)
Definition main_once (keys : Credentials.t) (cfg : Config.t) (py : Builtins)
    (response : result (list Listing.t)) (answers : nat -> replies)
    (moltbook : bool) (ask_peer : option string) (import_ok : bool)
    (stamp : string) : M (scan_state * heartbeat_file) unit :=
  fun s =>
    match run_scan keys cfg py response answers true moltbook ask_peer
                   import_ok (fst s) with
    | (Ok _, st) =>
        let (r, hb) := update_heartbeat "market_scan" stamp (snd s) in
        (r, (st, hb))
    | (Raise e, st) => (Raise e, (st, snd s))
    end.

(** ** Vocabulary of the further properties *)

(** At most one open trade for each market id. *)
Definition one_open_per_market (trades : list Trade.t) : Prop :=
  forall mid, (count_open mid trades <= 1)%nat.

(** A trade as [add_trade] writes it: open, nothing settled. *)
Definition unsettled (t : Trade.t) : Prop :=
  Trade.status t = "open"
  /\ Trade.exit_price t = None
  /\ Trade.pnl t = None
  /\ Trade.resolved_date t = None.

(** The integer held under a key of a summary. *)
Definition int_at (d : dict json) (k : string) : option Z :=
  match dict_get d k with
  | Some (JInt z) => Some z
  | _ => None
  end.

(** Positions of the markets for which a Telegram send was made. *)
Definition sends (cs : list call) : list nat :=
  flat_map (fun c => match c with SendAlert i => [i] | _ => [] end) cs.

(** Whether a sequence of calls ends with a pause. *)
Definition ends_with_sleep (cs : list call) : bool :=
  match last cs (Analyze 0) with
  | Sleep _ => true
  | _ => false
  end.

(** The calls of a scan in which no market is alert-worthy: each market is
    analysed, with a pause of six seconds after each but the last of [n]. *)
Definition quiet_calls (n i : nat) : list call :=
  Analyze i :: (if (Z.of_nat i <? Z.of_nat n - 1)%Z then [Sleep 6] else []).

(** Two markets whose analyses see no edge worth an alert. *)
Definition quiet_batch : list (Market.t * replies) :=
  [ (listed_market "m1", answering (Ok (edge 5)));
    (listed_market "m2", answering (Ok (edge 6))) ].

(** The text of a chat reply as the OpenRouter analyzer reads it:
    [response.json()["choices"][0]["message"]["content"].strip()]. *)
Definition content_of (body : json) : result string :=
  do choices <- getitem body "choices";
  do choice <- getitem0 choices;
  do msg <- getitem choice "message";
  do content <- getitem msg "content";
  strip_method content.

(** The double quote, and the text of a reply that reports an edge. *)
Definition quote : string := String (Ascii.ascii_of_nat 34) EmptyString.

Definition edge_text : string :=
  ("{" ++ quote ++ "has_edge" ++ quote ++ ": true}")%string.

(** A runtime for the examples that decodes the empty array and
    [edge_text], and no other text. *)
Definition reply_runtime : Builtins :=
  {| json_loads := fun s =>
       if s =? "[]" then Loaded (JList [])
       else if s =? edge_text then Loaded (JDict [("has_edge", JBool true)])
       else Malformed;
     float_of_str := fun _ => None;
     float_of_int := fun _ => None;
     round1 := fun x => x;
     repr := fun _ => "";
     exn_str := fun _ => "" |}.

(** The markets the listings convert to, in the order of the listings. *)
Definition converted (py : Builtins) (data : list Listing.t)
  : list Market.t :=
  flat_map (fun item => match parse_listing py item with
                        | Ok market => [market]
                        | Raise _ => []
                        end) data.

(** A listing whose prices are no JSON text. *)
Definition garbled_listing : Listing.t :=
  {| Listing.id := Some "m7";
     Listing.question := Some (JStr "Will the vote pass?");
     Listing.slug := Some (JStr "vote");
     Listing.outcomePrices := Some (JStr "n/a");
     Listing.outcomes := Some (JList [JStr "Yes"; JStr "No"]);
     Listing.volume := Some (JFloat 10%float);
     Listing.liquidity := Some (JFloat 5%float);
     Listing.endDate := None;
     Listing.description := None |}.

(** A listing whose volume is an integer beyond every float. *)
Definition oversized_listing : Listing.t :=
  {| Listing.id := Some "m8";
     Listing.question := Some (JStr "Will the vote pass?");
     Listing.slug := Some (JStr "vote");
     Listing.outcomePrices := Some (JList [JFloat 0.5%float; JFloat 0.5%float]);
     Listing.outcomes := Some (JList [JStr "Yes"; JStr "No"]);
     Listing.volume := Some (JInt (10 ^ 400));
     Listing.liquidity := Some (JFloat 5%float);
     Listing.endDate := None;
     Listing.description := None |}.

(** A listing without any key. *)
Definition empty_listing : Listing.t :=
  {| Listing.id := None;
     Listing.question := None;
     Listing.slug := None;
     Listing.outcomePrices := None;
     Listing.outcomes := None;
     Listing.volume := None;
     Listing.liquidity := None;
     Listing.endDate := None;
     Listing.description := None |}.

(** The file loads as the object [d]. *)
Definition reads_as (f : heartbeat_file) (d : dict json) : Prop :=
  _load_heartbeat f = (Ok (JDict d), f).

(** The hours [time_since_last] returns for a file that loads as [d]. *)
Definition elapsed (clock : Clock) (task : string) (now : Z)
    (d : dict json) : float :=
  match dict_get d task with
  | Some v =>
      match stored_time clock v with
      | Some last => hours_between last now
      | None => PrimFloat.infinity
      end
  | None => PrimFloat.infinity
  end.

(** The requests of one heartbeat that is due. *)
Definition due_requests (api_key : string) : list request :=
  if nonempty api_key then [StatusRequest; DMCheckRequest; FeedRequest]
  else [].

(** Keys for the examples: Telegram and OpenRouter set, the rest empty. *)
Definition openrouter_keys : Credentials.t :=
  {| Credentials.TELEGRAM_BOT_TOKEN := "123:abc";
     Credentials.TELEGRAM_CHANNEL_ID := "@edges";
     Credentials.OPENROUTER_API_KEY := "sk-or-1";
     Credentials.GEMINI_API_KEY := "";
     Credentials.MOLTBOOK_API_KEY := "" |}.

(** Telegram and Gemini set. *)
Definition gemini_keys : Credentials.t :=
  {| Credentials.TELEGRAM_BOT_TOKEN := "123:abc";
     Credentials.TELEGRAM_CHANNEL_ID := "@edges";
     Credentials.OPENROUTER_API_KEY := "";
     Credentials.GEMINI_API_KEY := "g-1";
     Credentials.MOLTBOOK_API_KEY := "" |}.

(** No key at all. *)
Definition no_keys : Credentials.t :=
  {| Credentials.TELEGRAM_BOT_TOKEN := "";
     Credentials.TELEGRAM_CHANNEL_ID := "";
     Credentials.OPENROUTER_API_KEY := "";
     Credentials.GEMINI_API_KEY := "";
     Credentials.MOLTBOOK_API_KEY := "" |}.

(** A clock for the examples: it reads the timestamps of eight o'clock and
    of noon of the first day of 2026, in microseconds since midnight, and
    rounds nothing. *)
Definition eight : string := "2026-01-01T08:00:00".

Definition sample_clock : Clock :=
  {| fromisoformat := fun text =>
       if text =? eight then Some 28800000000%Z
       else if text =? noon then Some 43200000000%Z
       else None;
     round2 := fun x => x |}.

(** Ten o'clock, two in the afternoon and six in the evening of the same
    day. *)
Definition ten : Z := 36000000000%Z.
Definition afternoon : Z := 50400000000%Z.
Definition evening : Z := 64800000000%Z.

(** A heartbeat file whose stamp of the Moltbook check is no timestamp. *)
Definition damaged_heartbeat : heartbeat_state :=
  mk_heartbeat (Holds (JDict [("market_scan", JStr eight);
                              ("moltbook_check", JInt 0)])) [].

(** A heartbeat file whose Moltbook check was stamped at eight. *)
Definition morning_heartbeat : heartbeat_state :=
  mk_heartbeat (Holds (JDict [("moltbook_check", JStr eight)])) [].

(** A listing whose question is [null]. *)
Definition untitled_listing : Listing.t :=
  {| Listing.id := Some "m5";
     Listing.question := Some JNull;
     Listing.slug := Some (JStr "untitled");
     Listing.outcomePrices := Some (JList [JFloat 0.5%float; JFloat 0.5%float]);
     Listing.outcomes := Some (JList [JStr "Yes"; JStr "No"]);
     Listing.volume := Some (JFloat 10%float);
     Listing.liquidity := Some (JFloat 5%float);
     Listing.endDate := None;
     Listing.description := None |}.

(** [n] opening brackets followed by [n] closing ones. *)
Fixpoint closing (n : nat) : string :=
  match n with
  | O => EmptyString
  | S k => String "]"%char (closing k)
  end.

Fixpoint brackets (n k : nat) : string :=
  match n with
  | O => closing k
  | S m => String "["%char (brackets m k)
  end.

Definition deep_text : string := brackets 2000 2000.

(** A listing whose outcomes are a text nested too deep to decode. *)
Definition nested_listing : Listing.t :=
  {| Listing.id := Some "m6";
     Listing.question := Some (JStr "Will the vote pass?");
     Listing.slug := Some (JStr "vote");
     Listing.outcomePrices := Some (JList [JFloat 0.5%float; JFloat 0.5%float]);
     Listing.outcomes := Some (JStr deep_text);
     Listing.volume := Some (JFloat 10%float);
     Listing.liquidity := Some (JFloat 5%float);
     Listing.endDate := None;
     Listing.description := None |}.

(** A runtime whose decoder gives up on [deep_text]. *)
Definition shallow_runtime : Builtins :=
  {| json_loads := fun s =>
       if s =? "[]" then Loaded (JList [])
       else if s =? deep_text then TooDeep
       else Malformed;
     float_of_str := fun _ => None;
     float_of_int := fun _ => None;
     round1 := fun x => x;
     repr := fun _ => "";
     exn_str := fun _ => "" |}.

(** * Properties of the ledger *)

(** The three ways a call of [add_trade] ends. *)
Lemma add_trade_cases market position confidence now f :
  add_trade market position confidence now f =
  if already_trading (Market.id market) (ledger f) then (Ok tt, f)
  else match prices_get (Market.outcome_prices market) position 0.5%float with
       | Ok entry_price =>
           (py_slice (Market.question market),
            Some (ledger f ++
                  [new_trade market position confidence now entry_price]))
       | Raise e => (Raise e, f)
       end.
Proof.
  unfold add_trade, _load_portfolio, _save_portfolio, bind, get, put, lift, ret.
  destruct f as [trades|]; cbn [ledger];
    destruct (already_trading _ _); try reflexivity;
    destruct (prices_get _ _ _); try reflexivity;
    destruct (py_slice _) as [[]|]; reflexivity.
Qed.

Lemma is_open_spec t : is_open t = true <-> Trade.status t = "open".
Proof. unfold is_open. apply String.eqb_eq. Qed.

Lemma count_open_app mid l1 l2 :
  count_open mid (l1 ++ l2) = (count_open mid l1 + count_open mid l2)%nat.
Proof. unfold count_open. now rewrite filter_app, length_app. Qed.

(** The test of [add_trade] fails exactly when no open trade has the id. *)
Lemma already_trading_false mid trades :
  already_trading mid trades = false <-> count_open mid trades = 0%nat.
Proof.
  unfold already_trading, count_open.
  induction trades as [|t trades IH]; cbn [filter existsb List.length].
  - tauto.
  - destruct (is_open t); cbn [andb existsb].
    + destruct (Trade.id t =? mid); cbn [orb List.length].
      * split; discriminate.
      * exact IH.
    + exact IH.
Qed.

Lemma already_trading_true mid trades :
  already_trading mid trades = true <-> (0 < count_open mid trades)%nat.
Proof.
  destruct (already_trading mid trades) eqn:E.
  - split; [intros _|reflexivity].
    destruct (count_open mid trades) eqn:C; [|lia].
    apply already_trading_false in C. congruence.
  - apply already_trading_false in E. rewrite E. split; [discriminate|lia].
Qed.

(** A ledger that already holds an open trade for the market is left as it
    is, and the call returns. *)
Lemma add_trade_noop market position confidence now f :
  (0 < count_open (Market.id market) (ledger f))%nat ->
  add_trade market position confidence now f = (Ok tt, f).
Proof.
  intros H. apply already_trading_true in H.
  now rewrite add_trade_cases, H.
Qed.

(** A market whose prices are a list cannot be recorded: the lookup of the
    entry price raises before anything is appended. *)
Lemma add_trade_list_prices market position confidence now f l :
  Market.outcome_prices market = PricesList l ->
  count_open (Market.id market) (ledger f) = 0%nat ->
  add_trade market position confidence now f = (Raise AttributeError, f).
Proof.
  intros Hl H. apply already_trading_false in H.
  now rewrite add_trade_cases, H, Hl.
Qed.

(** With the odds held as a mapping the trade is appended, priced at the
    odds of the position or at 0.5 when the mapping lacks it; the call
    returns when the closing print finds a slice of the question. *)
Lemma add_trade_mapping market position confidence now f d :
  Market.outcome_prices market = PricesDict d ->
  count_open (Market.id market) (ledger f) = 0%nat ->
  add_trade market (JStr position) confidence now f =
  (py_slice (Market.question market),
   Some (ledger f ++
         [new_trade market (JStr position) confidence now
                    (get_or (dict_get d position) 0.5%float)])).
Proof.
  intros Hd H. apply already_trading_false in H.
  rewrite add_trade_cases, H, Hd. cbn [prices_get].
  now destruct (dict_get d position).
Qed.

(** C1 (code defect): for every market whose prices are a list, which is
    what the [Market] class declares and the fetcher builds, and whatever
    the position, [add_trade] on a ledger file that is missing or empty
    raises [AttributeError] and appends nothing, where the claim promises
    one new open trade priced at the odds of the position. *)
Theorem add_trade_raises_for_listed_prices :
  forall id question slug (l : list float) outcomes volume liquidity
         end_date description position confidence now,
    let market := Market.mk id question slug (PricesList l) outcomes
                            volume liquidity end_date description in
    add_trade market position confidence now None
      = (Raise AttributeError, None)
    /\ add_trade market position confidence now (Some [])
      = (Raise AttributeError, Some []).
Proof.
  intros. split; apply add_trade_list_prices with (l := l); reflexivity.
Qed.

(** C7: when a first call records a trade for a market, a second call for
    the same market id, made while that trade is open, returns without
    changing the ledger, which holds exactly one open trade with that id. *)
Theorem add_trade_twice_one_open :
  forall market1 market2 position1 position2 confidence1 confidence2
         now1 now2 f f1 created,
    Market.id market2 = Market.id market1 ->
    add_trade market1 position1 confidence1 now1 f = (Ok tt, f1) ->
    ledger f1 = ledger f ++ [created] ->
    add_trade market2 position2 confidence2 now2 f1 = (Ok tt, f1)
    /\ count_open (Market.id market1) (ledger f1) = 1%nat.
Proof.
  intros m1 m2 p1 p2 c1 c2 n1 n2 f f1 created Hid H1 Hnew.
  assert (C : count_open (Market.id m1) (ledger f1) = 1%nat).
  { rewrite add_trade_cases in H1.
    destruct (already_trading _ _) eqn:T.
    - injection H1 as <-. apply (f_equal (@List.length _)) in Hnew.
      rewrite length_app in Hnew. cbn [List.length] in Hnew. lia.
    - apply already_trading_false in T.
      destruct (prices_get _ _ _) as [ep|e]; [|discriminate].
      injection H1 as _ <-. cbn [ledger].
      rewrite count_open_app, T. unfold count_open, new_trade, is_open.
      cbn [filter Trade.status Trade.id]. now rewrite !String.eqb_refl. }
  split; [|exact C].
  apply add_trade_noop. rewrite Hid, C. lia.
Qed.

Lemma add_trade_twice_one_open_witness :
  add_trade (mapped_market "m1") (JStr "Yes") 9 noon
    (Some [new_trade (mapped_market "m1") (JStr "Yes") 8 noon 0.25%float])
  = (Ok tt,
     Some [new_trade (mapped_market "m1") (JStr "Yes") 8 noon 0.25%float])
  /\ count_open "m1"
       (ledger (Some [new_trade (mapped_market "m1") (JStr "Yes") 8 noon
                                0.25%float])) = 1%nat.
Proof.
  apply (add_trade_twice_one_open (mapped_market "m1") (mapped_market "m1")
           (JStr "Yes") (JStr "Yes") 8 9 noon noon None
           (Some [new_trade (mapped_market "m1") (JStr "Yes") 8 noon
                            0.25%float])
           (new_trade (mapped_market "m1") (JStr "Yes") 8 noon 0.25%float)).
  - reflexivity.
  - reflexivity.
  - reflexivity.
Defined.

(** C10: whatever the call does, the trades present before it remain, in
    place and unchanged, at most one trade is appended after them, and an
    appended trade is open with no exit price, profit or resolution date. *)
Theorem add_trade_append_only :
  forall market position confidence now f,
  exists appended,
    ledger (snd (add_trade market position confidence now f))
      = ledger f ++ appended
    /\ (List.length appended <= 1)%nat
    /\ Forall (fun t => Trade.status t = "open"
                        /\ Trade.exit_price t = None
                        /\ Trade.pnl t = None
                        /\ Trade.resolved_date t = None) appended.
Proof.
  intros market position confidence now f. rewrite add_trade_cases.
  destruct (already_trading _ _).
  - exists []. cbn [snd]. rewrite app_nil_r. repeat split; auto.
  - destruct (prices_get _ _ _) as [ep|e].
    + exists [new_trade market position confidence now ep]. cbn [snd ledger].
      split; [reflexivity|]. split; [cbn; lia|].
      constructor; [|constructor]. repeat split.
    + exists []. cbn [snd]. rewrite app_nil_r. repeat split; auto.
Qed.

(** *** Performance summary *)

Lemma filter_negb_filter {A : Type} (p : A -> bool) (l : list A) :
  filter (fun x => negb (p x)) (filter p l) = [].
Proof.
  induction l as [|x l IH]; cbn [filter]; [reflexivity|].
  destruct (p x) eqn:E; cbn [filter]; [rewrite E|]; auto.
Qed.

(** A ledger without closed trades gets the six-key summary. *)
Lemma summary_no_closed f :
  filter (fun t => negb (is_open t)) (ledger f) = [] ->
  get_performance_summary f =
  (Ok [ ("total_trades", JInt (Z.of_nat (List.length (ledger f))));
        ("open_trades", JInt (Z.of_nat (List.length (filter is_open (ledger f)))));
        ("closed_trades", JInt 0);
        ("win_rate", JFloat 0%float);
        ("total_pnl", JFloat 0%float);
        ("roi", JFloat 0%float) ], f).
Proof.
  intros H. unfold get_performance_summary, _load_portfolio, bind, get, ret.
  destruct f as [trades|]; cbn [ledger] in *.
  - now rewrite H.
  - reflexivity.
Qed.

(** A ledger with a closed trade gets the seven-key summary. *)
Lemma summary_keys_closed f t closed :
  filter (fun t => negb (is_open t)) (ledger f) = t :: closed ->
  exists d, get_performance_summary f = (Ok d, f)
            /\ keys d = ["total_trades"; "open_trades"; "closed_trades";
                         "wins"; "win_rate"; "total_pnl"; "roi"].
Proof.
  intros H. unfold get_performance_summary, _load_portfolio, bind, get, ret.
  destruct f as [trades|]; cbn [ledger] in *; [|discriminate].
  rewrite H. eexists. split; reflexivity.
Qed.

(** C6 (code defect): on a missing ledger file and on every ledger that
    holds open trades only, the summary has six keys and no entry [wins],
    where the claim lists seven keys for every ledger; the three rates are
    the float zero there, as claimed. *)
Theorem summary_without_closed_trades_lacks_wins :
  forall trades,
    let all_open := Some (filter is_open trades) in
    exists d d0,
      get_performance_summary all_open = (Ok d, all_open)
      /\ get_performance_summary None = (Ok d0, None)
      /\ keys d = ["total_trades"; "open_trades"; "closed_trades";
                   "win_rate"; "total_pnl"; "roi"]
      /\ keys d0 = keys d
      /\ dict_get d "wins" = None
      /\ dict_get d "win_rate" = Some (JFloat 0%float)
      /\ dict_get d "total_pnl" = Some (JFloat 0%float)
      /\ dict_get d "roi" = Some (JFloat 0%float).
Proof.
  intros trades all_open. subst all_open.
  do 2 eexists. split; [|split].
  - apply summary_no_closed. cbn [ledger]. apply filter_negb_filter.
  - apply summary_no_closed. reflexivity.
  - repeat split; reflexivity.
Qed.

(** * Properties of the scan orchestrator *)

(** ** What processing one market does *)

Ltac proj_state := cbn [fst snd portfolio calls alerts_sent].

Ltac tidy_state :=
  rewrite ?Z.add_0_r, ?app_nil_r, <- ?app_assoc; reflexivity.

Lemma scan_market_run cfg ask_peer moltbook i market r st :
  scan_market cfg ask_peer moltbook i market r st =
  (fst (fst (fst (market_run cfg ask_peer moltbook i market r (portfolio st)))),
   after_market st (market_run cfg ask_peer moltbook i market r (portfolio st))
                []).
Proof.
  unfold scan_market, market_run, after_market, dm_calls, post_calls.
  unfold bind, emit, lift, on_portfolio, when, ret, get, set_alerts_sent.
  destruct st as [f cs n]. proj_state.
  destruct (analysis r) as [a|e]; proj_state; [|tidy_state].
  destruct (alert_worthy cfg a); proj_state; [|tidy_state].
  destruct (add_trade _ _ _ _ f) as [[[]|e] f']; proj_state; [|tidy_state].
  destruct (str_truthy ask_peer && moltbook); proj_state;
    (destruct (to_alert_message a) as [msg|e]; proj_state; [|tidy_state]);
    (destruct (alert_sent r) as [[|]|e]; proj_state; try tidy_state);
    destruct moltbook; proj_state; tidy_state.
Qed.

(** One iteration, for any [verbose]: the progress line, then the market. *)
Lemma scan_loop_step cfg ask_peer moltbook verbose n i market r rest st :
  scan_loop cfg ask_peer moltbook verbose n i ((market, r) :: rest) st =
  match announce verbose market with
  | Raise e => (Raise e, st)
  | Ok _ =>
      let run := market_run cfg ask_peer moltbook i market r (portfolio st) in
      scan_loop cfg ask_peer moltbook verbose n (S i) rest
                (after_market st run (pause_after n i (fst (fst (fst run)))))
  end.
Proof.
  cbn [scan_loop]. unfold bind at 1, lift.
  destruct (announce verbose market) as [[]|e0]; [|reflexivity].
  unfold bind at 1, try. rewrite scan_market_run.
  cbv zeta.
  destruct (market_run cfg ask_peer moltbook i market r (portfolio st))
    as [[[[[]|e] f'] made] sent]; cbn [fst snd pause_after after_market].
  - unfold bind, when, emit, ret.
    destruct (Z.of_nat i <? Z.of_nat n - 1)%Z;
      cbn [portfolio calls alerts_sent];
      rewrite ?app_nil_r, <- ?app_assoc; reflexivity.
  - reflexivity.
Qed.

Lemma scan_loop_cons cfg ask_peer moltbook n i market r rest st :
  scan_loop cfg ask_peer moltbook false n i ((market, r) :: rest) st =
  let run := market_run cfg ask_peer moltbook i market r (portfolio st) in
  scan_loop cfg ask_peer moltbook false n (S i) rest
            (after_market st run (pause_after n i (fst (fst (fst run))))).
Proof. now rewrite scan_loop_step. Qed.

Lemma scan_loop_ok cfg ask_peer moltbook n i items st :
  fst (scan_loop cfg ask_peer moltbook false n i items st) = Ok tt.
Proof.
  revert i st. induction items as [|[market r] rest IH]; intros i st.
  - reflexivity.
  - rewrite scan_loop_cons. apply IH.
Qed.

Lemma scan_loop_app cfg ask_peer moltbook n i xs ys st :
  scan_loop cfg ask_peer moltbook false n i (xs ++ ys) st =
  scan_loop cfg ask_peer moltbook false n (i + List.length xs) ys
            (snd (scan_loop cfg ask_peer moltbook false n i xs st)).
Proof.
  revert i st. induction xs as [|[market r] xs IH]; intros i st.
  - cbn [app List.length scan_loop ret snd]. now rewrite Nat.add_0_r.
  - rewrite <- app_comm_cons, !scan_loop_cons. cbv zeta. rewrite IH.
    cbn [List.length]. now rewrite Nat.add_succ_r.
Qed.

(** ** The progress lines *)

Lemma announced_heard verbose markets :
  announced verbose markets ->
  heard verbose markets = markets /\ refusal verbose markets = Ok tt.
Proof.
  induction 1 as [|[market r] rest A _ [IH1 IH2]]; [now split|].
  cbn [heard refusal fst] in *. now rewrite A, IH1, IH2.
Qed.

Lemma announced_quiet markets : announced false markets.
Proof. apply Forall_forall. reflexivity. Qed.

Lemma announced_app verbose xs ys :
  announced verbose (xs ++ ys) <-> announced verbose xs /\ announced verbose ys.
Proof. apply Forall_app. Qed.

Lemma announced_firstn verbose markets j :
  announced verbose markets -> announced verbose (firstn j markets).
Proof.
  intros H. rewrite <- (firstn_skipn j markets) in H.
  now apply announced_app in H.
Qed.

Lemma heard_incl verbose markets : incl (heard verbose markets) markets.
Proof.
  induction markets as [|[market r] rest IH]; cbn [heard]; [easy|].
  destruct (announce verbose market); [|easy].
  intros x [<-|I]; [now left|right; now apply IH].
Qed.

(** The loop with progress lines does what the silent loop does on the
    markets it reaches, and ends as the first failing line has it. *)
Lemma scan_loop_heard cfg ask_peer moltbook verbose n items :
  forall i st,
    scan_loop cfg ask_peer moltbook verbose n i items st
    = (refusal verbose items,
       snd (scan_loop cfg ask_peer moltbook false n i
                      (heard verbose items) st)).
Proof.
  induction items as [|[market r] rest IH]; intros i st.
  - reflexivity.
  - rewrite scan_loop_step. cbn [heard refusal].
    destruct (announce verbose market) as [[]|e]; [|reflexivity].
    cbv zeta. rewrite IH, scan_loop_cons. reflexivity.
Qed.

(** [analyze_and_alert] returns the counter reached by the loop started
    from zero, unless a progress line cannot be printed. *)
Lemma analyze_and_alert_heard
      cfg markets verbose post_to_moltbook ask_peer import_ok st :
  analyze_and_alert cfg markets verbose post_to_moltbook ask_peer import_ok st
  = let st' :=
      snd (scan_loop cfg ask_peer
             (moltbook_bound post_to_moltbook ask_peer import_ok) false
             (List.length markets) 0 (heard verbose markets) (entry st)) in
    (match refusal verbose markets with
     | Ok _ => Ok (alerts_sent st')
     | Raise e => Raise e
     end, st').
Proof.
  unfold analyze_and_alert, bind at 1, set_alerts_sent. cbv zeta.
  cbn [portfolio calls]. unfold bind at 1. rewrite scan_loop_heard.
  unfold entry. now destruct (refusal verbose markets) as [[]|e].
Qed.

Lemma analyze_and_alert_run
      cfg markets verbose post_to_moltbook ask_peer import_ok st :
  announced verbose markets ->
  analyze_and_alert cfg markets verbose post_to_moltbook ask_peer import_ok st =
  let st' :=
    snd (scan_loop cfg ask_peer
           (moltbook_bound post_to_moltbook ask_peer import_ok) false
           (List.length markets) 0 markets
           (mk_state (portfolio st) (calls st) 0%Z)) in
  (Ok (alerts_sent st'), st').
Proof.
  intros A. rewrite analyze_and_alert_heard.
  destruct (announced_heard verbose markets A) as [-> ->]. reflexivity.
Qed.

(** ** Reading the sequence of calls *)

Ltac run_cases cfg ask_peer moltbook r f :=
  unfold market_run, dm_calls, post_calls;
  destruct (analysis r) as [?a|?e];
  [ destruct (alert_worthy cfg _);
    [ destruct (add_trade _ _ _ _ f) as [[[]|?e] ?f];
      [ destruct (to_alert_message _) as [?msg|?e];
        [ destruct (alert_sent r) as [[|]|?e] | ] | ] | ] | ];
  destruct (str_truthy ask_peer && moltbook); destruct moltbook;
  cbn [fst snd app run_outcome run_file run_calls run_sent].

Lemma recorded_first_app l1 l2 :
  recorded_first l1 -> recorded_first l2 -> recorded_first (l1 ++ l2).
Proof.
  intros H1 H2 pre post j E.
  apply app_eq_app in E. destruct E as [l [[E1 E2]|[E1 E2]]].
  - destruct l as [|c l].
    + rewrite app_nil_r in E1. subst l1. cbn [app] in E2.
      symmetry in E2. exfalso. exact (H2 [] post j E2).
    + cbn [app] in E2. injection E2 as <- ->.
      exact (H1 pre l j E1).
  - subst pre. apply in_or_app. right. exact (H2 l post j E2).
Qed.

Lemma recorded_first_none l :
  (forall j, ~ In (SendAlert j) l) -> recorded_first l.
Proof.
  intros H pre post j E. exfalso. apply (H j). rewrite E.
  apply in_or_app. right. now left.
Qed.

Lemma recorded_first_block i tail :
  (forall j, In (SendAlert j) tail -> j = i) ->
  recorded_first (Analyze i :: AddTrade i :: tail).
Proof.
  intros H pre post j E.
  destruct pre as [|c1 [|c2 pre]]; cbn [app] in E; try discriminate.
  injection E as <- <- E.
  assert (j = i) as ->.
  { apply H. rewrite E. apply in_or_app. right. now left. }
  right. now left.
Qed.

(** What the calls made for one market look like. *)
Lemma market_run_calls cfg ask_peer moltbook n i market r f :
  let run := market_run cfg ask_peer moltbook i market r f in
  let block := run_calls run ++ pause_after n i (run_outcome run) in
  analysed block = [i]
  /\ (forall k, k <> i -> effects_for k block = [])
  /\ recorded_first block.
Proof.
  cbv zeta. unfold pause_after.
  run_cases cfg ask_peer moltbook r f;
    try destruct (Z.of_nat i <? Z.of_nat n - 1)%Z;
    cbn [app analysed flat_map];
    (split; [reflexivity|]);
    (split;
     [ intros k Hk; assert (Hik : Nat.eqb i k = false)
         by (apply Nat.eqb_neq; congruence);
       unfold effects_for; cbn [filter concerns]; rewrite ?Hik; reflexivity
     | first
         [ apply recorded_first_block; intros j Hj; cbn [In] in Hj;
           repeat (destruct Hj as [Hj|Hj]; [congruence|]); contradiction
         | apply recorded_first_none; intros j Hj; cbn [In] in Hj;
           repeat (destruct Hj as [Hj|Hj]; [congruence|]); contradiction ] ]).
Qed.

(** A market whose processing stops before the Telegram send. *)
Lemma market_run_analysis_raises cfg ask_peer moltbook i market r f e :
  analysis r = Raise e ->
  market_run cfg ask_peer moltbook i market r f
  = (Raise e, f, [Analyze i], 0%Z).
Proof. intros H. unfold market_run. now rewrite H. Qed.

Lemma market_run_not_worthy cfg ask_peer moltbook i market r f a :
  analysis r = Ok a -> alert_worthy cfg a = false ->
  market_run cfg ask_peer moltbook i market r f
  = (Ok tt, f, [Analyze i], 0%Z).
Proof. intros H W. unfold market_run. now rewrite H, W. Qed.

(** A recording that raises: the market stops there, with the ledger as
    [add_trade] left it. *)
Lemma market_run_record_raises cfg ask_peer moltbook i market r f a e :
  analysis r = Ok a -> alert_worthy cfg a = true ->
  fst (add_trade market (EdgeAnalysis.recommended_position a)
                 (EdgeAnalysis.confidence_score a) (now r) f) = Raise e ->
  market_run cfg ask_peer moltbook i market r f
  = (Raise e,
     snd (add_trade market (EdgeAnalysis.recommended_position a)
                    (EdgeAnalysis.confidence_score a) (now r) f),
     [Analyze i; AddTrade i], 0%Z).
Proof.
  intros H W R. unfold market_run. rewrite H, W.
  destruct (add_trade _ _ _ _ f) as [res f'] eqn:E. cbn [fst snd] in *.
  now subst res.
Qed.

(** The ledger and the counter do not depend on the position of the market
    in the batch. *)
Lemma market_run_core cfg ask_peer moltbook i i' market r f :
  run_outcome (market_run cfg ask_peer moltbook i market r f)
  = run_outcome (market_run cfg ask_peer moltbook i' market r f)
  /\ run_file (market_run cfg ask_peer moltbook i market r f)
     = run_file (market_run cfg ask_peer moltbook i' market r f)
  /\ run_sent (market_run cfg ask_peer moltbook i market r f)
     = run_sent (market_run cfg ask_peer moltbook i' market r f).
Proof.
  run_cases cfg ask_peer moltbook r f; repeat split; reflexivity.
Qed.

(** ** The loop over the batch *)

Lemma after_market_calls st run pause :
  calls (after_market st run pause) = calls st ++ run_calls run ++ pause.
Proof. now destruct run as [[[res f] made] sent]. Qed.

Lemma after_market_core st run pause :
  core (after_market st run pause)
  = (run_file run, (alerts_sent st + run_sent run)%Z).
Proof. now destruct run as [[[res f] made] sent]. Qed.

Lemma analysed_app l1 l2 : analysed (l1 ++ l2) = analysed l1 ++ analysed l2.
Proof. apply flat_map_app. Qed.

Lemma effects_for_app k l1 l2 :
  effects_for k (l1 ++ l2) = effects_for k l1 ++ effects_for k l2.
Proof. apply filter_app. Qed.

(** The calls of the loop: every market is analysed, in order; the ledger
    and notification calls concern the markets of the batch only; a
    Telegram send follows the ledger call for its market. *)
Lemma scan_loop_calls cfg ask_peer moltbook n items :
  forall i st,
  exists new,
    calls (snd (scan_loop cfg ask_peer moltbook false n i items st)) = calls st ++ new
    /\ analysed new = seq i (List.length items)
    /\ (forall k, (k < i \/ i + List.length items <= k)%nat ->
                  effects_for k new = [])
    /\ recorded_first new.
Proof.
  induction items as [|[market r] rest IH]; intros i st.
  - exists []. cbn [scan_loop ret snd List.length seq].
    rewrite app_nil_r. repeat split; auto.
    apply recorded_first_none. intros j [].
  - rewrite scan_loop_cons. cbv zeta.
    set (run := market_run cfg ask_peer moltbook i market r (portfolio st)).
    destruct (market_run_calls cfg ask_peer moltbook n i market r (portfolio st))
      as (A & E & O). fold run in A, E, O.
    change (fst (fst (fst run))) with (run_outcome run).
    destruct (IH (S i) (after_market st run (pause_after n i (run_outcome run))))
      as (new & C & A' & E' & O').
    set (block := run_calls run ++ pause_after n i (run_outcome run)) in *.
    exists (block ++ new).
    rewrite C, after_market_calls. fold block.
    split; [now rewrite app_assoc|]. split; [|split].
    + now rewrite analysed_app, A, A'.
    + intros k Hk. cbn [List.length] in Hk.
      rewrite effects_for_app, E, E' by lia. reflexivity.
    + now apply recorded_first_app.
Qed.

Lemma scan_loop_core cfg ask_peer moltbook items :
  forall n n' i i' st st',
    core st = core st' ->
    core (snd (scan_loop cfg ask_peer moltbook false n i items st))
    = core (snd (scan_loop cfg ask_peer moltbook false n' i' items st')).
Proof.
  induction items as [|[market r] rest IH]; intros n n' i i' st st' H.
  - exact H.
  - rewrite !scan_loop_cons. cbv zeta. apply IH.
    rewrite !after_market_core.
    injection H as Hf Ha. rewrite <- Hf, <- Ha.
    destruct (market_run_core cfg ask_peer moltbook i i' market r (portfolio st))
      as (_ & F & S).
    now rewrite F, S.
Qed.

(** A market that leaves the ledger and the counter as it found them could
    as well be absent from the batch. *)
Lemma scan_loop_without cfg ask_peer moltbook before market r after :
  forall n n' st,
    let at_turn := snd (scan_loop cfg ask_peer moltbook false n 0 before st) in
    let run := market_run cfg ask_peer moltbook (List.length before) market r
                          (portfolio at_turn) in
    run_file run = portfolio at_turn ->
    run_sent run = 0%Z ->
    core (snd (scan_loop cfg ask_peer moltbook false n 0
                 (before ++ (market, r) :: after) st))
    = core (snd (scan_loop cfg ask_peer moltbook false n' 0 (before ++ after) st)).
Proof.
  intros n n' st at_turn run F S.
  rewrite !scan_loop_app. cbn [Nat.add]. rewrite scan_loop_cons. cbv zeta.
  fold at_turn. fold run.
  apply scan_loop_core. rewrite after_market_core, F, S, Z.add_0_r.
  change (core at_turn
          = core (snd (scan_loop cfg ask_peer moltbook false n' 0 before st))).
  apply scan_loop_core. reflexivity.
Qed.

(** The calls of a batch around one of its markets. *)
Lemma scan_loop_calls_at cfg ask_peer moltbook before market r after :
  forall n st,
    let k := List.length before in
    let at_turn := snd (scan_loop cfg ask_peer moltbook false n 0 before st) in
    let run := market_run cfg ask_peer moltbook k market r (portfolio at_turn) in
    exists new,
      calls (snd (scan_loop cfg ask_peer moltbook false n 0
                    (before ++ (market, r) :: after) st)) = calls st ++ new
      /\ effects_for k new
         = effects_for k (run_calls run ++ pause_after n k (run_outcome run)).
Proof.
  intros n st k at_turn run.
  rewrite scan_loop_app. cbn [Nat.add]. rewrite scan_loop_cons. cbv zeta.
  fold k. fold at_turn. fold run.
  change (fst (fst (fst run))) with (run_outcome run).
  destruct (scan_loop_calls cfg ask_peer moltbook n before 0 st)
    as (new1 & C1 & _ & E1 & _). fold at_turn in C1.
  destruct (scan_loop_calls cfg ask_peer moltbook n after (S k)
              (after_market at_turn run (pause_after n k (run_outcome run))))
    as (new2 & C2 & _ & E2 & _).
  set (block := run_calls run ++ pause_after n k (run_outcome run)) in *.
  exists (new1 ++ block ++ new2).
  rewrite C2, after_market_calls, C1. fold block.
  split; [now rewrite <- !app_assoc|].
  rewrite !effects_for_app.
  rewrite (E1 k) by (right; cbn [Nat.add]; fold k; lia).
  rewrite (E2 k) by (left; lia).
  now rewrite app_nil_r.
Qed.

Lemma analyze_and_alert_snd
      cfg markets verbose post_to_moltbook ask_peer import_ok st :
  announced verbose markets ->
  snd (analyze_and_alert cfg markets verbose post_to_moltbook ask_peer
                         import_ok st)
  = snd (scan_loop cfg ask_peer
           (moltbook_bound post_to_moltbook ask_peer import_ok) false
           (List.length markets) 0 markets (entry st)).
Proof. intros A. now rewrite analyze_and_alert_run. Qed.

Lemma analyze_and_alert_fst
      cfg markets verbose post_to_moltbook ask_peer import_ok st :
  announced verbose markets ->
  fst (analyze_and_alert cfg markets verbose post_to_moltbook ask_peer
                         import_ok st)
  = Ok (alerts_sent
          (snd (scan_loop cfg ask_peer
                  (moltbook_bound post_to_moltbook ask_peer import_ok) false
                  (List.length markets) 0 markets (entry st)))).
Proof. intros A. now rewrite analyze_and_alert_run. Qed.

(** The state a scan leaves, whatever the progress lines do. *)
Lemma analyze_and_alert_snd_heard
      cfg markets verbose post_to_moltbook ask_peer import_ok st :
  snd (analyze_and_alert cfg markets verbose post_to_moltbook ask_peer
                         import_ok st)
  = snd (scan_loop cfg ask_peer
           (moltbook_bound post_to_moltbook ask_peer import_ok) false
           (List.length markets) 0 (heard verbose markets) (entry st)).
Proof. now rewrite analyze_and_alert_heard. Qed.

(** The ledger and the counter a market finds at its turn are those left by
    the scan of the markets before it. *)
Lemma core_at_turn
      cfg before verbose post_to_moltbook ask_peer import_ok st n :
  announced verbose before ->
  core (snd (scan_loop cfg ask_peer
               (moltbook_bound post_to_moltbook ask_peer import_ok) false
               n 0 before (entry st)))
  = core (snd (analyze_and_alert cfg before verbose post_to_moltbook ask_peer
                                 import_ok st)).
Proof.
  intros A. rewrite analyze_and_alert_snd by exact A.
  now apply scan_loop_core.
Qed.

Lemma ledger_at_turn
      cfg before verbose post_to_moltbook ask_peer import_ok st n :
  announced verbose before ->
  portfolio (snd (scan_loop cfg ask_peer
                    (moltbook_bound post_to_moltbook ask_peer import_ok) false
                    n 0 before (entry st)))
  = portfolio
      (snd (analyze_and_alert cfg before verbose post_to_moltbook ask_peer
                              import_ok st)).
Proof.
  intros A.
  exact (f_equal fst (core_at_turn cfg before verbose post_to_moltbook
                                   ask_peer import_ok st n A)).
Qed.

(** A market whose processing leaves ledger and counter untouched does not
    change what the scan returns or the ledger it leaves. *)
Lemma analyze_and_alert_without cfg before market r after
      verbose post_to_moltbook ask_peer import_ok st :
  let moltbook := moltbook_bound post_to_moltbook ask_peer import_ok in
  let at_turn :=
    portfolio (snd (analyze_and_alert cfg before verbose post_to_moltbook
                                      ask_peer import_ok st)) in
  let run := market_run cfg ask_peer moltbook (List.length before) market r
                        at_turn in
  announced verbose (before ++ (market, r) :: after) ->
  run_file run = at_turn ->
  run_sent run = 0%Z ->
  portfolio (snd (analyze_and_alert cfg (before ++ (market, r) :: after)
                    verbose post_to_moltbook ask_peer import_ok st))
  = portfolio (snd (analyze_and_alert cfg (before ++ after)
                      verbose post_to_moltbook ask_peer import_ok st))
  /\ fst (analyze_and_alert cfg (before ++ (market, r) :: after)
            verbose post_to_moltbook ask_peer import_ok st)
     = fst (analyze_and_alert cfg (before ++ after)
              verbose post_to_moltbook ask_peer import_ok st).
Proof.
  intros moltbook at_turn run A F S.
  assert (A' : announced verbose (before ++ after)).
  { apply announced_app in A. destruct A as [A1 A2].
    apply announced_app. split; [exact A1|]. now inversion A2. }
  assert (Ab : announced verbose before) by now apply announced_app in A.
  rewrite !analyze_and_alert_snd, !analyze_and_alert_fst by assumption.
  fold moltbook.
  pose proof (scan_loop_without cfg ask_peer moltbook before market r after
                (List.length (before ++ (market, r) :: after))
                (List.length (before ++ after)) (entry st)) as H.
  cbv zeta in H.
  rewrite (ledger_at_turn cfg before verbose post_to_moltbook ask_peer
                          import_ok st _ Ab) in H.
  specialize (H F S). injection H as Hf Ha.
  now rewrite Hf, Ha.
Qed.

(** The scan of a batch extended by one market: the ledger and the counter
    are those the market leaves at its turn. *)
Lemma analyze_and_alert_next cfg before market r
      verbose post_to_moltbook ask_peer import_ok st :
  let moltbook := moltbook_bound post_to_moltbook ask_peer import_ok in
  let at_turn :=
    portfolio (snd (analyze_and_alert cfg before verbose post_to_moltbook
                                      ask_peer import_ok st)) in
  let run := market_run cfg ask_peer moltbook (List.length before) market r
                        at_turn in
  announced verbose (before ++ [(market, r)]) ->
  portfolio (snd (analyze_and_alert cfg (before ++ [(market, r)])
                    verbose post_to_moltbook ask_peer import_ok st))
  = run_file run
  /\ exists c,
       fst (analyze_and_alert cfg before verbose post_to_moltbook ask_peer
                              import_ok st) = Ok c
       /\ fst (analyze_and_alert cfg (before ++ [(market, r)])
                 verbose post_to_moltbook ask_peer import_ok st)
          = Ok (c + run_sent run)%Z.
Proof.
  intros moltbook at_turn run A.
  assert (Ab : announced verbose before) by now apply announced_app in A.
  pose proof (core_at_turn cfg before verbose post_to_moltbook ask_peer
                import_ok st (List.length (before ++ [(market, r)])) Ab) as C.
  fold moltbook in C.
  assert (E : core (snd (scan_loop cfg ask_peer moltbook false
                           (List.length (before ++ [(market, r)])) 0
                           (before ++ [(market, r)]) (entry st)))
              = (run_file run,
                 (alerts_sent (snd (analyze_and_alert cfg before verbose
                                      post_to_moltbook ask_peer import_ok st))
                  + run_sent run)%Z)).
  { rewrite scan_loop_app. cbn [Nat.add]. rewrite scan_loop_cons. cbv zeta.
    cbn [scan_loop ret snd]. rewrite after_market_core.
    injection C as Cf Ca. rewrite Cf, Ca. reflexivity. }
  rewrite analyze_and_alert_snd, !analyze_and_alert_fst by assumption.
  fold moltbook. injection E as Ef Ea. split; [exact Ef|].
  eexists. split; [reflexivity|].
  rewrite Ea. rewrite analyze_and_alert_snd by assumption. reflexivity.
Qed.

(** The ledger and notification calls of a market that is recorded and
    announced. *)
Lemma effects_for_announced ask_peer moltbook i pause :
  (forall c, In c pause -> concerns i c = false) ->
  effects_for i
    ((Analyze i :: AddTrade i :: dm_calls ask_peer moltbook i
        ++ SendAlert i :: post_calls moltbook i) ++ pause)
  = AddTrade i :: dm_calls ask_peer moltbook i
      ++ SendAlert i :: post_calls moltbook i.
Proof.
  intros P. unfold effects_for. rewrite filter_app.
  assert (filter (concerns i) pause = []) as ->.
  { induction pause as [|c pause IH]; [reflexivity|].
    cbn [filter]. rewrite (P c) by now left.
    apply IH. intros c' I. apply P. now right. }
  rewrite app_nil_r. unfold dm_calls, post_calls.
  destruct (str_truthy ask_peer && moltbook); destruct moltbook;
    cbn [app filter concerns]; rewrite ?Nat.eqb_refl; reflexivity.
Qed.

(** C8: when every progress line can be printed, the scan returns a count
    and analyses every market of the batch in order, whatever the
    collaborators answer or raise.  Every market whose analysis passes the
    admission test, whose recording returns and whose alert is rendered and
    handed to Telegram is processed in full, wherever it stands in the
    batch and whatever happened to the markets before it: its calls are the
    ledger call, the peer message, the Telegram send and the Moltbook post,
    its trade is in the ledger after its turn, and the count advances by
    one when the send succeeded.  A market whose analysis raises gets no
    ledger or notification call, and the ledger and the count are those of
    the same batch without it. *)
Theorem analyze_and_alert_isolates_failures :
  forall cfg verbose post_to_moltbook ask_peer import_ok markets st,
    announced verbose markets ->
    exists count new,
      fst (analyze_and_alert cfg markets verbose post_to_moltbook ask_peer
                             import_ok st) = Ok count
      /\ calls (snd (analyze_and_alert cfg markets verbose post_to_moltbook
                                       ask_peer import_ok st)) = calls st ++ new
      /\ analysed new = seq 0 (List.length markets)
      /\ (forall j market r a msg sent,
            nth_error markets j = Some (market, r) ->
            analysis r = Ok a ->
            alert_worthy cfg a = true ->
            fst (add_trade market (EdgeAnalysis.recommended_position a)
                   (EdgeAnalysis.confidence_score a) (now r)
                   (portfolio (snd (analyze_and_alert cfg (firstn j markets)
                                      verbose post_to_moltbook ask_peer
                                      import_ok st)))) = Ok tt ->
            to_alert_message a = Ok msg ->
            alert_sent r = Ok sent ->
            effects_for j new
            = AddTrade j
                :: dm_calls ask_peer
                     (moltbook_bound post_to_moltbook ask_peer import_ok) j
                ++ SendAlert j
                :: post_calls
                     (moltbook_bound post_to_moltbook ask_peer import_ok) j
            /\ portfolio (snd (analyze_and_alert cfg (firstn (S j) markets)
                                 verbose post_to_moltbook ask_peer import_ok
                                 st))
               = snd (add_trade market (EdgeAnalysis.recommended_position a)
                        (EdgeAnalysis.confidence_score a) (now r)
                        (portfolio
                           (snd (analyze_and_alert cfg (firstn j markets)
                                   verbose post_to_moltbook ask_peer
                                   import_ok st))))
            /\ exists c,
                 fst (analyze_and_alert cfg (firstn j markets) verbose
                        post_to_moltbook ask_peer import_ok st) = Ok c
                 /\ fst (analyze_and_alert cfg (firstn (S j) markets) verbose
                           post_to_moltbook ask_peer import_ok st)
                    = Ok (c + (if sent then 1 else 0))%Z)
      /\ (forall before market r after e,
            markets = before ++ (market, r) :: after ->
            analysis r = Raise e ->
            effects_for (List.length before) new = []
            /\ portfolio (snd (analyze_and_alert cfg markets verbose
                                 post_to_moltbook ask_peer import_ok st))
               = portfolio (snd (analyze_and_alert cfg (before ++ after)
                                   verbose post_to_moltbook ask_peer
                                   import_ok st))
            /\ fst (analyze_and_alert cfg markets verbose post_to_moltbook
                      ask_peer import_ok st)
               = fst (analyze_and_alert cfg (before ++ after) verbose
                        post_to_moltbook ask_peer import_ok st)).
Proof.
  intros cfg verbose post_to_moltbook ask_peer import_ok markets st A.
  set (moltbook := moltbook_bound post_to_moltbook ask_peer import_ok).
  destruct (scan_loop_calls cfg ask_peer moltbook (List.length markets)
              markets 0 (entry st)) as (new & C & An & _).
  eexists. exists new.
  split; [rewrite analyze_and_alert_fst by exact A; reflexivity|].
  split; [rewrite analyze_and_alert_snd by exact A; exact C|].
  split; [exact An|]. split.
  - intros j market r a msg sent N Ha W T Hm Hs.
    destruct (nth_error_split markets j N) as (before & after & -> & <-).
    assert (Ab : announced verbose before) by now apply announced_app in A.
    assert (An1 : announced verbose (before ++ [(market, r)])).
    { apply announced_app in A. destruct A as [A1 A2].
      apply announced_app. split; [exact A1|].
      inversion A2; subst. now constructor. }
    rewrite firstn_app, Nat.sub_diag, firstn_all in T. cbn [firstn] in T.
    rewrite app_nil_r in T.
    replace (firstn (List.length before) (before ++ (market, r) :: after))
      with before
      by (rewrite firstn_app, Nat.sub_diag, firstn_all; cbn [firstn];
          now rewrite app_nil_r).
    replace (firstn (S (List.length before))
                    (before ++ (market, r) :: after))
      with (before ++ [(market, r)])
      by (rewrite firstn_app, firstn_all2 by lia;
          replace (S (List.length before) - List.length before)%nat
            with 1%nat by lia;
          reflexivity).
    set (at_turn := portfolio (snd (analyze_and_alert cfg before verbose
                        post_to_moltbook ask_peer import_ok st))) in *.
    assert (Run : market_run cfg ask_peer moltbook (List.length before)
                             market r at_turn
                  = (Ok tt,
                     snd (add_trade market
                            (EdgeAnalysis.recommended_position a)
                            (EdgeAnalysis.confidence_score a) (now r) at_turn),
                     Analyze (List.length before)
                       :: AddTrade (List.length before)
                       :: dm_calls ask_peer moltbook (List.length before)
                       ++ SendAlert (List.length before)
                       :: post_calls moltbook (List.length before),
                     if sent then 1%Z else 0%Z)).
    { unfold market_run. rewrite Ha, W.
      destruct (add_trade _ _ _ _ at_turn) as [res f'].
      cbn [fst snd] in *. subst res. now rewrite Hm, Hs. }
    split; [|split].
    + destruct (scan_loop_calls_at cfg ask_peer moltbook before market r after
                  (List.length (before ++ (market, r) :: after)) (entry st))
        as (new' & C' & E).
      rewrite C in C'. apply app_inv_head in C'. subst new'.
      rewrite E.
      rewrite (ledger_at_turn cfg before verbose post_to_moltbook ask_peer
                              import_ok st _ Ab).
      fold moltbook. fold at_turn. rewrite Run.
      unfold run_calls, run_outcome. cbn [fst snd].
      apply effects_for_announced.
      unfold pause_after. intros c I.
      destruct (_ <? _)%Z; [|destruct I].
      destruct I as [<-|[]]. reflexivity.
    + destruct (analyze_and_alert_next cfg before market r verbose
                  post_to_moltbook ask_peer import_ok st An1) as [F _].
      fold moltbook in F. fold at_turn in F. rewrite Run in F.
      exact F.
    + destruct (analyze_and_alert_next cfg before market r verbose
                  post_to_moltbook ask_peer import_ok st An1)
        as [_ (c & C1 & C2)].
      fold moltbook in C2. fold at_turn in C2. rewrite Run in C2.
      exists c. split; [exact C1|exact C2].
  - intros before market r after e -> R.
    assert (Ab : announced verbose before) by now apply announced_app in A.
    assert (A' : announced verbose (before ++ after)).
    { apply announced_app in A. destruct A as [A1 A2].
      apply announced_app. split; [exact A1|]. now inversion A2. }
    split.
    + destruct (scan_loop_calls_at cfg ask_peer moltbook before market r after
                  (List.length (before ++ (market, r) :: after)) (entry st))
        as (new' & C' & E).
      rewrite C in C'. apply app_inv_head in C'. subst new'.
      rewrite E.
      rewrite (market_run_analysis_raises _ _ _ _ _ _ _ e R). reflexivity.
    + apply analyze_and_alert_without; [exact A| |]; fold moltbook;
        rewrite (market_run_analysis_raises _ _ _ _ _ _ _ e R); reflexivity.
Qed.

(** C9: in every scan a Telegram send comes after the ledger call for the
    same market; when that ledger call raises, it is the only ledger or
    notification call made for the market and the count after the market is
    the count before it; and when it raises with the ledger as it found it
    (it always does for a question that is a text) the count returned is
    that of the batch without the market. *)
Theorem record_precedes_alert :
  forall cfg verbose post_to_moltbook ask_peer import_ok markets st,
    (exists new,
        calls (snd (analyze_and_alert cfg markets verbose post_to_moltbook
                                      ask_peer import_ok st)) = calls st ++ new
        /\ recorded_first new)
    /\ (forall before market r after a e,
          markets = before ++ (market, r) :: after ->
          announced verbose markets ->
          analysis r = Ok a ->
          alert_worthy cfg a = true ->
          fst (add_trade market (EdgeAnalysis.recommended_position a)
                 (EdgeAnalysis.confidence_score a) (now r)
                 (portfolio (snd (analyze_and_alert cfg before verbose
                                    post_to_moltbook ask_peer import_ok st))))
          = Raise e ->
          (exists new,
              calls (snd (analyze_and_alert cfg markets verbose
                            post_to_moltbook ask_peer import_ok st))
              = calls st ++ new
              /\ effects_for (List.length before) new
                 = [AddTrade (List.length before)])
          /\ fst (analyze_and_alert cfg (before ++ [(market, r)]) verbose
                    post_to_moltbook ask_peer import_ok st)
             = fst (analyze_and_alert cfg before verbose post_to_moltbook
                      ask_peer import_ok st)
          /\ ((py_slice (Market.question market) = Ok tt
               \/ snd (add_trade market (EdgeAnalysis.recommended_position a)
                         (EdgeAnalysis.confidence_score a) (now r)
                         (portfolio
                            (snd (analyze_and_alert cfg before verbose
                                    post_to_moltbook ask_peer import_ok st))))
                  = portfolio (snd (analyze_and_alert cfg before verbose
                                      post_to_moltbook ask_peer import_ok st)))
              -> fst (analyze_and_alert cfg markets verbose post_to_moltbook
                        ask_peer import_ok st)
                 = fst (analyze_and_alert cfg (before ++ after) verbose
                          post_to_moltbook ask_peer import_ok st))).
Proof.
  intros cfg verbose post_to_moltbook ask_peer import_ok markets st.
  set (moltbook := moltbook_bound post_to_moltbook ask_peer import_ok).
  split.
  - destruct (scan_loop_calls cfg ask_peer moltbook (List.length markets)
                (heard verbose markets) 0 (entry st)) as (new & C & _ & _ & O).
    exists new. rewrite analyze_and_alert_snd_heard. fold moltbook. auto.
  - intros before market r after a e -> A Ha W R.
    assert (Ab : announced verbose before) by now apply announced_app in A.
    pose proof (market_run_record_raises cfg ask_peer moltbook
                  (List.length before) market r _ a e Ha W R) as Run.
    split; [|split].
    + destruct (scan_loop_calls_at cfg ask_peer moltbook before market r after
                  (List.length (before ++ (market, r) :: after)) (entry st))
        as (new & C & E).
      exists new. rewrite analyze_and_alert_snd by exact A. fold moltbook.
      split; [exact C|]. rewrite E.
      rewrite (ledger_at_turn cfg before verbose post_to_moltbook ask_peer
                              import_ok st _ Ab).
      fold moltbook. rewrite Run.
      unfold effects_for, run_calls, run_outcome, pause_after.
      cbn [fst snd app filter concerns]. now rewrite Nat.eqb_refl.
    + assert (An1 : announced verbose (before ++ [(market, r)])).
      { apply announced_app in A. destruct A as [A1 A2].
        apply announced_app. split; [exact A1|].
        inversion A2; subst. now constructor. }
      destruct (analyze_and_alert_next cfg before market r verbose
                  post_to_moltbook ask_peer import_ok st An1)
        as [_ (c & C1 & C2)].
      fold moltbook in C2. rewrite Run in C2.
      unfold run_sent in C2. cbn [snd] in C2. rewrite Z.add_0_r in C2.
      now rewrite C1, C2.
    + intros K.
      assert (Kept : snd (add_trade market
                            (EdgeAnalysis.recommended_position a)
                            (EdgeAnalysis.confidence_score a) (now r)
                            (portfolio
                               (snd (analyze_and_alert cfg before verbose
                                       post_to_moltbook ask_peer import_ok
                                       st))))
                     = portfolio (snd (analyze_and_alert cfg before verbose
                                         post_to_moltbook ask_peer import_ok
                                         st))).
      { destruct K as [K|K]; [|exact K].
        revert R. rewrite add_trade_cases.
        destruct (already_trading _ _); [discriminate|].
        destruct (prices_get _ _ _); [|reflexivity].
        rewrite K. discriminate. }
      apply analyze_and_alert_without; [exact A| |]; fold moltbook;
        rewrite Run; [exact Kept|reflexivity].
Qed.

Lemma analyze_and_alert_isolates_failures_witness :
  (exists count new,
      fst (analyze_and_alert Config.default (scenario_B mapped_market) true
                             false None false fresh) = Ok count
      /\ calls (snd (analyze_and_alert Config.default
                       (scenario_B mapped_market) true false None false
                       fresh)) = calls fresh ++ new
      /\ analysed new = seq 0 (List.length (scenario_B mapped_market))
      /\ (forall j market r a msg sent,
            nth_error (scenario_B mapped_market) j = Some (market, r) ->
            analysis r = Ok a ->
            alert_worthy Config.default a = true ->
            fst (add_trade market (EdgeAnalysis.recommended_position a)
                   (EdgeAnalysis.confidence_score a) (now r)
                   (portfolio (snd (analyze_and_alert Config.default
                                      (firstn j (scenario_B mapped_market))
                                      true false None false fresh))))
            = Ok tt ->
            to_alert_message a = Ok msg ->
            alert_sent r = Ok sent ->
            effects_for j new
            = AddTrade j
                :: dm_calls None (moltbook_bound false None false) j
                ++ SendAlert j
                :: post_calls (moltbook_bound false None false) j
            /\ portfolio (snd (analyze_and_alert Config.default
                                 (firstn (S j) (scenario_B mapped_market))
                                 true false None false fresh))
               = snd (add_trade market (EdgeAnalysis.recommended_position a)
                        (EdgeAnalysis.confidence_score a) (now r)
                        (portfolio
                           (snd (analyze_and_alert Config.default
                                   (firstn j (scenario_B mapped_market))
                                   true false None false fresh))))
            /\ exists c,
                 fst (analyze_and_alert Config.default
                        (firstn j (scenario_B mapped_market)) true
                        false None false fresh) = Ok c
                 /\ fst (analyze_and_alert Config.default
                           (firstn (S j) (scenario_B mapped_market)) true
                           false None false fresh)
                    = Ok (c + (if sent then 1 else 0))%Z)
      /\ (forall before market r after e,
            scenario_B mapped_market = before ++ (market, r) :: after ->
            analysis r = Raise e ->
            effects_for (List.length before) new = []
            /\ portfolio (snd (analyze_and_alert Config.default
                                 (scenario_B mapped_market) true
                                 false None false fresh))
               = portfolio (snd (analyze_and_alert Config.default
                                   (before ++ after) true
                                   false None false fresh))
            /\ fst (analyze_and_alert Config.default
                      (scenario_B mapped_market) true false None false fresh)
               = fst (analyze_and_alert Config.default (before ++ after) true
                        false None false fresh)))
  /\ analyze_and_alert Config.default (scenario_B mapped_market) true
                       false None false fresh
     = (Ok 2%Z,
        mk_state
          (Some [ new_trade (mapped_market "m1") (JStr "Yes") 8 noon
                            0.25%float;
                  new_trade (mapped_market "m3") (JStr "Yes") 8 noon
                            0.25%float ])
          [Analyze 0; AddTrade 0; SendAlert 0; Sleep 6;
           Analyze 1;
           Analyze 2; AddTrade 2; SendAlert 2]
          2%Z).
Proof.
  split.
  - apply (analyze_and_alert_isolates_failures
             Config.default true false None false
             (scenario_B mapped_market) fresh).
    repeat constructor.
  - reflexivity.
Defined.

Lemma record_precedes_alert_witness :
  (exists new,
      calls (snd (analyze_and_alert Config.default
                    (scenario_A listed_market) true false None false fresh))
      = calls fresh ++ new
      /\ effects_for 2 new = [AddTrade 2])
  /\ fst (analyze_and_alert Config.default
            ([(listed_market "m1", answering (Ok (edge 8)));
              (listed_market "m2", answering (Ok (edge 5)))]
               ++ [(listed_market "m3", answering (Ok (edge 8)))])
            true false None false fresh)
     = fst (analyze_and_alert Config.default
              [(listed_market "m1", answering (Ok (edge 8)));
               (listed_market "m2", answering (Ok (edge 5)))]
              true false None false fresh)
  /\ fst (analyze_and_alert Config.default (scenario_A listed_market)
            true false None false fresh)
     = fst (analyze_and_alert Config.default
              ([(listed_market "m1", answering (Ok (edge 8)));
                (listed_market "m2", answering (Ok (edge 5)))] ++ [])
              true false None false fresh).
Proof.
  destruct (proj2 (record_precedes_alert
                     Config.default true false None false
                     (scenario_A listed_market) fresh)
                  [(listed_market "m1", answering (Ok (edge 8)));
                   (listed_market "m2", answering (Ok (edge 5)))]
                  (listed_market "m3") (answering (Ok (edge 8))) []
                  (edge 8) AttributeError
                  eq_refl ltac:(repeat constructor) eq_refl eq_refl eq_refl)
    as (Calls & Next & Without).
  split; [exact Calls|]. split; [exact Next|].
  apply Without. left. reflexivity.
Defined.

(** A market that is not alert-worthy gets no ledger or notification call
    and leaves the ledger and the count as a batch without it would. *)
Lemma not_alert_worthy_no_effects
      cfg verbose post_to_moltbook ask_peer import_ok before market r after
      a st :
  announced verbose (before ++ (market, r) :: after) ->
  analysis r = Ok a ->
  alert_worthy cfg a = false ->
  (exists new,
      calls (snd (analyze_and_alert cfg (before ++ (market, r) :: after)
                    verbose post_to_moltbook ask_peer import_ok st))
      = calls st ++ new
      /\ effects_for (List.length before) new = [])
  /\ portfolio (snd (analyze_and_alert cfg (before ++ (market, r) :: after)
                       verbose post_to_moltbook ask_peer import_ok st))
     = portfolio (snd (analyze_and_alert cfg (before ++ after)
                         verbose post_to_moltbook ask_peer import_ok st)).
Proof.
  intros An A W.
  set (moltbook := moltbook_bound post_to_moltbook ask_peer import_ok).
  split.
  - destruct (scan_loop_calls_at cfg ask_peer moltbook before market r after
                (List.length (before ++ (market, r) :: after)) (entry st))
      as (new & C & E).
    exists new. rewrite analyze_and_alert_snd by exact An. fold moltbook.
    split; [exact C|]. rewrite E.
    rewrite (market_run_not_worthy _ _ _ _ _ _ _ a A W).
    unfold pause_after, run_calls, run_outcome. cbn [fst snd].
    now destruct (_ <? _)%Z.
  - apply analyze_and_alert_without; [exact An| |]; fold moltbook;
      rewrite (market_run_not_worthy _ _ _ _ _ _ _ a A W); reflexivity.
Qed.

(** C4 (code defect): three fetched markets, the first and third with an
    edge at confidence 8 and the second at 5, threshold 7, first run.  The
    ledger call is made for the first and third market and raises for both
    (the price lookup on a list, as for C1): no trade is recorded, no
    notification is attempted and the count is 0, where the claim promises a
    trade and notifications for both. *)
Theorem scenario_A_records_and_sends_nothing :
  forall verbose,
    analyze_and_alert Config.default (scenario_A listed_market) verbose
                      false None false fresh
    = (Ok 0%Z,
       mk_state None
                [Analyze 0; AddTrade 0; Analyze 1; Sleep 6; Analyze 2;
                 AddTrade 2]
                0%Z).
Proof. intros []; reflexivity. Qed.

(** The same batch with the odds held as mappings: two trades, two sends. *)
Example scenario_A_with_mappings :
  analyze_and_alert Config.default (scenario_A mapped_market) true
                    false None false fresh
  = (Ok 2%Z,
     mk_state
       (Some [ new_trade (mapped_market "m1") (JStr "Yes") 8 noon 0.25%float;
               new_trade (mapped_market "m3") (JStr "Yes") 8 noon 0.25%float ])
       [Analyze 0; AddTrade 0; SendAlert 0; Sleep 6;
        Analyze 1; Sleep 6;
        Analyze 2; AddTrade 2; SendAlert 2]
       2%Z).
Proof. reflexivity. Qed.

(** Scenario B with the odds held as mappings: the second market leaves no
    trace but its analysis, the other two are recorded and announced. *)
Example scenario_B_with_mappings :
  analyze_and_alert Config.default (scenario_B mapped_market) true
                    false None false fresh
  = (Ok 2%Z,
     mk_state
       (Some [ new_trade (mapped_market "m1") (JStr "Yes") 8 noon 0.25%float;
               new_trade (mapped_market "m3") (JStr "Yes") 8 noon 0.25%float ])
       [Analyze 0; AddTrade 0; SendAlert 0; Sleep 6;
        Analyze 1;
        Analyze 2; AddTrade 2; SendAlert 2]
       2%Z).
Proof. reflexivity. Qed.

Lemma sleeps_app l1 l2 : sleeps (l1 ++ l2) = sleeps l1 ++ sleeps l2.
Proof. apply flat_map_app. Qed.

Lemma market_run_no_sleep cfg ask_peer moltbook i market r f :
  sleeps (run_calls (market_run cfg ask_peer moltbook i market r f)) = [].
Proof. run_cases cfg ask_peer moltbook r f; reflexivity. Qed.

(** C5 (code defect): in every batch of two markets whose first analysis
    raises, the scan makes no pause at all: the handler of the caught
    exception ends the iteration before the rate-limiting sleep, where the
    claim promises the pause after such an item too. *)
Theorem no_pause_after_caught_exception :
  forall cfg verbose post_to_moltbook ask_peer import_ok market1 market2
         e t dm sent post r2 f,
    sleeps (calls (snd (analyze_and_alert cfg
                          [ (market1, mk_replies (Raise e) t dm sent post);
                            (market2, r2) ]
                          verbose post_to_moltbook ask_peer import_ok
                          (mk_state f [] 0%Z)))) = [].
Proof.
  intros cfg verbose post_to_moltbook ask_peer import_ok market1 market2
         e t dm sent post r2 f.
  rewrite analyze_and_alert_snd_heard. cbn [heard].
  set (moltbook := moltbook_bound post_to_moltbook ask_peer import_ok).
  destruct (announce verbose market1); [|reflexivity].
  destruct (announce verbose market2).
  - rewrite !scan_loop_cons. cbv zeta.
    cbn [scan_loop ret snd]. rewrite !after_market_calls.
    rewrite (market_run_analysis_raises cfg ask_peer moltbook 0 market1
               (mk_replies (Raise e) t dm sent post) _ e eq_refl).
    rewrite !sleeps_app, market_run_no_sleep.
    unfold pause_after at 2.
    destruct (fst (fst (fst (market_run _ _ _ _ _ _ _)))); reflexivity.
  - rewrite !scan_loop_cons. cbv zeta.
    cbn [scan_loop ret snd]. rewrite !after_market_calls.
    rewrite (market_run_analysis_raises cfg ask_peer moltbook 0 market1
               (mk_replies (Raise e) t dm sent post) _ e eq_refl).
    reflexivity.
Qed.

(** * Properties of the market parser *)

Section ParserProperties.
Variable py : Builtins.

Lemma parse_listing_ok item outcome_prices outcomes volume liquidity :
  parse_outcome_prices py (get_or (Listing.outcomePrices item) (JStr "[]"))
    = Ok outcome_prices ->
  parse_outcomes py (get_or (Listing.outcomes item) (JStr "[]"))
    = Ok outcomes ->
  py_float py (get_or (Listing.volume item) (JInt 0)) = Ok volume ->
  py_float py (get_or (Listing.liquidity item) (JInt 0)) = Ok liquidity ->
  parse_listing py item
  = Ok (market_of item outcome_prices outcomes volume liquidity).
Proof.
  intros P O V L. unfold parse_listing. now rewrite P, O, V, L.
Qed.

(** Every market the parser builds holds its prices in a list. *)
Lemma parse_listing_prices_list item market :
  parse_listing py item = Ok market ->
  exists l, Market.outcome_prices market = PricesList l.
Proof.
  unfold parse_listing, and_then.
  destruct (parse_outcome_prices _ _) as [ps|]; [|discriminate].
  destruct (parse_outcomes _ _); [|discriminate].
  destruct (py_float _ _); [|discriminate].
  destruct (py_float _ _); [|discriminate].
  intros [= <-]. now exists ps.
Qed.

Lemma parse_listings_keeps data :
  forall markets item market,
    parse_listings py data = Ok markets ->
    In item data ->
    parse_listing py item = Ok market ->
    In market markets.
Proof.
  induction data as [|first rest IH]; intros markets item market R I P.
  - destruct I.
  - cbn [parse_listings] in R.
    destruct I as [->|I].
    + rewrite P in R. unfold and_then in R.
      destruct (parse_listings py rest); [|discriminate].
      injection R as <-. now left.
    + destruct (parse_listing py first) as [m|e].
      * unfold and_then in R.
        destruct (parse_listings py rest) as [ms|] eqn:E; [|discriminate].
        injection R as <-. right. exact (IH ms item market eq_refl I P).
      * destruct (fetcher_catches e); [|discriminate].
        exact (IH markets item market R I P).
Qed.

Lemma parse_listings_from data :
  forall markets market,
    parse_listings py data = Ok markets ->
    In market markets ->
    exists item, In item data /\ parse_listing py item = Ok market.
Proof.
  induction data as [|first rest IH]; intros markets market R I.
  - injection R as <-. destruct I.
  - cbn [parse_listings] in R.
    destruct (parse_listing py first) as [m|e] eqn:P.
    + unfold and_then in R.
      destruct (parse_listings py rest) as [ms|] eqn:E; [|discriminate].
      injection R as <-. destruct I as [<-|I].
      * exists first. split; [now left|exact P].
      * destruct (IH ms market eq_refl I) as (item & Hin & Hp).
        exists item. split; [now right|exact Hp].
    + destruct (fetcher_catches e); [|discriminate].
      destruct (IH markets market R I) as (item & Hin & Hp).
      exists item. split; [now right|exact Hp].
Qed.
End ParserProperties.

(** No market that [get_active_markets] returns can be recorded in a ledger
    that holds no open trade for it: its prices are a list. *)
Lemma fetched_market_cannot_be_recorded
      py data markets market position confidence now f :
  get_active_markets py (Ok data) = Ok markets ->
  In market markets ->
  count_open (Market.id market) (ledger f) = 0%nat ->
  add_trade market position confidence now f = (Raise AttributeError, f).
Proof.
  intros R I C. cbn [get_active_markets and_then] in R.
  destruct (parse_listings_from py data markets market R I) as (item & _ & P).
  destruct (parse_listing_prices_list py item market P) as (l & L).
  now apply add_trade_list_prices with (l := l).
Qed.

(** C2 (as amended): the parser compares no lengths.  When the call returns,
    every listing whose prices, outcomes, volume and liquidity convert is in
    the batch with the lists as converted, whatever their lengths, and every
    market of the batch is the conversion of a listing; a listing is left
    out only when a conversion raises. *)
Theorem get_active_markets_keeps_converted_listings :
  forall py data markets,
    get_active_markets py (Ok data) = Ok markets ->
    (forall item outcome_prices outcomes volume liquidity,
        In item data ->
        parse_outcome_prices py
          (get_or (Listing.outcomePrices item) (JStr "[]")) = Ok outcome_prices ->
        parse_outcomes py (get_or (Listing.outcomes item) (JStr "[]"))
          = Ok outcomes ->
        py_float py (get_or (Listing.volume item) (JInt 0)) = Ok volume ->
        py_float py (get_or (Listing.liquidity item) (JInt 0)) = Ok liquidity ->
        In (market_of item outcome_prices outcomes volume liquidity) markets)
    /\ (forall market,
          In market markets ->
          exists item, In item data /\ parse_listing py item = Ok market).
Proof.
  intros py data markets R. cbn [get_active_markets and_then] in R. split.
  - intros item ps os v l I P O V L.
    apply (parse_listings_keeps py data markets item); auto.
    now apply parse_listing_ok.
  - intros market I. now apply (parse_listings_from py data markets).
Qed.

Lemma get_active_markets_keeps_converted_listings_witness :
  In (market_of mismatched_listing [0.5%float] (JList [JStr "Yes"; JStr "No"])
                1000%float 500%float)
     [market_of mismatched_listing [0.5%float] (JList [JStr "Yes"; JStr "No"])
                1000%float 500%float].
Proof.
  apply (proj1 (get_active_markets_keeps_converted_listings
                  small_runtime [mismatched_listing]
                  [market_of mismatched_listing [0.5%float]
                             (JList [JStr "Yes"; JStr "No"])
                             1000%float 500%float]
                  eq_refl)
               mismatched_listing [0.5%float] (JList [JStr "Yes"; JStr "No"])
               1000%float 500%float).
  - now left.
  - reflexivity.
  - reflexivity.
  - reflexivity.
  - reflexivity.
Defined.

(** C2 (counterexample): a listing with two outcomes and one price is
    returned by the parser, under every runtime, as a market whose two
    lists differ in length. *)
Lemma mismatched_listing_is_returned :
  (forall py,
      get_active_markets py (Ok [mismatched_listing])
      = Ok [market_of mismatched_listing [0.5%float]
                      (JList [JStr "Yes"; JStr "No"]) 1000%float 500%float])
  /\ py_len (Market.outcomes
               (market_of mismatched_listing [0.5%float]
                          (JList [JStr "Yes"; JStr "No"]) 1000%float 500%float))
     = Some 2%nat
  /\ prices_len (Market.outcome_prices
                   (market_of mismatched_listing [0.5%float]
                              (JList [JStr "Yes"; JStr "No"])
                              1000%float 500%float))
     = 1%nat.
Proof. repeat split. Qed.

(** * Properties of the analyzers *)

Section AnalyzerProperties.
Variable py : Builtins.
Variable question : json.
Variable outcomes : list string.
Variable outcome_prices : list float.

(** A failure of a caught class becomes the low-confidence analysis. *)
Lemma handle_caught catches e :
  catches e = true ->
  handle py catches question outcomes outcome_prices (Raise e)
  = Ok (failed_analysis py question outcomes outcome_prices e).
Proof. intros H. unfold handle. now rewrite H. Qed.

(** A failure of any other class leaves the analyzer. *)
Lemma handle_escapes catches e :
  catches e = false ->
  handle py catches question outcomes outcome_prices (Raise e) = Raise e.
Proof. intros H. unfold handle. now rewrite H. Qed.

(** A failed HTTP request is downgraded by the OpenRouter analyzer. *)
Lemma openrouter_request_failure :
  exists a,
    openrouter_analyze_market py question outcomes outcome_prices
                              (Raise RequestException) = Ok a
    /\ EdgeAnalysis.confidence_score a = 1%Z
    /\ EdgeAnalysis.has_edge a = false
    /\ EdgeAnalysis.reasoning a
       = ("Analysis failed: " ++ exn_str py RequestException)%string.
Proof. eexists. repeat split. Qed.

(** A reply whose text decodes to an answer with a confidence that is not
    a number leaves the OpenRouter analyzer as a [ValueError]. *)
Lemma openrouter_wordy_confidence text inner :
  extract_json (strip text) = Ok inner ->
  json_loads py inner = Loaded wordy_answer ->
  openrouter_analyze_market py question outcomes outcome_prices
                            (Ok (chat_body text))
  = Raise ValueError.
Proof.
  intros E D. unfold openrouter_analyze_market, chat_body.
  cbn [and_then getitem getitem0 dict_get String.eqb Ascii.eqb Bool.eqb
       or_raise nth_error strip_method].
  rewrite ?String.eqb_refl. cbn [or_raise and_then].
  rewrite E. cbn [and_then]. unfold loads. rewrite D. reflexivity.
Qed.

(** The confidence of a returned analysis lies between 1 and 10. *)
Lemma analysis_of_score decoded a :
  analysis_of py question outcomes outcome_prices decoded = Ok a ->
  (1 <= EdgeAnalysis.confidence_score a <= 10)%Z.
Proof.
  unfold analysis_of, and_then.
  repeat (match goal with
          | |- context [match ?x with Ok _ => _ | Raise _ => _ end] =>
              destruct x; [|discriminate]
          end).
  intros [= <-]. cbn [EdgeAnalysis.confidence_score]. lia.
Qed.
End AnalyzerProperties.

(** C3 (code defect): failures that leave the analyzers instead of becoming
    a low-confidence analysis, under every runtime and for every market.
    The Gemini analyzer lets a failed request through (its handler lacks the
    class the OpenRouter handler names); the OpenRouter analyzer lets
    through a reply without choices and a reply without text; both let
    through an answer whose confidence is not a number. *)
Theorem analyzer_failures_escape :
  forall py question outcomes outcome_prices,
    gemini_analyze_market py question outcomes outcome_prices
                          (Raise (OtherError "ServiceUnavailable"))
    = Raise (OtherError "ServiceUnavailable")
    /\ openrouter_analyze_market py question outcomes outcome_prices
                                 (Ok no_choice_body)
       = Raise IndexError
    /\ openrouter_analyze_market py question outcomes outcome_prices
                                 (Ok null_content_body)
       = Raise AttributeError
    /\ handle py openrouter_catches question outcomes outcome_prices
              (analysis_of py question outcomes outcome_prices wordy_answer)
       = Raise ValueError
    /\ handle py gemini_catches question outcomes outcome_prices
              (analysis_of py question outcomes outcome_prices wordy_answer)
       = Raise ValueError.
Proof. intros. repeat split. Qed.

(** * Further properties of the ledger *)

Lemma count_open_new_trade mid market position confidence now entry_price :
  count_open mid [new_trade market position confidence now entry_price]
  = if Market.id market =? mid then 1%nat else 0%nat.
Proof.
  unfold count_open, new_trade, is_open. cbn [filter Trade.status Trade.id].
  rewrite String.eqb_refl. cbn [andb].
  now destruct (Market.id market =? mid).
Qed.

(** X1: [add_trade] keeps the ledger to one open trade per market id. *)
Theorem add_trade_keeps_one_open_per_market :
  forall market position confidence now f,
    one_open_per_market (ledger f) ->
    one_open_per_market
      (ledger (snd (add_trade market position confidence now f))).
Proof.
  intros market position confidence now f H mid.
  rewrite add_trade_cases.
  destruct (already_trading _ _) eqn:T; [exact (H mid)|].
  apply already_trading_false in T.
  destruct (prices_get _ _ _) as [ep|e]; [|exact (H mid)].
  cbn [snd ledger]. rewrite count_open_app, count_open_new_trade.
  destruct (Market.id market =? mid) eqn:E.
  - apply String.eqb_eq in E. subst mid. rewrite T. lia.
  - specialize (H mid). lia.
Qed.

Lemma add_trade_keeps_one_open_per_market_witness :
  one_open_per_market
    (ledger (snd (add_trade (mapped_market "m1") (JStr "Yes") 8 noon None))).
Proof.
  apply (add_trade_keeps_one_open_per_market
           (mapped_market "m1") (JStr "Yes") 8 noon None).
  intros mid. cbn. lia.
Defined.

(** X2: for a market whose odds are a mapping and a ledger without an open
    trade for it, [add_trade] appends one unsettled trade that carries the
    market's id and question, the position and the confidence given, and as
    entry price the odds of the position when the position is a string the
    mapping holds, and 0.5 when it is a string the mapping lacks or no
    string at all but null, a bool or a number.  It then returns when the
    question is a text or a list, and for any other question raises, with
    the trade saved, where its closing print slices the question. *)
Theorem add_trade_records_at_odds_or_half :
  forall market position confidence now f d,
    Market.outcome_prices market = PricesDict d ->
    count_open (Market.id market) (ledger f) = 0%nat ->
    (forall l, position <> JList l) ->
    (forall o, position <> JDict o) ->
    exists trade,
      add_trade market position confidence now f
      = (py_slice (Market.question market), Some (ledger f ++ [trade]))
      /\ unsettled trade
      /\ Trade.id trade = Market.id market
      /\ Trade.question trade = Market.question market
      /\ Trade.position trade = position
      /\ Trade.confidence trade = confidence
      /\ Trade.entry_date trade = now
      /\ Trade.entry_price trade
         = match position with
           | JStr outcome => get_or (dict_get d outcome) 0.5%float
           | _ => 0.5%float
           end.
Proof.
  intros market position confidence now f d Hd H Hl Ho.
  apply already_trading_false in H.
  rewrite add_trade_cases, H, Hd.
  destruct position as [ | b | z | x | s | l | o ]; cbn [prices_get];
    try (eexists; split; [reflexivity|]; repeat split; reflexivity).
  - now destruct (Hl l).
  - now destruct (Ho o).
Qed.

Lemma add_trade_records_at_odds_or_half_witness :
  exists trade,
    add_trade (mapped_market "m1") (JStr "Maybe") 8 noon None
    = (Ok tt, Some (ledger None ++ [trade]))
    /\ unsettled trade
    /\ Trade.id trade = "m1"
    /\ Trade.question trade = JStr "Will it rain tomorrow?"
    /\ Trade.position trade = JStr "Maybe"
    /\ Trade.confidence trade = 8%Z
    /\ Trade.entry_date trade = noon
    /\ Trade.entry_price trade = 0.5%float.
Proof.
  apply (add_trade_records_at_odds_or_half
           (mapped_market "m1") (JStr "Maybe") 8 noon None
           [("Yes", 0.25%float); ("No", 0.75%float)]).
  - reflexivity.
  - reflexivity.
  - intros l. discriminate.
  - intros o. discriminate.
Defined.

Lemma filter_length_split {A : Type} (p : A -> bool) (l : list A) :
  List.length l
  = (List.length (filter p l)
     + List.length (filter (fun x => negb (p x)) l))%nat.
Proof.
  induction l as [|x l IH]; cbn [filter List.length]; [reflexivity|].
  destruct (p x); cbn [negb List.length]; lia.
Qed.

Lemma filter_length_le {A : Type} (p : A -> bool) (l : list A) :
  (List.length (filter p l) <= List.length l)%nat.
Proof.
  induction l as [|x l IH]; cbn [filter List.length]; [lia|].
  destruct (p x); cbn [List.length]; lia.
Qed.

(** X3: the summary only reads the ledger, and its counts add up: the
    trades are the open ones plus the closed ones, and when wins are
    reported they do not exceed the closed trades. *)
Theorem summary_counts_add_up :
  forall f,
  exists d total open closed,
    get_performance_summary f = (Ok d, f)
    /\ int_at d "total_trades" = Some total
    /\ int_at d "open_trades" = Some open
    /\ int_at d "closed_trades" = Some closed
    /\ total = (open + closed)%Z
    /\ (0 <= open)%Z /\ (0 <= closed)%Z
    /\ (forall wins, int_at d "wins" = Some wins -> (0 <= wins <= closed)%Z).
Proof.
  intros f.
  pose proof (filter_length_split is_open (ledger f)) as L.
  destruct (filter (fun t => negb (is_open t)) (ledger f)) as [|t closed] eqn:C.
  - rewrite (summary_no_closed f C).
    do 4 eexists. split; [reflexivity|].
    repeat (split; [reflexivity|]).
    cbn [List.length] in L. split; [lia|]. split; [lia|]. split; [lia|].
    intros wins W. discriminate.
  - unfold get_performance_summary, _load_portfolio, bind, get, ret.
    destruct f as [trades|]; cbn [ledger] in *; [|discriminate].
    rewrite C.
    pose proof (filter_length_le (fun t => Trade.status t =? "won")
                                 (t :: closed)) as W.
    set (won := filter (fun t => Trade.status t =? "won") (t :: closed)) in *.
    set (all_closed := t :: closed) in *.
    do 4 eexists. split; [reflexivity|].
    repeat (split; [reflexivity|]).
    split; [lia|]. split; [lia|]. split; [lia|].
    intros wins E. unfold int_at in E.
    change (Some (Z.of_nat (List.length won)) = Some wins) in E.
    injection E as <-. lia.
Qed.

Lemma summary_reads_ledger f :
  get_performance_summary f
  = (fst (get_performance_summary (Some (ledger f))), f).
Proof.
  unfold get_performance_summary, _load_portfolio, bind, get, ret.
  destruct f as [trades|]; cbn [ledger filter];
    [destruct (filter _ trades)|]; reflexivity.
Qed.

(** X4: once [add_trade] has appended a trade, the summary counts one more
    trade and one more open trade, and every other entry of the summary
    (closed trades, wins, win rate, profit, return) is what it was. *)
Theorem summary_after_recorded_trade :
  forall market position confidence now f f1 trade,
    add_trade market position confidence now f = (Ok tt, f1) ->
    ledger f1 = ledger f ++ [trade] ->
    exists d d1 total open,
      get_performance_summary f = (Ok d, f)
      /\ get_performance_summary f1 = (Ok d1, f1)
      /\ int_at d "total_trades" = Some total
      /\ int_at d1 "total_trades" = Some (total + 1)%Z
      /\ int_at d "open_trades" = Some open
      /\ int_at d1 "open_trades" = Some (open + 1)%Z
      /\ (forall k, k <> "total_trades" -> k <> "open_trades" ->
                    dict_get d1 k = dict_get d k).
Proof.
  intros market position confidence now f f1 trade H E.
  assert (O : is_open trade = true).
  { rewrite add_trade_cases in H.
    destruct (already_trading _ _).
    - injection H as <-. apply (f_equal (@List.length _)) in E.
      rewrite length_app in E. cbn [List.length] in E. lia.
    - destruct (prices_get _ _ _) as [ep|e]; [|discriminate].
      injection H as _ <-. cbn [ledger] in E.
      apply app_inv_head in E. injection E as <-. reflexivity. }
  rewrite (summary_reads_ledger f), (summary_reads_ledger f1), E.
  unfold get_performance_summary, _load_portfolio, bind, get, ret.
  cbn [fst].
  rewrite (filter_app (fun t => negb (is_open t))), (filter_app is_open).
  cbn [filter]. rewrite O. cbn [negb].
  rewrite app_nil_r, !length_app. cbn [List.length].
  replace (Z.of_nat (List.length (ledger f) + 1))
    with (Z.of_nat (List.length (ledger f)) + 1)%Z by lia.
  replace (Z.of_nat (List.length (filter is_open (ledger f)) + 1))
    with (Z.of_nat (List.length (filter is_open (ledger f))) + 1)%Z by lia.
  destruct (filter (fun t => negb (is_open t)) (ledger f)) as [|c closed];
    (do 4 eexists; split; [reflexivity|]; split; [reflexivity|];
     repeat (split; [reflexivity|]);
     intros k K1 K2; apply String.eqb_neq in K1, K2;
     rewrite String.eqb_sym in K1; rewrite String.eqb_sym in K2;
     cbn [dict_get]; rewrite K1, K2; reflexivity).
Qed.

Lemma summary_after_recorded_trade_witness :
  exists d d1 total open,
    get_performance_summary None = (Ok d, None)
    /\ get_performance_summary
         (Some [new_trade (mapped_market "m1") (JStr "Yes") 8 noon 0.25%float])
       = (Ok d1,
          Some [new_trade (mapped_market "m1") (JStr "Yes") 8 noon 0.25%float])
    /\ int_at d "total_trades" = Some total
    /\ int_at d1 "total_trades" = Some (total + 1)%Z
    /\ int_at d "open_trades" = Some open
    /\ int_at d1 "open_trades" = Some (open + 1)%Z
    /\ (forall k, k <> "total_trades" -> k <> "open_trades" ->
                  dict_get d1 k = dict_get d k).
Proof.
  apply (summary_after_recorded_trade
           (mapped_market "m1") (JStr "Yes") 8 noon None
           (Some [new_trade (mapped_market "m1") (JStr "Yes") 8 noon
                            0.25%float])
           (new_trade (mapped_market "m1") (JStr "Yes") 8 noon 0.25%float)).
  - reflexivity.
  - reflexivity.
Defined.

(** * Further properties of the scan orchestrator *)

Lemma after_market_portfolio st run pause :
  portfolio (after_market st run pause) = run_file run.
Proof. now destruct run as [[[res f] made] sent]. Qed.

Lemma after_market_alerts st run pause :
  alerts_sent (after_market st run pause)
  = (alerts_sent st + run_sent run)%Z.
Proof. now destruct run as [[[res f] made] sent]. Qed.

Lemma sends_app l1 l2 : sends (l1 ++ l2) = sends l1 ++ sends l2.
Proof. apply flat_map_app. Qed.

(** The ledger after a market is the ledger found or the one [add_trade]
    leaves. *)
Lemma market_run_file cfg ask_peer moltbook i market r f :
  run_file (market_run cfg ask_peer moltbook i market r f) = f
  \/ exists position confidence,
       run_file (market_run cfg ask_peer moltbook i market r f)
       = snd (add_trade market position confidence (now r) f).
Proof.
  unfold market_run.
  destruct (analysis r) as [a|e]; [|now left].
  destruct (alert_worthy cfg a); [|now left].
  right. exists (EdgeAnalysis.recommended_position a),
                (EdgeAnalysis.confidence_score a).
  destruct (add_trade _ _ _ _ f) as [[[]|e] f']; [|reflexivity].
  destruct (to_alert_message a); [|reflexivity].
  destruct (alert_sent r); reflexivity.
Qed.

(** One market: at most one Telegram send, for that market, and the counter
    advances by one at most and only with a send; the pause, if any, is six
    seconds. *)
Lemma market_run_sends cfg ask_peer moltbook n i market r f :
  let run := market_run cfg ask_peer moltbook i market r f in
  (sends (run_calls run) = [] \/ sends (run_calls run) = [i])
  /\ (0 <= run_sent run <= Z.of_nat (List.length (sends (run_calls run))))%Z
  /\ sends (pause_after n i (run_outcome run)) = []
  /\ (sleeps (pause_after n i (run_outcome run)) = []
      \/ ((Z.of_nat i < Z.of_nat n - 1)%Z
          /\ sleeps (pause_after n i (run_outcome run)) = [6%Z])).
Proof.
  cbv zeta. unfold pause_after.
  run_cases cfg ask_peer moltbook r f;
    destruct (Z.ltb_spec (Z.of_nat i) (Z.of_nat n - 1));
    cbn [sends sleeps flat_map app List.length];
    repeat split; try lia; auto.
Qed.

(** The ledger through the loop: any relation between ledger files that is
    reflexive, transitive and holds across [add_trade] holds across the
    loop. *)
Lemma scan_loop_ledger (R : portfolio_file -> portfolio_file -> Prop)
      cfg ask_peer moltbook n items :
  (forall f, R f f) ->
  (forall f g h, R f g -> R g h -> R f h) ->
  (forall market position confidence now f,
      R f (snd (add_trade market position confidence now f))) ->
  forall i st,
    R (portfolio st)
      (portfolio (snd (scan_loop cfg ask_peer moltbook false n i items st))).
Proof.
  intros Rrefl Rtrans Radd.
  induction items as [|[market r] rest IH]; intros i st.
  - apply Rrefl.
  - rewrite scan_loop_cons. cbv zeta.
    eapply Rtrans; [|apply IH].
    rewrite after_market_portfolio.
    destruct (market_run_file cfg ask_peer moltbook i market r (portfolio st))
      as [->|(position & confidence & ->)]; [apply Rrefl|apply Radd].
Qed.

Lemma add_trade_appends market position confidence now f :
  exists appended,
    ledger (snd (add_trade market position confidence now f))
    = ledger f ++ appended
    /\ Forall unsettled appended.
Proof.
  rewrite add_trade_cases.
  destruct (already_trading _ _).
  - exists []. cbn [snd]. now rewrite app_nil_r.
  - destruct (prices_get _ _ _) as [ep|e].
    + exists [new_trade market position confidence now ep]. cbn [snd ledger].
      split; [reflexivity|]. constructor; [|constructor]. repeat split.
    + exists []. cbn [snd]. now rewrite app_nil_r.
Qed.

(** X5: a scan only appends to the ledger: the trades present before it
    remain, in place and unchanged, and the trades after them are
    unsettled. *)
Theorem analyze_and_alert_appends_unsettled_trades :
  forall cfg markets verbose post_to_moltbook ask_peer import_ok st,
  exists appended,
    ledger (portfolio (snd (analyze_and_alert cfg markets verbose
                              post_to_moltbook ask_peer import_ok st)))
    = ledger (portfolio st) ++ appended
    /\ Forall unsettled appended.
Proof.
  intros. rewrite analyze_and_alert_snd_heard.
  change (portfolio st) with (portfolio (entry st)).
  apply (scan_loop_ledger
           (fun f g => exists appended,
                ledger g = ledger f ++ appended /\ Forall unsettled appended)).
  - intros f. exists []. now rewrite app_nil_r.
  - intros f g h (a1 & E1 & U1) (a2 & E2 & U2).
    exists (a1 ++ a2). rewrite E2, E1, app_assoc.
    split; [reflexivity|]. apply Forall_app. now split.
  - intros market position confidence now f.
    apply add_trade_appends.
Qed.

(** X6: a scan keeps the ledger to one open trade per market id. *)
Theorem analyze_and_alert_keeps_one_open_per_market :
  forall cfg markets verbose post_to_moltbook ask_peer import_ok st,
    one_open_per_market (ledger (portfolio st)) ->
    one_open_per_market
      (ledger (portfolio (snd (analyze_and_alert cfg markets verbose
                                 post_to_moltbook ask_peer import_ok st)))).
Proof.
  intros cfg markets verbose post_to_moltbook ask_peer import_ok st.
  rewrite analyze_and_alert_snd_heard.
  change (portfolio st) with (portfolio (entry st)).
  apply (scan_loop_ledger
           (fun f g => one_open_per_market (ledger f) ->
                       one_open_per_market (ledger g))).
  - auto.
  - auto.
  - intros market position confidence now f H mid.
    rewrite add_trade_cases.
    destruct (already_trading _ _) eqn:T; [exact (H mid)|].
    apply already_trading_false in T.
    destruct (prices_get _ _ _) as [ep|e]; [|exact (H mid)].
    cbn [snd ledger]. rewrite count_open_app, count_open_new_trade.
    destruct (Market.id market =? mid) eqn:E.
    + apply String.eqb_eq in E. subst mid. rewrite T. lia.
    + specialize (H mid). lia.
Qed.

Lemma analyze_and_alert_keeps_one_open_per_market_witness :
  one_open_per_market
    (ledger (portfolio (snd (analyze_and_alert Config.default
                               (scenario_A mapped_market) true false None
                               false fresh)))).
Proof.
  apply (analyze_and_alert_keeps_one_open_per_market
           Config.default (scenario_A mapped_market) true false None false
           fresh).
  intros mid. cbn. lia.
Defined.

Lemma heard_length verbose markets :
  (List.length (heard verbose markets) <= List.length markets)%nat.
Proof.
  induction markets as [|[market r] rest IH]; cbn [heard List.length]; [lia|].
  destruct (announce verbose market); cbn [List.length]; lia.
Qed.

(** The calls and the counter through the loop. *)
Lemma scan_loop_counts cfg ask_peer moltbook n items :
  forall i st,
  exists new,
    calls (snd (scan_loop cfg ask_peer moltbook false n i items st)) = calls st ++ new
    /\ (alerts_sent st
        <= alerts_sent (snd (scan_loop cfg ask_peer moltbook false n i items st))
        <= alerts_sent st + Z.of_nat (List.length (sends new)))%Z
    /\ Forall (fun j => i <= j < i + List.length items)%nat (sends new)
    /\ NoDup (sends new)
    /\ Forall (eq 6%Z) (sleeps new)
    /\ (List.length (sleeps new) <= n - 1 - i)%nat.
Proof.
  induction items as [|[market r] rest IH]; intros i st.
  - exists []. cbn [scan_loop ret snd sends sleeps flat_map List.length].
    rewrite app_nil_r. repeat split; try lia; constructor.
  - rewrite scan_loop_cons. cbv zeta.
    set (run := market_run cfg ask_peer moltbook i market r (portfolio st)).
    change (fst (fst (fst run))) with (run_outcome run).
    destruct (market_run_sends cfg ask_peer moltbook n i market r (portfolio st))
      as (S1 & A1 & P1 & Z1). fold run in S1, A1, P1, Z1.
    pose proof (market_run_no_sleep cfg ask_peer moltbook i market r
                                    (portfolio st)) as N1. fold run in N1.
    destruct (IH (S i) (after_market st run (pause_after n i (run_outcome run))))
      as (new & C & A & F & D & Z & L).
    rewrite after_market_calls in C. rewrite after_market_alerts in A.
    exists ((run_calls run ++ pause_after n i (run_outcome run)) ++ new).
    split; [now rewrite C, <- !app_assoc|].
    rewrite !sends_app, !sleeps_app, P1, N1, app_nil_r. cbn [app].
    rewrite !length_app. cbn [List.length].
    split; [lia|].
    split; [|split; [|split]].
    + apply Forall_app. split.
      * destruct S1 as [->| ->]; constructor; [lia|constructor].
      * eapply Forall_impl; [|exact F]. cbn beta. intros j Hj. lia.
    + destruct S1 as [->| ->]; cbn [app]; [exact D|].
      constructor; [|exact D].
      intros I. rewrite Forall_forall in F. specialize (F i I). lia.
    + apply Forall_app. split; [|exact Z].
      destruct Z1 as [->|[_ ->]]; repeat constructor.
    + destruct Z1 as [->|[Hlt ->]]; cbn [List.length]; lia.
Qed.

(** X7: at most one Telegram send is made per market of the batch; and
    when every progress line can be printed, the scan returns a count that
    is never negative and never exceeds the number of sends made. *)
Theorem analyze_and_alert_count_bounded :
  forall cfg markets verbose post_to_moltbook ask_peer import_ok st,
  exists new,
    calls (snd (analyze_and_alert cfg markets verbose post_to_moltbook
                                  ask_peer import_ok st)) = calls st ++ new
    /\ NoDup (sends new)
    /\ Forall (fun j => j < List.length markets)%nat (sends new)
    /\ (announced verbose markets ->
        exists count,
          fst (analyze_and_alert cfg markets verbose post_to_moltbook
                                 ask_peer import_ok st) = Ok count
          /\ (0 <= count <= Z.of_nat (List.length (sends new)))%Z).
Proof.
  intros cfg markets verbose post_to_moltbook ask_peer import_ok st.
  rewrite analyze_and_alert_heard. cbv zeta. cbn [fst snd].
  destruct (scan_loop_counts cfg ask_peer
              (moltbook_bound post_to_moltbook ask_peer import_ok)
              (List.length markets) (heard verbose markets) 0 (entry st))
    as (new & C & A & F & D & _).
  pose proof (heard_length verbose markets) as L.
  exists new. split; [exact C|]. split; [exact D|]. split.
  - eapply Forall_impl; [|exact F]. cbn beta. intros j Hj. lia.
  - intros An. destruct (announced_heard verbose markets An) as [_ ->].
    eexists. split; [reflexivity|].
    cbn [entry alerts_sent] in A. lia.
Qed.

Lemma last_app_nonempty {A : Type} (l1 l2 : list A) (d : A) :
  l2 <> [] -> last (l1 ++ l2) d = last l2 d.
Proof.
  intros H. induction l1 as [|x l1 IH]; [reflexivity|].
  cbn [app]. destruct (l1 ++ l2) eqn:E.
  - apply app_eq_nil in E. now destruct E.
  - exact IH.
Qed.

Lemma no_sleep_no_final_sleep cs :
  sleeps cs = [] -> ends_with_sleep cs = false.
Proof.
  unfold ends_with_sleep.
  induction cs as [|c cs IH]; [reflexivity|].
  intros H. cbn [sleeps flat_map] in H. apply app_eq_nil in H.
  destruct H as [Hc Hcs]. specialize (IH Hcs).
  destruct cs as [|c' cs']; [now destruct c|exact IH].
Qed.

(** The loop never ends on a pause. *)
Lemma scan_loop_no_final_sleep cfg ask_peer moltbook items :
  forall i st new,
    calls (snd (scan_loop cfg ask_peer moltbook false (i + List.length items) i
                          items st)) = calls st ++ new ->
    ends_with_sleep new = false.
Proof.
  induction items as [|[market r] rest IH]; intros i st new C.
  - cbn [scan_loop ret snd] in C.
    rewrite <- (app_nil_r (calls st)) in C at 1.
    apply app_inv_head in C. now subst new.
  - rewrite scan_loop_cons in C. cbv zeta in C.
    set (run := market_run cfg ask_peer moltbook i market r (portfolio st)) in C.
    change (fst (fst (fst run))) with (run_outcome run) in C.
    cbn [List.length] in C.
    replace (i + S (List.length rest))%nat
      with (S i + List.length rest)%nat in C by lia.
    destruct (scan_loop_calls cfg ask_peer moltbook (S i + List.length rest)
                rest (S i)
                (after_market st run
                   (pause_after (S i + List.length rest) i (run_outcome run))))
      as (rest_new & C' & A' & _).
    pose proof (IH (S i) _ rest_new C') as E.
    rewrite C', after_market_calls, <- !app_assoc in C.
    apply app_inv_head in C. subst new.
    destruct rest as [|x rest'].
    + cbn [List.length seq analysed] in A'.
      assert (rest_new = []) as ->.
      { cbn [scan_loop ret snd] in C'.
        rewrite <- (app_nil_r (calls _)) in C' at 1.
        now apply app_inv_head in C'. }
      rewrite app_nil_r. apply no_sleep_no_final_sleep.
      rewrite sleeps_app. unfold run.
      rewrite market_run_no_sleep. unfold pause_after.
      destruct (run_outcome _); [|reflexivity].
      destruct (_ <? _)%Z eqn:Q; [|reflexivity].
      apply Z.ltb_lt in Q. cbn [List.length] in Q. lia.
    + assert (N : rest_new <> []).
      { intros ->. cbn [List.length seq analysed flat_map] in A'.
        discriminate. }
      unfold ends_with_sleep in *.
      rewrite app_assoc, last_app_nonempty by exact N. exact E.
Qed.

(** X8: every pause of a scan lasts six seconds and a batch of [n] markets
    gets at most [n - 1] pauses; when every progress line can be printed,
    the scan never ends on a pause. *)
Theorem analyze_and_alert_pauses :
  forall cfg markets verbose post_to_moltbook ask_peer import_ok st,
  exists new,
    calls (snd (analyze_and_alert cfg markets verbose post_to_moltbook
                                  ask_peer import_ok st)) = calls st ++ new
    /\ Forall (eq 6%Z) (sleeps new)
    /\ (List.length (sleeps new) <= List.length markets - 1)%nat
    /\ (announced verbose markets -> ends_with_sleep new = false).
Proof.
  intros cfg markets verbose post_to_moltbook ask_peer import_ok st.
  rewrite analyze_and_alert_snd_heard.
  destruct (scan_loop_counts cfg ask_peer
              (moltbook_bound post_to_moltbook ask_peer import_ok)
              (List.length markets) (heard verbose markets) 0 (entry st))
    as (new & C & _ & _ & _ & Z & L).
  exists new. split; [exact C|]. split; [exact Z|]. split; [lia|].
  intros An. destruct (announced_heard verbose markets An) as [H _].
  rewrite H in C.
  apply (scan_loop_no_final_sleep cfg ask_peer
           (moltbook_bound post_to_moltbook ask_peer import_ok)
           markets 0 (entry st)).
  exact C.
Qed.

Lemma scan_loop_quiet cfg ask_peer moltbook n items :
  Forall (fun mr => exists a, analysis (snd mr) = Ok a
                              /\ alert_worthy cfg a = false) items ->
  forall i st,
    scan_loop cfg ask_peer moltbook false n i items st
    = (Ok tt,
       mk_state (portfolio st)
                (calls st ++ flat_map (quiet_calls n)
                                      (seq i (List.length items)))
                (alerts_sent st)).
Proof.
  induction 1 as [|[market r] rest (a & A & W) _ IH]; intros i st.
  - cbn [scan_loop ret List.length seq flat_map]. rewrite app_nil_r.
    now destruct st.
  - rewrite scan_loop_cons. cbv zeta.
    rewrite (market_run_not_worthy cfg ask_peer moltbook i market r _ a A W).
    rewrite IH. cbn [fst snd after_market pause_after portfolio calls
                     alerts_sent List.length seq flat_map].
    unfold quiet_calls at 2.
    rewrite Z.add_0_r, <- !app_assoc. reflexivity.
Qed.

(** X9: when every progress line can be printed, every analysis returns and
    none is alert-worthy, the scan returns 0, leaves the ledger as it is,
    and its calls are the analyses in order with a pause of six seconds
    after each but the last. *)
Theorem analyze_and_alert_quiet_scan :
  forall cfg markets verbose post_to_moltbook ask_peer import_ok st,
    announced verbose markets ->
    Forall (fun mr => exists a, analysis (snd mr) = Ok a
                                /\ alert_worthy cfg a = false) markets ->
    analyze_and_alert cfg markets verbose post_to_moltbook ask_peer
                      import_ok st
    = (Ok 0%Z,
       mk_state (portfolio st)
                (calls st ++ flat_map (quiet_calls (List.length markets))
                                      (seq 0 (List.length markets)))
                0%Z).
Proof.
  intros cfg markets verbose post_to_moltbook ask_peer import_ok st A H.
  rewrite analyze_and_alert_run by exact A. cbv zeta.
  now rewrite (scan_loop_quiet cfg ask_peer _ _ markets H).
Qed.

Lemma analyze_and_alert_quiet_scan_witness :
  analyze_and_alert Config.default quiet_batch true false None false fresh
  = (Ok 0%Z, mk_state None [Analyze 0; Sleep 6; Analyze 1] 0%Z).
Proof.
  apply (analyze_and_alert_quiet_scan
           Config.default quiet_batch true false None false fresh).
  - repeat constructor.
  - repeat constructor; eexists; split; reflexivity.
Defined.

Lemma market_run_unbound cfg ask_peer i market r f :
  market_run cfg ask_peer false i market r f
  = market_run cfg None false i market r f.
Proof.
  unfold market_run, dm_calls. now rewrite Bool.andb_false_r.
Qed.

Lemma scan_loop_unbound cfg ask_peer n items :
  forall i st,
    scan_loop cfg ask_peer false false n i items st
    = scan_loop cfg None false false n i items st.
Proof.
  induction items as [|[market r] rest IH]; intros i st.
  - reflexivity.
  - rewrite !scan_loop_cons. cbv zeta.
    now rewrite market_run_unbound, IH.
Qed.

(** X10: when the Moltbook client cannot be imported, the scan does what it
    does with both Moltbook options off: same ledger, same calls, same
    count, whatever the options asked for. *)
Theorem analyze_and_alert_without_moltbook_client :
  forall cfg markets verbose post_to_moltbook ask_peer st,
    analyze_and_alert cfg markets verbose post_to_moltbook ask_peer false st
    = analyze_and_alert cfg markets verbose false None false st.
Proof.
  intros. rewrite !analyze_and_alert_heard. cbv zeta.
  unfold moltbook_bound. rewrite Bool.andb_false_r. cbn [orb andb str_truthy].
  now rewrite scan_loop_unbound.
Qed.



(** With a peer named and the client imported, an announced market is also
    posted. *)
Example peer_review_posts_to_moltbook :
  calls (snd (analyze_and_alert Config.default
                [(mapped_market "m1", answering (Ok (edge 8)))]
                true false (Some "analyst") true fresh))
  = [Analyze 0; AddTrade 0; SendDM 0; SendAlert 0; PostMoltbook 0].
Proof. reflexivity. Qed.

(** * Further properties of the analyzers *)

Lemma and_then_ok {A B : Type} (r : result A) (k : A -> result B) (b : B) :
  and_then r k = Ok b -> exists a, r = Ok a /\ k a = Ok b.
Proof.
  destruct r as [a|e]; cbn [and_then]; [|discriminate].
  intros H. now exists a.
Qed.

Lemma or_raise_ok {A : Type} (o : option A) (e : exn) (a : A) :
  or_raise o e = Ok a -> o = Some a.
Proof. destruct o; cbn [or_raise]; congruence. Qed.

(** What a returned analysis is: the one built from a decoded reply, or the
    low-confidence one of the handler. *)
Lemma handle_ok py catches question outcomes outcome_prices attempt a :
  handle py catches question outcomes outcome_prices attempt = Ok a ->
  attempt = Ok a
  \/ exists e, a = failed_analysis py question outcomes outcome_prices e.
Proof.
  unfold handle. destruct attempt as [a'|e].
  - intros [= <-]. now left.
  - destruct (catches e); [|discriminate].
    intros [= <-]. right. now exists e.
Qed.

Lemma analyzers_ok py question outcomes outcome_prices r1 r2 a :
  openrouter_analyze_market py question outcomes outcome_prices r1 = Ok a
  \/ gemini_analyze_market py question outcomes outcome_prices r2 = Ok a ->
  (exists text decoded,
      json_loads py text = Loaded decoded
      /\ analysis_of py question outcomes outcome_prices decoded = Ok a)
  \/ exists e, a = failed_analysis py question outcomes outcome_prices e.
Proof.
  intros [H|H]; apply handle_ok in H; destruct H as [H|H]; auto; left.
  - do 7 (apply and_then_ok in H; destruct H as (? & _ & H)).
    apply and_then_ok in H. destruct H as (decoded & D & H).
    unfold loads in D. destruct (json_loads py _) eqn:J; try discriminate.
    injection D as ->. eauto.
  - do 2 (apply and_then_ok in H; destruct H as (? & _ & H)).
    apply and_then_ok in H. destruct H as (decoded & D & H).
    unfold loads in D. destruct (json_loads py _) eqn:J; try discriminate.
    injection D as ->. eauto.
Qed.

Lemma confidence_bar_length c :
  List.length (confidence_bar c)
  = (Z.to_nat (c / 2) + Z.to_nat (5 - c / 2))%nat.
Proof.
  unfold confidence_bar, times. now rewrite length_app, !repeat_length.
Qed.

(** X12: the confidence bar has five marks exactly for the scores from 0
    to 11, and then the filled marks, [confidence // 2] of them, come
    first. *)
Theorem confidence_bar_five_marks :
  forall c,
    (List.length (confidence_bar c) = 5%nat <-> (0 <= c <= 11)%Z)
    /\ ((0 <= c <= 11)%Z ->
        confidence_bar c
        = repeat Filled (Z.to_nat (c / 2))
          ++ repeat Blank (5 - Z.to_nat (c / 2))).
Proof.
  intros c. split.
  - rewrite confidence_bar_length.
    pose proof (Z.div_mod c 2 ltac:(lia)) as D.
    pose proof (Z.mod_pos_bound c 2 ltac:(lia)) as B.
    split; intros H; lia.
  - intros H. unfold confidence_bar, times. f_equal. f_equal.
    pose proof (Z.div_mod c 2 ltac:(lia)) as D.
    pose proof (Z.mod_pos_bound c 2 ltac:(lia)) as B.
    lia.
Qed.

(** X13: every analysis an analyzer returns, whether built from the reply
    or by the handler, has a confidence between 1 and 10, hence a bar of
    five marks. *)
Theorem analyzer_score_in_range :
  forall py question outcomes outcome_prices r1 r2 a,
    openrouter_analyze_market py question outcomes outcome_prices r1 = Ok a
    \/ gemini_analyze_market py question outcomes outcome_prices r2 = Ok a ->
    (1 <= EdgeAnalysis.confidence_score a <= 10)%Z
    /\ List.length (confidence_bar (EdgeAnalysis.confidence_score a)) = 5%nat.
Proof.
  intros py question outcomes outcome_prices r1 r2 a H.
  assert (R : (1 <= EdgeAnalysis.confidence_score a <= 10)%Z).
  { apply analyzers_ok in H. destruct H as [(text & decoded & _ & H)|(e & ->)].
    - exact (analysis_of_score py question outcomes outcome_prices decoded a H).
    - cbn. lia. }
  split; [exact R|].
  rewrite confidence_bar_length.
  pose proof (Z.div_mod (EdgeAnalysis.confidence_score a) 2 ltac:(lia)) as D.
  pose proof (Z.mod_pos_bound (EdgeAnalysis.confidence_score a) 2 ltac:(lia))
    as B.
  lia.
Qed.

Lemma analyzer_score_in_range_witness :
  (1 <= EdgeAnalysis.confidence_score
          (failed_analysis small_runtime (JStr "Will it rain tomorrow?")
                           ["Yes"; "No"] [0.25%float; 0.75%float]
                           RequestException) <= 10)%Z
  /\ List.length
       (confidence_bar
          (EdgeAnalysis.confidence_score
             (failed_analysis small_runtime (JStr "Will it rain tomorrow?")
                              ["Yes"; "No"] [0.25%float; 0.75%float]
                              RequestException))) = 5%nat.
Proof.
  apply (analyzer_score_in_range
           small_runtime (JStr "Will it rain tomorrow?") ["Yes"; "No"]
           [0.25%float; 0.75%float] (Raise RequestException)
           (Raise RequestException)).
  left. reflexivity.
Defined.

Lemma loads_ok py text v :
  loads py text = Ok v -> json_loads py text = Loaded v.
Proof.
  unfold loads. destruct (json_loads py text); congruence.
Qed.

(** The analyses that pass the admission test are built from an object
    that holds a truthy [has_edge]. *)
Lemma analysis_of_worthy cfg py question outcomes outcome_prices decoded a :
  analysis_of py question outcomes outcome_prices decoded = Ok a ->
  alert_worthy cfg a = true ->
  exists fields v,
    decoded = JDict fields
    /\ dict_get fields "has_edge" = Some v
    /\ truthy v = true.
Proof.
  intros H W. unfold analysis_of in H.
  apply and_then_ok in H. destruct H as (score_v & _ & H).
  apply and_then_ok in H. destruct H as (score & _ & H).
  apply and_then_ok in H. destruct H as (edge_v & E & H).
  apply and_then_ok in H. destruct H as (reasoning_v & _ & H).
  apply and_then_ok in H. destruct H as (recommended & _ & H).
  injection H as <-.
  unfold alert_worthy in W. cbn [EdgeAnalysis.has_edge] in W.
  apply andb_prop in W. destruct W as [T _].
  destruct decoded as [ | | | | | |fields]; try discriminate.
  cbn [get_method] in E. injection E as <-.
  exists fields.
  destruct (dict_get fields "has_edge") as [v|]; cbn [get_or] in T.
  - now exists v.
  - discriminate.
Qed.

(** X14: an analysis passes the admission test only when it was built from
    the reply itself, and the text of the reply, with its fence removed,
    decodes to an object that holds a truthy [has_edge].  The analysis the
    handlers build for a failure never passes, whatever the threshold. *)
Theorem alert_needs_truthy_has_edge :
  forall cfg py question outcomes outcome_prices,
    (forall e,
        alert_worthy cfg
          (failed_analysis py question outcomes outcome_prices e) = false)
    /\ (forall response a,
          openrouter_analyze_market py question outcomes outcome_prices
                                    response = Ok a ->
          alert_worthy cfg a = true ->
          exists body text inner fields v,
            response = Ok body
            /\ content_of body = Ok text
            /\ extract_json text = Ok inner
            /\ json_loads py inner = Loaded (JDict fields)
            /\ dict_get fields "has_edge" = Some v
            /\ truthy v = true
            /\ analysis_of py question outcomes outcome_prices (JDict fields)
               = Ok a)
    /\ (forall response a,
          gemini_analyze_market py question outcomes outcome_prices
                                response = Ok a ->
          alert_worthy cfg a = true ->
          exists raw inner fields v,
            response = Ok raw
            /\ extract_json (strip raw) = Ok inner
            /\ json_loads py inner = Loaded (JDict fields)
            /\ dict_get fields "has_edge" = Some v
            /\ truthy v = true
            /\ analysis_of py question outcomes outcome_prices (JDict fields)
               = Ok a).
Proof.
  intros cfg py question outcomes outcome_prices.
  split; [reflexivity|]. split.
  - intros response a H W.
    apply handle_ok in H. destruct H as [H|(e & ->)]; [|discriminate].
    apply and_then_ok in H. destruct H as (body & B & H).
    apply and_then_ok in H. destruct H as (choices & H1 & H).
    apply and_then_ok in H. destruct H as (choice & H2 & H).
    apply and_then_ok in H. destruct H as (msg & H3 & H).
    apply and_then_ok in H. destruct H as (content & H4 & H).
    apply and_then_ok in H. destruct H as (text & H5 & H).
    apply and_then_ok in H. destruct H as (inner & H6 & H).
    apply and_then_ok in H. destruct H as (decoded & D & H).
    destruct (analysis_of_worthy cfg py question outcomes outcome_prices
                                 decoded a H W) as (fields & v & -> & F & T).
    exists body, text, inner, fields, v.
    split; [exact B|]. split.
    + unfold content_of. rewrite H1. cbn [and_then]. rewrite H2.
      cbn [and_then]. rewrite H3. cbn [and_then]. rewrite H4. exact H5.
    + split; [exact H6|]. split; [now apply loads_ok|]. auto.
  - intros response a H W.
    apply handle_ok in H. destruct H as [H|(e & ->)]; [|discriminate].
    apply and_then_ok in H. destruct H as (raw & B & H).
    apply and_then_ok in H. destruct H as (inner & H6 & H).
    apply and_then_ok in H. destruct H as (decoded & D & H).
    destruct (analysis_of_worthy cfg py question outcomes outcome_prices
                                 decoded a H W) as (fields & v & -> & F & T).
    exists raw, inner, fields, v.
    split; [exact B|]. split; [exact H6|].
    split; [now apply loads_ok|]. auto.
Qed.

(** A reply that reports an edge passes the admission test at threshold 5,
    with either analyzer. *)
Example edge_reply_is_alert_worthy :
  (exists a,
      gemini_analyze_market reply_runtime (JStr "Will it rain tomorrow?")
                            ["Yes"; "No"] [0.25%float; 0.75%float]
                            (Ok edge_text) = Ok a
      /\ alert_worthy (Config.mk 5) a = true)
  /\ (exists a,
        openrouter_analyze_market reply_runtime
                                  (JStr "Will it rain tomorrow?")
                                  ["Yes"; "No"] [0.25%float; 0.75%float]
                                  (Ok (chat_body edge_text)) = Ok a
        /\ alert_worthy (Config.mk 5) a = true).
Proof. split; eexists; split; reflexivity. Qed.

Lemma split_go_nonempty sep s :
  forall skip cur, (1 <= List.length (split_go sep skip cur s))%nat.
Proof.
  induction s as [|c s IH]; intros skip cur; cbn [split_go List.length].
  - lia.
  - destruct skip as [|k]; [|apply IH].
    destruct (String.prefix sep (String c s)); [cbn [List.length]; lia|apply IH].
Qed.

Lemma split_go_two sep s :
  sep <> EmptyString ->
  forall cur,
    contains sep s = true ->
    (2 <= List.length (split_go sep 0 cur s))%nat.
Proof.
  intros Hsep. induction s as [|c s IH]; intros cur H.
  - destruct sep; [contradiction|discriminate].
  - cbn [contains] in H. cbn [split_go].
    destruct (String.prefix sep (String c s)).
    + cbn [List.length].
      pose proof (split_go_nonempty sep s (String.length sep - 1) EmptyString).
      lia.
    + apply IH. exact H.
Qed.

Lemma piece_ok pieces k :
  (k < List.length pieces)%nat -> exists s, piece pieces k = Ok s.
Proof.
  intros H. unfold piece.
  destruct (nth_error pieces k) as [s|] eqn:E.
  - now exists s.
  - apply nth_error_None in E. lia.
Qed.

(** X15: the extraction of the JSON text from a reply never raises: the
    second piece it takes after a fence exists because the fence was found,
    also when the fence is never closed; a reply without a fence is returned
    as it is. *)
Theorem extract_json_returns :
  forall text,
  exists inner,
    extract_json text = Ok inner
    /\ (contains json_fence text = false -> contains fence text = false ->
        inner = text).
Proof.
  intros text. unfold extract_json.
  destruct (contains json_fence text) eqn:J.
  - destruct (piece_ok (split json_fence text) 1) as (inner & P).
    { apply split_go_two; [discriminate|exact J]. }
    rewrite P. cbn [and_then].
    destruct (piece_ok (split fence inner) 0) as (s & Q).
    { apply split_go_nonempty. }
    exists s. split; [exact Q|discriminate].
  - destruct (contains fence text) eqn:F.
    + destruct (piece_ok (split fence text) 1) as (inner & P).
      { apply split_go_two; [discriminate|exact F]. }
      rewrite P. cbn [and_then].
      destruct (piece_ok (split fence inner) 0) as (s & Q).
      { apply split_go_nonempty. }
      exists s. split; [exact Q|discriminate].
    + exists text. split; [reflexivity|auto].
Qed.

(** An unclosed fence: what follows it is taken to the end. *)
Example extract_json_unclosed_fence :
  extract_json "Here you are: ```json{}" = Ok "{}".
Proof. reflexivity. Qed.

(** *** Dicts *)

Lemma dict_get_set_same {V : Type} (d : dict V) k v :
  dict_get (dict_set d k v) k = Some v.
Proof.
  induction d as [|[k' v'] d IH]; cbn [dict_set dict_get].
  - now rewrite String.eqb_refl.
  - destruct (k' =? k) eqn:E; cbn [dict_get]; rewrite E; auto.
Qed.

Lemma dict_get_set_other {V : Type} (d : dict V) k v k0 :
  k0 <> k -> dict_get (dict_set d k v) k0 = dict_get d k0.
Proof.
  intros H. induction d as [|[k' v'] d IH]; cbn [dict_set dict_get].
  - apply String.eqb_neq in H. rewrite String.eqb_sym in H. now rewrite H.
  - destruct (k' =? k) eqn:E; cbn [dict_get].
    + apply String.eqb_eq in E. subst k'.
      apply String.eqb_neq in H. rewrite String.eqb_sym in H. now rewrite H.
    + now rewrite IH.
Qed.

Lemma keys_dict_set_in {V : Type} (d : dict V) k v x :
  In x (keys (dict_set d k v)) <-> x = k \/ In x (keys d).
Proof.
  unfold keys. induction d as [|[k' v'] d IH]; cbn [dict_set map fst In].
  - intuition.
  - destruct (k' =? k) eqn:E; cbn [map fst In].
    + apply String.eqb_eq in E. subst k'. intuition.
    + rewrite IH. intuition.
Qed.

Lemma keys_dict_set_nodup {V : Type} (d : dict V) k v :
  NoDup (keys d) -> NoDup (keys (dict_set d k v)).
Proof.
  unfold keys. induction d as [|[k' v'] d IH]; cbn [dict_set map fst]; intros H.
  - constructor; [intros []|constructor].
  - destruct (k' =? k) eqn:E; cbn [map fst]; [exact H|].
    inversion H as [|? ? N D]; subst. constructor; [|now apply IH].
    intros I. apply (keys_dict_set_in d k v k') in I.
    destruct I as [->|I]; [|contradiction].
    now rewrite String.eqb_refl in E.
Qed.

Lemma keys_dict_set_length {V : Type} (d : dict V) k v :
  (List.length (dict_set d k v) <= S (List.length d))%nat.
Proof.
  induction d as [|[k' v'] d IH]; cbn [dict_set List.length]; [lia|].
  destruct (k' =? k); cbn [List.length]; lia.
Qed.

Lemma map_fst_combine {A B : Type} (l : list A) (l' : list B) :
  map fst (combine l l') = firstn (List.length l') l.
Proof.
  revert l'. induction l as [|x l IH]; intros [|y l'];
    cbn [combine map fst List.length firstn]; try reflexivity.
  now rewrite IH.
Qed.

Lemma odds_fold py pairs :
  forall acc,
    let d := fold_left
               (fun d op => dict_set d (fst op)
                              (round1 py (PrimFloat.mul (snd op) 100%float)))
               pairs acc in
    (NoDup (keys acc) -> NoDup (keys d))
    /\ (forall k, In k (keys d) <-> In k (keys acc) \/ In k (map fst pairs))
    /\ (List.length d <= List.length acc + List.length pairs)%nat.
Proof.
  induction pairs as [|[o p] pairs IH]; intros acc; cbn [fold_left].
  - cbv zeta. cbn [map In List.length]. repeat split; intuition lia.
  - specialize (IH (dict_set acc o
                      (round1 py (PrimFloat.mul p 100%float)))).
    cbv zeta in *. cbn [fst snd] in *. destruct IH as (N & I & L).
    split; [|split].
    + intros H. apply N. now apply keys_dict_set_nodup.
    + intros k. rewrite I, keys_dict_set_in. cbn [map fst In]. intuition.
    + pose proof (keys_dict_set_length acc o
                    (round1 py (PrimFloat.mul p 100%float))).
      cbn [List.length]. lia.
Qed.

(** X16: the snapshot of the odds in an analysis has one entry per distinct
    outcome among those that have a price: outcomes beyond the prices, and
    prices beyond the outcomes, are dropped without an error. *)
Theorem odds_keys :
  forall py outcomes outcome_prices,
    NoDup (keys (odds py outcomes outcome_prices))
    /\ (forall k, In k (keys (odds py outcomes outcome_prices))
                  <-> In k (firstn (List.length outcome_prices) outcomes))
    /\ (List.length (odds py outcomes outcome_prices)
        <= Nat.min (List.length outcomes) (List.length outcome_prices))%nat.
Proof.
  intros py outcomes outcome_prices. unfold odds.
  destruct (odds_fold py (combine outcomes outcome_prices) []) as (N & I & L).
  cbv zeta in *. split; [|split].
  - apply N. constructor.
  - intros k. rewrite I, map_fst_combine. cbn [keys map In]. intuition.
  - rewrite length_combine in L. cbn [List.length] in L. lia.
Qed.

(** * Further properties of the market parser *)

Section FurtherParserProperties.
Variable py : Builtins.

Lemma parse_listings_app xs ys :
  parse_listings py (xs ++ ys)
  = (do a <- parse_listings py xs;
     do b <- parse_listings py ys;
     Ok (a ++ b)).
Proof.
  induction xs as [|x xs IH]; cbn [app parse_listings and_then].
  - now destruct (parse_listings py ys).
  - destruct (parse_listing py x) as [m|e].
    + rewrite IH. destruct (parse_listings py xs) as [a|]; cbn [and_then];
        [|reflexivity].
      now destruct (parse_listings py ys).
    + destruct (fetcher_catches e); [exact IH|reflexivity].
Qed.

(** The loop returns exactly when no conversion raises outside the caught
    classes, and then it returns the conversions that succeeded. *)
Lemma parse_listings_converted data markets :
  parse_listings py data = Ok markets
  <-> markets = converted py data
      /\ Forall (fun item => forall e, parse_listing py item = Raise e ->
                                       fetcher_catches e = true) data.
Proof.
  revert markets. induction data as [|item rest IH]; intros markets;
    cbn [parse_listings converted flat_map].
  - split.
    + intros [= <-]. split; [reflexivity|constructor].
    + intros [-> _]. reflexivity.
  - fold (converted py rest).
    destruct (parse_listing py item) as [m|e] eqn:P.
    + destruct (parse_listings py rest) as [ms|e'] eqn:R; cbn [and_then app].
      * destruct (proj1 (IH ms) eq_refl) as [E F]. split.
        -- intros [= <-]. split; [now rewrite E|].
           constructor; [|exact F]. intros e Q. rewrite P in Q. discriminate.
        -- intros [-> _]. now rewrite E.
      * split; [discriminate|].
        intros [-> F]. inversion F as [|? ? _ F']; subst.
        assert (X : @Raise (list Market.t) e' = Ok (converted py rest))
          by (apply IH; now split).
        discriminate.
    + destruct (fetcher_catches e) eqn:C.
      * rewrite IH. cbn [app]. split.
        -- intros [-> F]. split; [reflexivity|].
           constructor; [|exact F]. intros e0 Q. rewrite P in Q.
           injection Q as <-. exact C.
        -- intros [-> F]. inversion F; subst. now split.
      * split; [discriminate|].
        intros [_ F]. inversion F as [|? ? H _]; subst.
        specialize (H e P). congruence.
Qed.

(** What the conversions of a listing can raise. *)
Lemma py_float_raises v e :
  py_float py v = Raise e ->
  e = OverflowError \/ e = ValueError \/ e = TypeError.
Proof.
  destruct v; cbn [py_float]; intros H;
    repeat match goal with
           | H : or_raise ?o _ = Raise _ |- _ =>
               destruct o; cbn [or_raise] in H
           end;
    try discriminate; injection H as <-; auto.
Qed.

Lemma mapM_py_float_raises l e :
  mapM (py_float py) l = Raise e ->
  e = OverflowError \/ e = ValueError \/ e = TypeError.
Proof.
  induction l as [|v l IH]; cbn [mapM and_then]; [discriminate|].
  destruct (py_float py v) eqn:F; [|intros [= <-]; eapply py_float_raises; eauto].
  destruct (mapM (py_float py) l); [discriminate|].
  intros [= <-]. now apply IH.
Qed.

Lemma py_iter_raises v e : py_iter v = Raise e -> e = TypeError.
Proof. destruct v; cbn [py_iter]; congruence. Qed.

Lemma loads_raises text e :
  loads py text = Raise e -> e = JSONDecodeError \/ e = RecursionError.
Proof.
  unfold loads. destruct (json_loads py text); intros [= <-]; auto.
Qed.

Lemma parse_listing_raises item e :
  parse_listing py item = Raise e ->
  e = OverflowError \/ e = ValueError \/ e = TypeError \/ e = JSONDecodeError
  \/ e = RecursionError.
Proof.
  unfold parse_listing.
  destruct (parse_outcome_prices py _) as [ps|e1] eqn:P; cbn [and_then].
  - destruct (parse_outcomes py _) as [os|e2] eqn:O; cbn [and_then].
    + destruct (py_float py _) as [v|e3] eqn:V; cbn [and_then].
      * destruct (py_float py (get_or (Listing.liquidity item) _))
          as [l|e4] eqn:L; cbn [and_then]; [discriminate|].
        intros [= <-]. apply py_float_raises in L. intuition.
      * intros [= <-]. apply py_float_raises in V. intuition.
    + intros [= <-]. unfold parse_outcomes in O.
      destruct (get_or (Listing.outcomes item) _) as [ | | | |s| | ];
        try discriminate.
      apply loads_raises in O. intuition.
  - intros [= <-]. unfold parse_outcome_prices in P.
    assert (G : forall v, (do ps <- py_iter v; mapM (py_float py) ps)
                          = Raise e1 ->
                          e1 = OverflowError \/ e1 = ValueError
                          \/ e1 = TypeError \/ e1 = JSONDecodeError
                          \/ e1 = RecursionError).
    { intros v H. destruct (py_iter v) eqn:I; cbn [and_then] in H.
      - apply mapM_py_float_raises in H. intuition.
      - injection H as <-. apply py_iter_raises in I. auto. }
    destruct (get_or (Listing.outcomePrices item) _) as [ | | | |s| | ] eqn:Q;
      try exact (G _ P).
    destruct (loads py s) as [j|e2] eqn:D; cbn [and_then] in P.
    + exact (G j P).
    + injection P as <-. apply loads_raises in D. intuition.
Qed.
End FurtherParserProperties.

(** X17: when the request succeeds, [get_active_markets] and
    [get_markets_by_tag] return exactly when no conversion raises outside
    [ValueError], [KeyError] and [TypeError], and then they return the
    listings that convert, converted, in the order received, so never more
    markets than listings. *)
Theorem get_active_markets_returns_converted :
  forall py data markets,
    (get_active_markets py (Ok data) = Ok markets
     <-> markets = converted py data
         /\ Forall (fun item => forall e, parse_listing py item = Raise e ->
                                          fetcher_catches e = true) data)
    /\ get_markets_by_tag py (Ok data) = get_active_markets py (Ok data)
    /\ (List.length (converted py data) <= List.length data)%nat.
Proof.
  intros py data markets. split; [|split].
  - apply parse_listings_converted.
  - reflexivity.
  - unfold converted. induction data as [|item rest IH];
      cbn [flat_map List.length]; [lia|].
    rewrite length_app. destruct (parse_listing py item); cbn [List.length]; lia.
Qed.

(** X18: a listing whose conversion raises one of the caught classes is
    skipped: the call does what it does on the response without it. *)
Theorem get_active_markets_skips_malformed :
  forall py before item after e,
    parse_listing py item = Raise e ->
    fetcher_catches e = true ->
    get_active_markets py (Ok (before ++ item :: after))
    = get_active_markets py (Ok (before ++ after)).
Proof.
  intros py before item after e P C. cbn [get_active_markets and_then].
  rewrite !parse_listings_app. cbn [parse_listings]. now rewrite P, C.
Qed.

Lemma get_active_markets_skips_malformed_witness :
  get_active_markets small_runtime
                     (Ok ([mismatched_listing] ++ garbled_listing :: []))
  = get_active_markets small_runtime (Ok ([mismatched_listing] ++ [])).
Proof.
  apply (get_active_markets_skips_malformed
           small_runtime [mismatched_listing] garbled_listing []
           JSONDecodeError).
  - reflexivity.
  - reflexivity.
Defined.

(** X19: for a batch of objects, the exceptions of a conversion that the
    batch parser lets through are [OverflowError], raised when a volume, a
    liquidity or a price is an integer too large for a float, and
    [RecursionError], raised when the text of the prices or of the outcomes
    is nested deeper than the decoder allows; one such listing makes the
    whole call raise. *)
Theorem get_active_markets_lets_through :
  forall py data e,
    get_active_markets py (Ok data) = Raise e ->
    (e = OverflowError \/ e = RecursionError)
    /\ exists item, In item data /\ parse_listing py item = Raise e.
Proof.
  intros py data e. cbn [get_active_markets and_then].
  induction data as [|item rest IH]; cbn [parse_listings]; [discriminate|].
  destruct (parse_listing py item) as [m|e'] eqn:P.
  - destruct (parse_listings py rest) as [ms|e''] eqn:R; cbn [and_then];
      [discriminate|].
    intros [= <-]. destruct (IH eq_refl) as (K & x & I & Px).
    split; [exact K|]. exists x. split; [now right|exact Px].
  - destruct (fetcher_catches e') eqn:C.
    + intros H. destruct (IH H) as (K & x & I & Px).
      split; [exact K|]. exists x. split; [now right|exact Px].
    + intros [= <-]. apply parse_listing_raises in P as Q.
      split.
      * destruct Q as [->|[->|[->|[->| ->]]]]; auto; discriminate.
      * exists item. split; [now left|exact P].
Qed.

Lemma get_active_markets_lets_through_witness :
  (RecursionError = OverflowError \/ RecursionError = RecursionError)
  /\ exists item,
       In item [mismatched_listing; nested_listing; garbled_listing]
       /\ parse_listing shallow_runtime item = Raise RecursionError.
Proof.
  apply (get_active_markets_lets_through
           shallow_runtime
           [mismatched_listing; nested_listing; garbled_listing]
           RecursionError).
  vm_compute. reflexivity.
Defined.

(** An integer volume beyond every float stops the whole call as well. *)
Example oversized_listing_stops_the_call :
  get_active_markets small_runtime
    (Ok [mismatched_listing; oversized_listing; garbled_listing])
  = Raise OverflowError.
Proof. vm_compute. reflexivity. Qed.

(** X20: the single-market lookups return [None] only when the request
    fails; a listing whose conversion raises, which the batch parser would
    skip, makes them raise. *)
Theorem get_market_raises_on_malformed :
  forall py response,
    (get_market py response = Ok None <-> response = Raise RequestException)
    /\ (forall item e,
          response = Ok item ->
          parse_listing py item = Raise e ->
          get_market py response = Raise e
          /\ (fetcher_catches e = true ->
              get_active_markets py (Ok [item]) = Ok [])).
Proof.
  intros py response. split.
  - unfold get_market. destruct response as [item|e]; cbn [and_then].
    + destruct (parse_listing py item) as [m|e] eqn:P.
      * split; discriminate.
      * apply parse_listing_raises in P.
        destruct P as [->|[->|[->|[->| ->]]]]; split; discriminate.
    + destruct e; split; try discriminate; reflexivity.
  - intros item e -> P. split.
    + unfold get_market. cbn [and_then]. rewrite P.
      apply parse_listing_raises in P.
      destruct P as [->|[->|[->|[->| ->]]]]; reflexivity.
    + intros C. cbn [get_active_markets and_then parse_listings].
      now rewrite P, C.
Qed.

Lemma get_market_raises_on_malformed_witness :
  get_market small_runtime (Ok garbled_listing) = Raise JSONDecodeError
  /\ (fetcher_catches JSONDecodeError = true ->
      get_active_markets small_runtime (Ok [garbled_listing]) = Ok []).
Proof.
  apply (proj2 (get_market_raises_on_malformed small_runtime
                                               (Ok garbled_listing))
               garbled_listing JSONDecodeError).
  - reflexivity.
  - reflexivity.
Defined.

(** X21: a listing without any key converts, under a runtime that decodes
    the empty array and converts zero, to a market with empty id and slug,
    the question [Unknown], no outcome, no price, and zero volume and
    liquidity. *)
Theorem parse_listing_defaults :
  forall py zero,
    json_loads py "[]" = Loaded (JList []) ->
    float_of_int py 0 = Some zero ->
    parse_listing py empty_listing
    = Ok {| Market.id := "";
            Market.question := JStr "Unknown";
            Market.slug := JStr "";
            Market.outcome_prices := PricesList [];
            Market.outcomes := JList [];
            Market.volume := zero;
            Market.liquidity := zero;
            Market.end_date := JNull;
            Market.description := JNull |}.
Proof.
  intros py zero J F. unfold parse_listing, empty_listing.
  cbn [Listing.outcomePrices Listing.outcomes Listing.volume Listing.liquidity
       Listing.id Listing.question Listing.slug Listing.endDate
       Listing.description get_or parse_outcome_prices parse_outcomes py_float].
  unfold loads. now rewrite J, F.
Qed.

Lemma parse_listing_defaults_witness :
  parse_listing small_runtime empty_listing
  = Ok {| Market.id := "";
          Market.question := JStr "Unknown";
          Market.slug := JStr "";
          Market.outcome_prices := PricesList [];
          Market.outcomes := JList [];
          Market.volume := 0%float;
          Market.liquidity := 0%float;
          Market.end_date := JNull;
          Market.description := JNull |}.
Proof.
  apply (parse_listing_defaults small_runtime 0%float).
  - reflexivity.
  - reflexivity.
Defined.

(** * Properties of the configuration and of a single scan *)

Lemma nonempty_spec s : nonempty s = true <-> s <> "".
Proof.
  unfold nonempty. rewrite Bool.negb_true_iff. apply String.eqb_neq.
Qed.

Lemma is_valid_spec c :
  is_valid c
  = nonempty (Credentials.TELEGRAM_BOT_TOKEN c)
    && nonempty (Credentials.TELEGRAM_CHANNEL_ID c)
    && (nonempty (Credentials.OPENROUTER_API_KEY c)
        || nonempty (Credentials.GEMINI_API_KEY c)).
Proof.
  unfold is_valid, validate.
  destruct (nonempty (Credentials.TELEGRAM_BOT_TOKEN c));
    destruct (nonempty (Credentials.TELEGRAM_CHANNEL_ID c));
    destruct (nonempty (Credentials.OPENROUTER_API_KEY c));
    destruct (nonempty (Credentials.GEMINI_API_KEY c));
    reflexivity.
Qed.

(** X22: the configuration is valid exactly when the Telegram token and
    channel are set and at least one of the two analyzer keys is set; the
    Moltbook key is not required. *)
Theorem is_valid_iff :
  forall c,
    is_valid c = true
    <-> Credentials.TELEGRAM_BOT_TOKEN c <> ""
        /\ Credentials.TELEGRAM_CHANNEL_ID c <> ""
        /\ (Credentials.OPENROUTER_API_KEY c <> ""
            \/ Credentials.GEMINI_API_KEY c <> "").
Proof.
  intros c.
  rewrite is_valid_spec, !Bool.andb_true_iff, Bool.orb_true_iff,
    !nonempty_spec.
  tauto.
Qed.

(** X23: with a valid configuration and no analyzer chosen yet, OpenRouter
    is chosen when its key is set, whatever the Gemini key; otherwise Gemini
    is chosen, provided its client library can be imported and configured:
    when that raises, the exception leaves the function and no analyzer is
    chosen.  Once an analyzer is chosen, every later call returns it,
    whatever the keys then are. *)
Theorem get_analyzer_choice :
  forall c gemini_init,
    is_valid c = true ->
    _get_analyzer c gemini_init None
    = (if nonempty (Credentials.OPENROUTER_API_KEY c)
       then (Ok OpenRouter, Some OpenRouter)
       else match gemini_init with
            | Ok _ => (Ok Gemini, Some Gemini)
            | Raise e => (Raise e, None)
            end)
    /\ (forall p c' init',
          fst (_get_analyzer c gemini_init None) = Ok p ->
          _get_analyzer c' init' (snd (_get_analyzer c gemini_init None))
          = (Ok p, Some p)).
Proof.
  intros c gemini_init V. rewrite is_valid_spec in V.
  apply Bool.andb_true_iff in V. destruct V as [_ K].
  apply Bool.orb_true_iff in K.
  unfold _get_analyzer, bind, get, put, ret, lift, raise.
  destruct (nonempty (Credentials.OPENROUTER_API_KEY c)).
  - split; [reflexivity|]. cbn [fst snd]. intros p c' init' [= <-].
    reflexivity.
  - destruct K as [K|K]; [discriminate|]. rewrite K.
    destruct gemini_init as [[]|e]; cbn [fst snd].
    + split; [reflexivity|]. intros p c' init' [= <-]. reflexivity.
    + split; [reflexivity|]. discriminate.
Qed.

Lemma get_analyzer_choice_witness :
  _get_analyzer gemini_keys (Ok tt) None = (Ok Gemini, Some Gemini)
  /\ (forall p c' init',
        fst (_get_analyzer gemini_keys (Ok tt) None) = Ok p ->
        _get_analyzer c' init' (snd (_get_analyzer gemini_keys (Ok tt) None))
        = (Ok p, Some p)).
Proof.
  apply (get_analyzer_choice gemini_keys (Ok tt)).
  reflexivity.
Defined.

(** With both keys set OpenRouter is chosen and the Gemini library is not
    touched; with the Gemini key alone a library that cannot be imported
    stops the call, and the next call tries again. *)
Example analyzer_choice_cases :
  _get_analyzer
    {| Credentials.TELEGRAM_BOT_TOKEN := "123:abc";
       Credentials.TELEGRAM_CHANNEL_ID := "@edges";
       Credentials.OPENROUTER_API_KEY := "sk-or-1";
       Credentials.GEMINI_API_KEY := "g-1";
       Credentials.MOLTBOOK_API_KEY := "" |}
    (Raise (OtherError "ModuleNotFoundError")) None
  = (Ok OpenRouter, Some OpenRouter)
  /\ _get_analyzer gemini_keys (Raise (OtherError "ModuleNotFoundError")) None
     = (Raise (OtherError "ModuleNotFoundError"), None)
  /\ _get_analyzer gemini_keys (Ok tt) None = (Ok Gemini, Some Gemini).
Proof. repeat split. Qed.

(** ** A single scan *)

(** A market with list prices: the ledger is left as found, and without an
    open trade for the market no Telegram send is made. *)
Lemma market_run_listed cfg ask_peer moltbook i market r f l :
  Market.outcome_prices market = PricesList l ->
  run_file (market_run cfg ask_peer moltbook i market r f) = f
  /\ (count_open (Market.id market) (ledger f) = 0%nat ->
      sends (run_calls (market_run cfg ask_peer moltbook i market r f)) = []).
Proof.
  intros L. unfold market_run.
  destruct (analysis r) as [a|e]; [|now split].
  destruct (alert_worthy cfg a); [|now split].
  rewrite add_trade_cases, L.
  destruct (already_trading (Market.id market) (ledger f)) eqn:T.
  - split.
    + destruct (to_alert_message a); [destruct (alert_sent r)|]; reflexivity.
    + intros C. apply already_trading_false in C. congruence.
  - cbn. now split.
Qed.

Lemma scan_loop_listed cfg ask_peer moltbook n items :
  Forall (fun mr => exists l, Market.outcome_prices (fst mr) = PricesList l)
         items ->
  forall i st,
    portfolio (snd (scan_loop cfg ask_peer moltbook false n i items st))
    = portfolio st
    /\ ((forall mid, count_open mid (ledger (portfolio st)) = 0%nat) ->
        sends (calls (snd (scan_loop cfg ask_peer moltbook false n i items
                                     st)))
        = sends (calls st)).
Proof.
  induction 1 as [|[market r] rest [l L] _ IH]; intros i st.
  - now split.
  - rewrite scan_loop_cons. cbv zeta. cbn [fst] in L.
    destruct (market_run_listed cfg ask_peer moltbook i market r
                                (portfolio st) l L) as [F Q].
    destruct (market_run_sends cfg ask_peer moltbook n i market r
                               (portfolio st)) as (_ & _ & P & _).
    unfold run_outcome in P.
    set (run := market_run cfg ask_peer moltbook i market r (portfolio st))
      in *.
    set (st1 := after_market st run (pause_after n i (fst (fst (fst run))))).
    assert (E : portfolio st1 = portfolio st)
      by (unfold st1; rewrite after_market_portfolio; exact F).
    destruct (IH (S i) st1) as [P1 Q1]. split.
    + congruence.
    + intros Z. rewrite Q1 by (rewrite E; exact Z).
      unfold st1. rewrite after_market_calls, !sends_app, P, (Q (Z _)).
      now rewrite !app_nil_r.
Qed.

(** The markets of a fetched batch have list prices. *)
Lemma with_replies_listed py response markets answers :
  get_active_markets py response = Ok markets ->
  Forall (fun mr => exists l, Market.outcome_prices (fst mr) = PricesList l)
         (with_replies markets answers).
Proof.
  intros R. destruct response as [data|e]; [|discriminate].
  cbn [get_active_markets and_then] in R.
  apply Forall_forall. intros [m r] I. apply in_combine_l in I. cbn [fst].
  destruct (parse_listings_from py data markets m R I) as (item & _ & P).
  exact (parse_listing_prices_list py item m P).
Qed.

Lemma heard_listed verbose items :
  Forall (fun mr => exists l, Market.outcome_prices (fst mr) = PricesList l)
         items ->
  Forall (fun mr => exists l, Market.outcome_prices (fst mr) = PricesList l)
         (heard verbose items).
Proof.
  rewrite !Forall_forall. intros H x I. apply H.
  now apply (heard_incl verbose items).
Qed.

(** [run_scan] ends as the progress lines of the scan have it, in the state
    the loop leaves. *)
Lemma run_scan_run
      keys cfg py response answers verbose moltbook ask_peer import_ok st :
  run_scan keys cfg py response answers verbose moltbook ask_peer import_ok st
  = match validate keys, get_active_markets py response with
    | [], Ok (market :: rest) =>
        (refusal verbose (with_replies (market :: rest) answers),
         snd (scan_loop cfg ask_peer
                (moltbook_bound moltbook ask_peer import_ok) false
                (List.length (with_replies (market :: rest) answers)) 0
                (heard verbose (with_replies (market :: rest) answers))
                (entry st)))
    | _, _ => (Ok tt, st)
    end.
Proof.
  unfold run_scan. destruct (validate keys); [|reflexivity].
  destruct (get_active_markets py response) as [[|market rest]|e];
    try reflexivity.
  unfold bind. rewrite analyze_and_alert_heard. cbv zeta.
  now destruct (refusal verbose _) as [[]|e].
Qed.

Lemma refusal_announced verbose items :
  refusal verbose items = Ok tt <-> announced verbose items.
Proof.
  unfold announced. induction items as [|[market r] rest IH]; cbn [refusal].
  - split; [constructor|reflexivity].
  - destruct (announce verbose market) as [[]|e] eqn:A.
    + rewrite IH. split.
      * intros H. now constructor.
      * intros H. now inversion H.
    + split; [discriminate|].
      intros H. inversion H as [|? ? K _]; subst. cbn [fst] in K. congruence.
Qed.

Lemma announced_with_replies verbose markets answers :
  announced verbose (with_replies markets answers)
  <-> Forall (fun market => announce verbose market = Ok tt) markets.
Proof.
  unfold announced, with_replies.
  generalize 0%nat. induction markets as [|market rest IH]; intros start;
    cbn [List.length seq map combine].
  - split; constructor.
  - split; intros H; inversion H; subst; constructor; auto;
      now apply (IH (S start)).
Qed.

(** X24: a scan never changes the ledger, because every fetched market
    carries its prices as a list; with a key missing, a failed fetch or no
    market it does nothing at all; and it returns exactly when a key is
    missing or every progress line of the fetched markets can be printed:
    with [verbose] on, a fetched market whose question is neither a text
    nor a list makes [run_scan] raise. *)
Theorem run_scan_keeps_ledger :
  forall keys cfg py response answers verbose moltbook ask_peer import_ok st,
    let out := run_scan keys cfg py response answers verbose moltbook
                        ask_peer import_ok st in
    portfolio (snd out) = portfolio st
    /\ (is_valid keys = false
        \/ (exists e, get_active_markets py response = Raise e)
        \/ get_active_markets py response = Ok [] ->
        out = (Ok tt, st))
    /\ (fst out = Ok tt
        <-> is_valid keys = false
            \/ forall markets,
                 get_active_markets py response = Ok markets ->
                 Forall (fun market => announce verbose market = Ok tt)
                        markets).
Proof.
  intros keys cfg py response answers verbose moltbook ask_peer import_ok st.
  cbv zeta. rewrite run_scan_run. unfold is_valid. split; [|split].
  - destruct (validate keys); [|reflexivity].
    destruct (get_active_markets py response) as [[|market rest]|e] eqn:R;
      try reflexivity.
    cbn [snd].
    now destruct (scan_loop_listed cfg ask_peer
                    (moltbook_bound moltbook ask_peer import_ok)
                    (List.length (with_replies (market :: rest) answers))
                    (heard verbose (with_replies (market :: rest) answers))
                    (heard_listed verbose _
                       (with_replies_listed py response _ answers R))
                    0%nat (entry st)) as [-> _].
  - intros [V|[[e R]|R]].
    + destruct (validate keys); [discriminate|reflexivity].
    + rewrite R. now destruct (validate keys).
    + rewrite R. now destruct (validate keys).
  - destruct (validate keys) as [|k ks]; cbn [List.length Nat.eqb].
    + destruct (get_active_markets py response) as [[|market rest]|e] eqn:R;
        cbn [fst].
      * split; [|reflexivity]. intros _. right. intros markets [= <-].
        constructor.
      * rewrite refusal_announced, announced_with_replies. split.
        -- intros H. right. intros markets [= <-]. exact H.
        -- intros [H|H]; [discriminate|]. now apply H.
      * split; [|reflexivity]. intros _. right. discriminate.
    + split; [auto|reflexivity].
Qed.

(** A fetched market without a question text stops the verbose scan before
    its first analysis; the silent scan goes through. *)
Example untitled_market_stops_the_scan :
  run_scan openrouter_keys Config.default small_runtime
           (Ok [untitled_listing]) (fun _ => answering (Ok (edge 9)))
           true false None true fresh
  = (Raise TypeError, fresh)
  /\ run_scan openrouter_keys Config.default small_runtime
              (Ok [untitled_listing]) (fun _ => answering (Ok (edge 9)))
              false false None true fresh
     = (Ok tt, mk_state None [Analyze 0; AddTrade 0] 0).
Proof. split; vm_compute; reflexivity. Qed.

(** X25: a scan that starts from a ledger without open trades makes no
    Telegram send, whatever the analyses say. *)
Theorem run_scan_sends_nothing_without_open_trades :
  forall keys cfg py response answers verbose moltbook ask_peer import_ok st,
    (forall mid, count_open mid (ledger (portfolio st)) = 0%nat) ->
    sends (calls (snd (run_scan keys cfg py response answers verbose moltbook
                                ask_peer import_ok st)))
    = sends (calls st).
Proof.
  intros keys cfg py response answers verbose moltbook ask_peer import_ok st Z.
  rewrite run_scan_run.
  destruct (validate keys); [|reflexivity].
  destruct (get_active_markets py response) as [[|market rest]|e] eqn:R;
    try reflexivity.
  cbn [snd].
  destruct (scan_loop_listed cfg ask_peer
              (moltbook_bound moltbook ask_peer import_ok)
              (List.length (with_replies (market :: rest) answers))
              (heard verbose (with_replies (market :: rest) answers))
              (heard_listed verbose _
                 (with_replies_listed py response _ answers R))
              0%nat (entry st)) as [_ Q].
  now rewrite Q.
Qed.

Lemma run_scan_sends_nothing_without_open_trades_witness :
  sends (calls (snd (run_scan openrouter_keys Config.default small_runtime
                              (Ok [mismatched_listing])
                              (fun _ => answering (Ok (edge 9)))
                              true true None true fresh)))
  = sends (calls fresh)
  /\ calls (snd (run_scan openrouter_keys Config.default small_runtime
                          (Ok [mismatched_listing])
                          (fun _ => answering (Ok (edge 9)))
                          true true None true fresh))
     = [Analyze 0; AddTrade 0].
Proof.
  split.
  - apply (run_scan_sends_nothing_without_open_trades
             openrouter_keys Config.default small_runtime
             (Ok [mismatched_listing]) (fun _ => answering (Ok (edge 9)))
             true true None true fresh).
    intros mid. reflexivity.
  - vm_compute. reflexivity.
Defined.

(** * Properties of the heartbeat *)

Lemma reads_as_cases f d :
  reads_as f d
  <-> (f = NoFile /\ d = [])
      \/ (exists e, f = Unreadable e /\ heartbeat_catches e = true /\ d = [])
      \/ f = Holds (JDict d).
Proof.
  unfold reads_as, _load_heartbeat, bind, get, ret, raise.
  destruct f as [|e|v].
  - split.
    + intros [= <-]. now left.
    + intros [[_ ->]|[(e & H & _)|H]]; [reflexivity|discriminate..].
  - destruct (heartbeat_catches e) eqn:C; split.
    + intros [= <-]. right. left. now exists e.
    + intros [[H _]|[(e' & _ & _ & ->)|H]]; [discriminate|reflexivity|
                                             discriminate].
    + discriminate.
    + intros [[H _]|[(e' & [= <-] & C' & _)|H]]; [discriminate|congruence|
                                                 discriminate].
  - split.
    + intros [= ->]. now right; right.
    + intros [[H _]|[(e & H & _)|[= ->]]]; [discriminate..|reflexivity].
Qed.

Lemma update_heartbeat_run task stamp f d :
  reads_as f d ->
  update_heartbeat task stamp f
  = (Ok tt, Holds (JDict (dict_set d task (JStr stamp)))).
Proof.
  intros R. unfold update_heartbeat, bind. now rewrite R.
Qed.

(** A file that does not load as an object cannot be stamped. *)
Lemma update_heartbeat_fails task stamp f :
  (forall d, ~ reads_as f d) ->
  exists e, update_heartbeat task stamp f = (Raise e, f).
Proof.
  intros N. unfold update_heartbeat, bind.
  destruct (_load_heartbeat f) as [res f'] eqn:L.
  assert (f' = f) as ->.
  { revert L. unfold _load_heartbeat, bind, get, ret, raise.
    destruct f as [|e|v]; [|destruct (heartbeat_catches e)|]; congruence. }
  destruct res as [v|e]; [|now exists e].
  destruct v as [ | | | | | |d]; try (now exists TypeError).
  now destruct (N d).
Qed.

Lemma time_since_last_run clock task now f d :
  reads_as f d ->
  time_since_last clock task now f = (Ok (elapsed clock task now d), f).
Proof.
  intros R. unfold time_since_last, elapsed, bind. rewrite R.
  unfold lift. cbn [py_in getitem].
  destruct (dict_get d task) as [v|]; cbn [negb or_raise]; [|reflexivity].
  now destruct (stored_time clock v).
Qed.

(** A heartbeat on a file that loads as an object: nothing when the last
    check is less than four hours old, otherwise the three checks in order
    and the stamp. *)
Lemma run_moltbook_heartbeat_run clock api_key now stamp s d :
  reads_as (heartbeat s) d ->
  run_moltbook_heartbeat clock api_key now stamp s
  = if PrimFloat.ltb (elapsed clock "moltbook_check" now d) 4%float
    then (Ok tt, s)
    else (Ok tt,
          mk_heartbeat
            (Holds (JDict (dict_set d "moltbook_check" (JStr stamp))))
            (requests s ++ due_requests api_key)).
Proof.
  intros R.
  unfold run_moltbook_heartbeat, bind at 1, on_heartbeat at 1.
  rewrite (time_since_last_run clock _ now _ d R).
  destruct (PrimFloat.ltb _ 4%float); [now destruct s|].
  unfold check, due_requests, when, bind, send, ret, on_heartbeat.
  destruct s as [f qs]. cbn [heartbeat requests] in *.
  destruct (nonempty api_key); cbn [heartbeat requests];
    rewrite (update_heartbeat_run _ _ _ d R);
    rewrite ?app_nil_r, <- ?app_assoc; reflexivity.
Qed.




(** A file whose bytes are no text, and a file that holds a list, cannot be
    stamped; an absent file is created. *)
Example update_heartbeat_cases :
  update_heartbeat "market_scan" eight (Unreadable UnicodeDecodeError)
  = (Raise UnicodeDecodeError, Unreadable UnicodeDecodeError)
  /\ update_heartbeat "market_scan" eight (Holds (JList []))
     = (Raise TypeError, Holds (JList []))
  /\ update_heartbeat "market_scan" eight (Unreadable JSONDecodeError)
     = (Ok tt, Holds (JDict [("market_scan", JStr eight)]))
  /\ update_heartbeat "market_scan" eight NoFile
     = (Ok tt, Holds (JDict [("market_scan", JStr eight)])).
Proof. repeat split. Qed.

(** X27: on a file that loads as an object, a Moltbook heartbeat that was
    never recorded, or whose stamp cannot be read, is due: with an API key
    the status, the messages and the feed are requested, in this order,
    without a key nothing is requested, and in both cases the check is
    stamped as done. *)
Theorem run_moltbook_heartbeat_when_never_recorded :
  forall clock api_key now stamp s d,
    reads_as (heartbeat s) d ->
    (forall v, dict_get d "moltbook_check" = Some v ->
               stored_time clock v = None) ->
    run_moltbook_heartbeat clock api_key now stamp s
    = (Ok tt,
       mk_heartbeat
         (Holds (JDict (dict_set d "moltbook_check" (JStr stamp))))
         (requests s
          ++ (if nonempty api_key
              then [StatusRequest; DMCheckRequest; FeedRequest]
              else []))).
Proof.
  intros clock api_key now0 stamp s d R U.
  rewrite (run_moltbook_heartbeat_run clock api_key now0 stamp s d R).
  unfold elapsed.
  destruct (dict_get d "moltbook_check") as [v|].
  - now rewrite (U v eq_refl).
  - reflexivity.
Qed.

Lemma run_moltbook_heartbeat_when_never_recorded_witness :
  run_moltbook_heartbeat sample_clock "" ten eight damaged_heartbeat
  = (Ok tt,
     mk_heartbeat
       (Holds (JDict (dict_set [("market_scan", JStr eight);
                                ("moltbook_check", JInt 0)]
                               "moltbook_check" (JStr eight))))
       (requests damaged_heartbeat
        ++ (if nonempty ""
            then [StatusRequest; DMCheckRequest; FeedRequest]
            else []))).
Proof.
  apply (run_moltbook_heartbeat_when_never_recorded
           sample_clock "" ten eight damaged_heartbeat
           [("market_scan", JStr eight); ("moltbook_check", JInt 0)]).
  - reflexivity.
  - intros v H. injection H as <-. reflexivity.
Defined.

(** X28: after a heartbeat that was due, whether the check was never
    recorded, its stamp unreadable, or four hours or more old, and that was
    stamped with a timestamp the clock reads, the next one does nothing
    when fewer than four hours have passed since that stamp, and otherwise
    makes the requests again and stamps anew. *)
Theorem run_moltbook_heartbeat_throttled :
  forall clock api_key now stamp now' stamp' s d hours t,
    reads_as (heartbeat s) d ->
    time_since_last clock "moltbook_check" now (heartbeat s)
    = (Ok hours, heartbeat s) ->
    PrimFloat.ltb hours 4%float = false ->
    fromisoformat clock stamp = Some t ->
    run_moltbook_heartbeat clock api_key now' stamp'
      (snd (run_moltbook_heartbeat clock api_key now stamp s))
    = if PrimFloat.ltb (hours_between t now') 4%float
      then (Ok tt, snd (run_moltbook_heartbeat clock api_key now stamp s))
      else (Ok tt,
            mk_heartbeat
              (Holds (JDict (dict_set
                               (dict_set d "moltbook_check" (JStr stamp))
                               "moltbook_check" (JStr stamp'))))
              (requests (snd (run_moltbook_heartbeat clock api_key now stamp
                                                     s))
               ++ due_requests api_key)).
Proof.
  intros clock api_key now0 stamp now1 stamp' s d hours t R H Due T.
  rewrite (time_since_last_run clock _ now0 _ d R) in H.
  injection H as H.
  rewrite (run_moltbook_heartbeat_run clock api_key now0 stamp s d R).
  rewrite H, Due. cbn [snd].
  rewrite (run_moltbook_heartbeat_run clock api_key now1 stamp' _
             (dict_set d "moltbook_check" (JStr stamp)))
    by reflexivity.
  unfold elapsed. rewrite dict_get_set_same. cbn [stored_time requests].
  now rewrite T.
Qed.

Lemma run_moltbook_heartbeat_throttled_witness :
  run_moltbook_heartbeat sample_clock "key" afternoon eight
    (snd (run_moltbook_heartbeat sample_clock "key" 43200000000 noon
            morning_heartbeat))
  = (if PrimFloat.ltb (hours_between 43200000000 afternoon) 4%float
     then (Ok tt,
           snd (run_moltbook_heartbeat sample_clock "key" 43200000000 noon
                  morning_heartbeat))
     else (Ok tt,
           mk_heartbeat
             (Holds (JDict (dict_set
                              (dict_set [("moltbook_check", JStr eight)]
                                        "moltbook_check" (JStr noon))
                              "moltbook_check" (JStr eight))))
             (requests
                (snd (run_moltbook_heartbeat sample_clock "key" 43200000000
                        noon morning_heartbeat))
              ++ due_requests "key")))
  /\ run_moltbook_heartbeat sample_clock "key" 43200000000 noon
       morning_heartbeat
     = (Ok tt,
        mk_heartbeat (Holds (JDict [("moltbook_check", JStr noon)]))
                     [StatusRequest; DMCheckRequest; FeedRequest])
  /\ PrimFloat.ltb (hours_between 43200000000 afternoon) 4%float = true.
Proof.
  split; [|split].
  - apply (run_moltbook_heartbeat_throttled
             sample_clock "key" 43200000000%Z noon afternoon eight
             morning_heartbeat [("moltbook_check", JStr eight)]
             (hours_between 28800000000 43200000000) 43200000000%Z).
    + reflexivity.
    + reflexivity.
    + vm_compute. reflexivity.
    + reflexivity.
  - vm_compute. reflexivity.
  - vm_compute. reflexivity.
Defined.

Lemma dict_set_fresh {V : Type} (d : dict V) k v :
  ~ In k (keys d) -> dict_set d k v = d ++ [(k, v)].
Proof.
  unfold keys. induction d as [|[k' v'] d IH]; cbn [dict_set map fst In app];
    intros H; [reflexivity|].
  destruct (k' =? k) eqn:E.
  - apply String.eqb_eq in E. tauto.
  - rewrite IH; tauto.
Qed.

Lemma summary_fold clock now data :
  forall start acc,
    NoDup (keys acc ++ keys data) ->
    fold_left
      (fun summary ikv =>
         dict_set summary (fst (snd ikv))
                  (summary_entry clock (now (fst ikv)) (snd (snd ikv))))
      (combine (seq start (List.length data)) data) acc
    = acc ++ map (fun ikv =>
                    (fst (snd ikv),
                     summary_entry clock (now (fst ikv)) (snd (snd ikv))))
                 (combine (seq start (List.length data)) data).
Proof.
  induction data as [|[k v] data IH]; intros start acc N;
    cbn [List.length seq combine fold_left map fst snd].
  - now rewrite app_nil_r.
  - cbn [keys map fst] in N. fold (keys data) in N.
    rewrite dict_set_fresh.
    + rewrite IH.
      * now rewrite <- app_assoc.
      * unfold keys in *. rewrite map_app, <- app_assoc. exact N.
    + intros I. apply NoDup_remove_2 in N. apply N.
      apply in_or_app. now left.
Qed.

Lemma summary_list_keys clock now data :
  forall start,
    keys (map (fun ikv : nat * (string * json) =>
                 (fst (snd ikv),
                  summary_entry clock (now (fst ikv)) (snd (snd ikv))))
              (combine (seq start (List.length data)) data))
    = keys data.
Proof.
  unfold keys. induction data as [|[k v] data IH]; intros start;
    cbn [List.length seq combine map fst snd]; [reflexivity|].
  now rewrite IH.
Qed.

Lemma summary_list_get clock now data task v :
  forall start,
    dict_get data task = Some v ->
    exists i,
      dict_get (map (fun ikv : nat * (string * json) =>
                       (fst (snd ikv),
                        summary_entry clock (now (fst ikv)) (snd (snd ikv))))
                    (combine (seq start (List.length data)) data)) task
      = Some (summary_entry clock (now i) v).
Proof.
  induction data as [|[k w] data IH]; intros start;
    cbn [List.length seq combine map fst snd dict_get]; [discriminate|].
  destruct (k =? task).
  - intros [= <-]. now exists start.
  - apply IH.
Qed.

(** X29: for a file that loads as an object, the summary lists exactly the
    tasks on file, in their order; each entry carries the stored stamp as
    [last_run], and its [hours_ago] is [None] exactly when the stamp cannot
    be read as a timestamp. *)
Theorem get_heartbeat_summary_lists_tasks :
  forall clock now f d,
    reads_as f d ->
    NoDup (keys d) ->
    exists summary,
      get_heartbeat_summary clock now f = (Ok summary, f)
      /\ keys summary = keys d
      /\ (forall task v,
            dict_get d task = Some v ->
            exists info,
              dict_get summary task = Some info
              /\ dict_get info "last_run" = Some v
              /\ (dict_get info "hours_ago" = Some JNull
                  <-> stored_time clock v = None)).
Proof.
  intros clock now0 f d R N.
  unfold get_heartbeat_summary, bind. rewrite R.
  unfold lift, ret. cbn [py_items]. rewrite summary_fold by exact N.
  cbn [app].
  eexists. split; [reflexivity|]. split.
  - apply summary_list_keys.
  - intros task v G.
    destruct (summary_list_get clock now0 d task v 0%nat G) as [i ->].
    eexists. split; [reflexivity|].
    unfold summary_entry. destruct (stored_time clock v) as [last|].
    + cbn. split; [reflexivity|]. split; discriminate.
    + cbn. split; [reflexivity|]. split; reflexivity.
Qed.

Lemma get_heartbeat_summary_lists_tasks_witness :
  exists summary,
    get_heartbeat_summary sample_clock (fun _ => ten)
                          (heartbeat damaged_heartbeat)
    = (Ok summary, heartbeat damaged_heartbeat)
    /\ keys summary = keys [("market_scan", JStr eight);
                            ("moltbook_check", JInt 0)]
    /\ (forall task v,
          dict_get [("market_scan", JStr eight); ("moltbook_check", JInt 0)]
                   task = Some v ->
          exists info,
            dict_get summary task = Some info
            /\ dict_get info "last_run" = Some v
            /\ (dict_get info "hours_ago" = Some JNull
                <-> stored_time sample_clock v = None)).
Proof.
  apply (get_heartbeat_summary_lists_tasks
           sample_clock (fun _ => ten) (heartbeat damaged_heartbeat)
           [("market_scan", JStr eight); ("moltbook_check", JInt 0)]).
  - reflexivity.
  - cbn. repeat constructor; cbn; intuition discriminate.
Defined.

(** X30: a run with [--once] stamps the scan as done exactly when
    [run_scan] returns and the heartbeat file loads as an object.  A scan
    that raises (its progress lines are always on) leaves [main] with the
    heartbeat file untouched; a scan that was skipped because a key is
    missing returns, and is stamped like any other.  The stamps of the
    other tasks are kept. *)
Theorem main_once_stamps_returned_scans :
  forall keys cfg py response answers moltbook ask_peer import_ok stamp st hb,
    let scan := run_scan keys cfg py response answers true moltbook ask_peer
                         import_ok st in
    let out := main_once keys cfg py response answers moltbook ask_peer
                         import_ok stamp (st, hb) in
    fst (snd out) = snd scan
    /\ (forall e, fst scan = Raise e -> out = (Raise e, (snd scan, hb)))
    /\ (fst scan = Ok tt ->
        (forall d,
            reads_as hb d ->
            fst out = Ok tt
            /\ snd (snd out)
               = Holds (JDict (dict_set d "market_scan" (JStr stamp)))
            /\ dict_get (dict_set d "market_scan" (JStr stamp)) "market_scan"
               = Some (JStr stamp)
            /\ (forall task, task <> "market_scan" ->
                  dict_get (dict_set d "market_scan" (JStr stamp)) task
                  = dict_get d task))
        /\ ((forall d, ~ reads_as hb d) ->
            exists e, fst out = Raise e /\ snd (snd out) = hb))
    /\ (is_valid keys = false -> scan = (Ok tt, st)).
Proof.
  intros keys cfg py response answers moltbook ask_peer import_ok stamp st hb.
  cbv zeta. unfold main_once. cbn [fst snd].
  destruct (run_scan keys cfg py response answers true moltbook ask_peer
                     import_ok st) as [[[]|e] st'] eqn:Scan; cbn [fst snd].
  - split; [now destruct (update_heartbeat _ _ hb)|].
    split; [discriminate|]. split.
    + intros _. split.
      * intros d R. rewrite (update_heartbeat_run _ _ hb d R). cbn [fst snd].
        split; [reflexivity|]. split; [reflexivity|].
        split; [apply dict_get_set_same|].
        intros task D. now apply dict_get_set_other.
      * intros N.
        destruct (update_heartbeat_fails "market_scan" stamp hb N)
          as [e ->].
        now exists e.
    + intros V. rewrite run_scan_run in Scan. unfold is_valid in V.
      destruct (validate keys); [discriminate|]. congruence.
  - split; [reflexivity|]. split; [now intros e' [= <-]|]. split.
    + discriminate.
    + intros V. rewrite run_scan_run in Scan. unfold is_valid in V.
      destruct (validate keys); [discriminate|]. congruence.
Qed.

(** A fetched market whose question is [null] stops [--once] before the
    heartbeat; without credentials the scan is skipped and stamped. *)
Example main_once_cases :
  main_once openrouter_keys Config.default small_runtime
            (Ok [untitled_listing]) (fun _ => answering (Ok (edge 9)))
            false None true noon (fresh, NoFile)
  = (Raise TypeError, (fresh, NoFile))
  /\ main_once no_keys Config.default small_runtime
               (Ok [untitled_listing]) (fun _ => answering (Ok (edge 9)))
               false None true noon (fresh, NoFile)
     = (Ok tt, (fresh, Holds (JDict [("market_scan", JStr noon)]))).
Proof. split; vm_compute; reflexivity. Qed.
